(** * Titan-Menu: remote device access orchestrator

    A shallow embedding of the device command runner (ssh_remote.py), its
    configuration tables (ssh_config.py, bastion_config.py), the output
    parsers (ssh_parsers.py), the bastion manager (bastion_manager.py) and
    the jumpbox handler (nre_jumpbox.py), with the properties of the
    specification stated and proved over it.

    Text is modelled as [string], a sequence of bytes: ASCII characters are
    one byte each, and bytes above 127 belong to the UTF-8 encoding of the
    other characters. The case functions and the white-space test below act
    on ASCII and leave bytes above 127 alone, so they agree with Python's
    [str.upper], [str.lower] and [str.strip] on ASCII text and on the
    characters those leave unchanged; statements that depend on letter case
    are made for ASCII text.
    The dictionaries the parsers build and the command tables are [gmap]s;
    the configuration tables the code iterates over or reads with [get] are
    association lists in insertion order. *)

From Stdlib Require Import Ascii String List Bool Arith ZArith Lia DecimalString.
From stdpp Require Import base option list gmap strings fin_maps.

Local Open Scope string_scope.
Local Open Scope list_scope.

(** ** Python string primitives *)

Module PyStr.

Definition code (c : ascii) : nat := nat_of_ascii c.

Definition between (lo hi : nat) (c : ascii) : bool :=
  Nat.leb lo (code c) && Nat.leb (code c) hi.

Definition is_upper_c : ascii -> bool := between 65 90.
Definition is_lower_c : ascii -> bool := between 97 122.
Definition is_digit_c : ascii -> bool := between 48 57.

(** [str.isspace] on one character: TAB..CR, FS..US and the blank. *)
Definition is_space_c (c : ascii) : bool :=
  between 9 13 c || between 28 32 c.

Definition lower_c (c : ascii) : ascii :=
  if is_upper_c c then ascii_of_nat (code c + 32) else c.

Definition upper_c (c : ascii) : ascii :=
  if is_lower_c c then ascii_of_nat (code c - 32) else c.

Fixpoint map_s (f : ascii -> ascii) (s : string) : string :=
  match s with
  | EmptyString => EmptyString
  | String c s' => String (f c) (map_s f s')
  end.

(** [s.lower()] and [s.upper()] *)
Definition lower : string -> string := map_s lower_c.
Definition upper : string -> string := map_s upper_c.

(** [s.lstrip()], [s.rstrip()], [s.strip()] *)
Fixpoint lstrip (s : string) : string :=
  match s with
  | EmptyString => EmptyString
  | String c s' => if is_space_c c then lstrip s' else s
  end.

Fixpoint rstrip (s : string) : string :=
  match s with
  | EmptyString => EmptyString
  | String c s' =>
      match rstrip s' with
      | EmptyString => if is_space_c c then EmptyString else String c EmptyString
      | r => String c r
      end
  end.

Definition strip (s : string) : string := rstrip (lstrip s).

(** [s.startswith(p)] *)
Fixpoint startswith (p s : string) : bool :=
  match p, s with
  | EmptyString, _ => true
  | String a p', String b s' => Ascii.eqb a b && startswith p' s'
  | String _ _, EmptyString => false
  end.

(** [needle in hay] *)
Fixpoint contains (needle hay : string) : bool :=
  startswith needle hay ||
  match hay with
  | EmptyString => false
  | String _ hay' => contains needle hay'
  end.

(** [s[:n]] *)
Fixpoint take (n : nat) (s : string) : string :=
  match n, s with
  | S n', String c s' => String c (take n' s')
  | _, _ => EmptyString
  end.

(** [s[n:]] *)
Fixpoint drop (n : nat) (s : string) : string :=
  match n, s with
  | S n', String _ s' => drop n' s'
  | _, _ => s
  end.

(** [s.split(sep)] for a one-character separator: the pieces between the
    occurrences of [sep], always at least one piece. *)
Fixpoint split (sep : ascii) (s : string) : list string :=
  match s with
  | EmptyString => [EmptyString]
  | String c s' =>
      if Ascii.eqb c sep then EmptyString :: split sep s'
      else match split sep s' with
           | [] => [String c EmptyString]
           | p :: ps => String c p :: ps
           end
  end.

(** [sep.join(l)] *)
Fixpoint join (sep : string) (l : list string) : string :=
  match l with
  | [] => EmptyString
  | [x] => x
  | x :: rest => x +:+ sep +:+ join sep rest
  end.

(** [str(n)] for a non-negative integer *)
Definition of_nat (n : nat) : string :=
  NilZero.string_of_uint (Nat.to_uint n).

Definition newline : ascii := ascii_of_nat 10.
Definition nl : string := String newline EmptyString.

(** [c in s] for one character *)
Fixpoint has_char (c : ascii) (s : string) : bool :=
  match s with
  | EmptyString => false
  | String b s' => Ascii.eqb b c || has_char c s'
  end.

(** No character of [s] is an upper-case letter. *)
Fixpoint no_upper (s : string) : bool :=
  match s with
  | EmptyString => true
  | String c s' => negb (is_upper_c c) && no_upper s'
  end.

(** A text that is empty or starts with a character that is not white
    space. *)
Definition no_leading_space (s : string) : Prop :=
  match s with
  | EmptyString => True
  | String c _ => is_space_c c = false
  end.

(** Every character of [s] is an ASCII character. *)
Fixpoint is_ascii (s : string) : bool :=
  match s with
  | EmptyString => true
  | String c s' => Nat.ltb (code c) 128 && is_ascii s'
  end.

(** The UTF-8 encoding of U+03D2, GREEK UPSILON WITH HOOK SYMBOL: an
    upper-case letter (category Lu, [str.isupper] holds of it) that has no
    lower-case form, so that [str.upper] and [str.lower] return it as it
    is. *)
Definition upsilon_hook : string :=
  String (ascii_of_nat 207) (String (ascii_of_nat 146) EmptyString).


End PyStr.

(** ** ssh_config.py *)

Definition DEFAULT_USERNAMES : list string :=
  [ "vn59iz6"; "neteng"; "admin"; "netman"; "svc_netman"; "bvneteng";
    "bootstrap"; "vendor"; "nettitansvc"; "gec_netengmonitor";
    "svc_netengmonitor" ].

Definition DEVICE_SPECIFIC_USERNAMES : list (string * list string) :=
  [ ("cisco_ios",
      [ "vn59iz6"; "admin"; "netadmin"; "operator"; "root"; "network";
        "automation"; "neteng" ]);
    ("arista_eos", [ "admin"; "automation"; "netadmin"; "operator"; "neteng" ]);
    ("juniper_junos", [ "root"; "admin"; "netops"; "automation"; "neteng" ]);
    ("sonic_cli", [ "admin"; "netadmin"; "automation"; "neteng" ]) ].

Definition CISCO_IOS_USERNAMES : list string :=
  [ "admin"; "root"; "netadmin"; "operator"; "network"; "monitor"; "view";
    "automation"; "service"; "support"; "neteng"; "netman"; "bootstrap" ].

(** [OS_TYPES], in insertion order (the order the code iterates in). *)
Definition OS_TYPES : list (string * string) :=
  [ ("IOS", "cisco_ios"); ("EOS", "arista_eos");
    ("JUNOS", "juniper_junos"); ("SONIC", "sonic_cli") ].

Definition SHOW_COMMANDS : gmap string (gmap string string) :=
  list_to_map
    [ ("cisco_ios",
        list_to_map [ ("version", "show version");
                      ("bgp_summary", "show ip bgp summary");
                      ("interfaces", "show interfaces brief");
                      ("routes", "show ip route");
                      ("neighbors", "show cdp neighbors brief") ]);
      ("arista_eos",
        list_to_map [ ("version", "show version");
                      ("bgp_summary", "show ip bgp summary");
                      ("interfaces", "show interfaces brief");
                      ("routes", "show ip route");
                      ("neighbors", "show lldp neighbors") ]);
      ("juniper_junos",
        list_to_map [ ("version", "show version");
                      ("bgp_summary", "show bgp summary");
                      ("interfaces", "show interfaces brief");
                      ("routes", "show route");
                      ("neighbors", "show lldp neighbors") ]);
      ("sonic_cli",
        list_to_map [ ("version", "show version");
                      ("bgp_summary", "show ip bgp summary");
                      ("interfaces", "show interfaces brief");
                      ("routes", "show ip route");
                      ("neighbors", "show lldp neighbors") ]) ].

(** [d.get(k)] on a dictionary kept in insertion order *)
Fixpoint assoc_get {V} (k : string) (d : list (string * V)) : option V :=
  match d with
  | [] => None
  | (k', v) :: d' => if String.eqb k k' then Some v else assoc_get k d'
  end.

(** ** DeviceCommandRunner._normalize_os_type *)

(** The [for key, value in OS_TYPES.items()] loop: the value of the first key
    that contains, or is contained in, the upper-cased tag. *)
Fixpoint first_substring_match (os_upper : string) (d : list (string * string))
  : option string :=
  match d with
  | [] => None
  | (key, value) :: d' =>
      if PyStr.contains key os_upper || PyStr.contains os_upper key
      then Some value
      else first_substring_match os_upper d'
  end.

Definition _normalize_os_type (os_type : string) : string :=
  let os_upper := PyStr.strip (PyStr.upper os_type) in
  match assoc_get os_upper OS_TYPES with
  | Some v => v
  | None =>
      match first_substring_match os_upper OS_TYPES with
      | Some v => v
      | None => PyStr.lower os_upper
      end
  end.

(** ** The fragment of [re] the parsers use

    Every pattern of ssh_parsers.py is a sequence of literals, repetitions of
    one character class (greedy or lazy), one capture group and anchors. The
    matcher backtracks in the order Python's does, so the first match found is
    the one [re.search] / [re.match] return. *)

Module Re.

Inductive item : Type :=
  | Lit (s : string)                                (* literal text *)
  | Rep (p : ascii -> bool) (lo : nat) (greedy : bool)  (* [p]{lo,} or [p]{lo,}? *)
  | GOpen                                           (* ( *)
  | GClose                                          (* ) *)
  | Eol                                             (* $ under re.MULTILINE *)
  | Bos.                                            (* ^ without re.MULTILINE *)

Definition pattern := list item.

(** Character classes *)
Definition dot (c : ascii) : bool := negb (Ascii.eqb c PyStr.newline).
Definition space : ascii -> bool := PyStr.is_space_c.
Definition digit : ascii -> bool := PyStr.is_digit_c.
Definition digit_or_dot (c : ascii) : bool :=
  PyStr.is_digit_c c || Ascii.eqb c "."%char.
Definition upper_or_digit (c : ascii) : bool :=
  PyStr.is_upper_c c || PyStr.is_digit_c c.

(** [run its pos s gs g]: match [its] against [s], which starts at offset
    [pos] of the subject; [gs] is the subject suffix where the group opened
    and [g] the text captured so far. Returns group 1 of the match. *)
Fixpoint run (its : pattern) (pos : nat) (s gs g : string) {struct its}
  : option string :=
  match its with
  | [] => Some g
  | Lit l :: r =>
      if PyStr.startswith l s
      then run r (pos + String.length l) (PyStr.drop (String.length l) s) gs g
      else None
  | GOpen :: r => run r pos s s g
  | GClose :: r =>
      run r pos s gs (PyStr.take (String.length gs - String.length s) gs)
  | Eol :: r =>
      match s with
      | EmptyString => run r pos s gs g
      | String c _ => if Ascii.eqb c PyStr.newline then run r pos s gs g else None
      end
  | Bos :: r => if Nat.eqb pos 0 then run r pos s gs g else None
  | Rep p lo greedy :: r =>
      (fix go (s : string) (n : nat) {struct s} : option string :=
         let more (_ : unit) :=
           match s with
           | String c s' => if p c then go s' (S n) else None
           | EmptyString => None
           end in
         let stop (_ : unit) :=
           if Nat.leb lo n then run r (pos + n) s gs g else None in
         if greedy
         then match more tt with Some x => Some x | None => stop tt end
         else match stop tt with Some x => Some x | None => more tt end) s 0
  end.

(** [re.match(pattern, s)]: anchored at the start of [s]. *)
Definition re_match (its : pattern) (s : string) : option string :=
  run its 0 s EmptyString EmptyString.

(** [re.search(pattern, s)]: the leftmost start position that matches. *)
Fixpoint search_from (its : pattern) (pos : nat) (s : string) : option string :=
  match run its pos s EmptyString EmptyString with
  | Some g => Some g
  | None =>
      match s with
      | EmptyString => None
      | String _ s' => search_from its (S pos) s'
      end
  end.

Definition re_search (its : pattern) (s : string) : option string :=
  search_from its 0 s.

(** The patterns of ssh_parsers.py *)
Definition cisco_model : pattern :=          (* Cisco (.*?) Software *)
  [Lit "Cisco "; GOpen; Rep dot 0 false; GClose; Lit " Software"].
Definition version_number : pattern :=       (* Version\s+([\d.]+) *)
  [Lit "Version"; Rep space 1 true; GOpen; Rep digit_or_dot 1 true; GClose].
Definition uptime_is : pattern :=            (* uptime is (.+)$ , MULTILINE *)
  [Lit "uptime is "; GOpen; Rep dot 1 true; GClose; Eol].
Definition serial_number : pattern :=        (* Serial Number\s*:\s*([A-Z0-9]+) *)
  [Lit "Serial Number"; Rep space 0 true; Lit ":"; Rep space 0 true;
   GOpen; Rep upper_or_digit 1 true; GClose].
Definition router_id : pattern :=            (* ([0-9.]+), *)
  [GOpen; Rep digit_or_dot 1 true; GClose; Lit ","].
Definition as_number : pattern :=            (* AS (\d+) *)
  [Lit "AS "; GOpen; Rep digit 1 true; GClose].
Definition release_number : pattern :=       (* Release\s+([\d.]+) *)
  [Lit "Release"; Rep space 1 true; GOpen; Rep digit_or_dot 1 true; GClose].
Definition ipv4_leading : pattern :=         (* ^\s*\d+\.\d+\.\d+\.\d+ *)
  [Bos; Rep space 0 true; Rep digit 1 true; Lit "."; Rep digit 1 true; Lit ".";
   Rep digit 1 true; Lit "."; Rep digit 1 true].

End Re.

(** ** ssh_parsers.py: OutputParser *)

(** A field value: text, or the integer neighbor count. *)
Inductive PyVal : Type :=
  | VStr (s : string)
  | VInt (n : nat).

Module OutputParser.

(** [data or fallback]: an empty dictionary is falsy. *)
Definition py_or (data fallback : gmap string PyVal) : gmap string PyVal :=
  if decide (data = ∅) then fallback else data.

(** [{"raw_output": output[:500]}] *)
Definition raw_prefix (output : string) : gmap string PyVal :=
  {[ "raw_output" := VStr (PyStr.take 500 output) ]}.

(** [line.split(":")[1].strip()]; every call site has tested that the line
    contains a text ending in a colon, so index 1 exists. *)
Definition after_colon (line : string) : string :=
  PyStr.strip (nth 1 (PyStr.split ":"%char line) EmptyString).

(** [if m: data[key] = f(m.group(1))] *)
Definition set_if_match (key : string) (m : option string) (f : string -> string)
    (data : gmap string PyVal) : gmap string PyVal :=
  match m with
  | Some g => <[ key := VStr (f g) ]> data
  | None => data
  end.

(** [if neighbor_count > 0: data["BGP_Neighbors"] = neighbor_count] *)
Definition set_neighbors (neighbor_count : nat) (data : gmap string PyVal)
  : gmap string PyVal :=
  if Nat.ltb 0 neighbor_count
  then <[ "BGP_Neighbors" := VInt neighbor_count ]> data
  else data.

(** The number of lines a predicate holds of (the counting loops). *)
Definition count_lines (p : string -> bool) (lines : list string) : nat :=
  fold_left (fun n line => if p line then S n else n) lines 0.

Definition lines_of (output : string) : list string :=
  PyStr.split PyStr.newline output.

Definition cisco_version_data (output : string) : gmap string PyVal :=
  let data := ∅ in
  let data := set_if_match "Model" (Re.re_search Re.cisco_model output) PyStr.strip data in
  let data := set_if_match "IOS_Version" (Re.re_search Re.version_number output) id data in
  let data := set_if_match "Uptime" (Re.re_search Re.uptime_is output) PyStr.strip data in
  let data := set_if_match "Serial" (Re.re_search Re.serial_number output) id data in
  data.

Definition _parse_cisco_version (output : string) : gmap string PyVal :=
  py_or (cisco_version_data output) (raw_prefix output).

Definition cisco_bgp_line (data : gmap string PyVal) (line : string) : gmap string PyVal :=
  if PyStr.contains "BGP router identifier" line
  then set_if_match "Router_ID" (Re.re_search Re.router_id line) id data
  else data.

Definition cisco_neighbor_line (line : string) : bool :=
  PyStr.contains "neighbor" (PyStr.lower line)
  && (PyStr.contains "up" (PyStr.lower line) || PyStr.contains "down" (PyStr.lower line)).

Definition cisco_bgp_data (output : string) : gmap string PyVal :=
  let lines := lines_of output in
  let data := fold_left cisco_bgp_line lines ∅ in
  set_neighbors (count_lines cisco_neighbor_line lines) data.

Definition _parse_cisco_bgp (output : string) : gmap string PyVal :=
  py_or (cisco_bgp_data output) (raw_prefix output).

Definition arista_version_line (data : gmap string PyVal) (line : string) : gmap string PyVal :=
  if PyStr.contains "Model:" line then <[ "Model" := VStr (after_colon line) ]> data
  else if PyStr.contains "System uptime:" line then <[ "Uptime" := VStr (after_colon line) ]> data
  else if PyStr.contains "Software image version:" line
       then <[ "EOS_Version" := VStr (after_colon line) ]> data
  else if PyStr.contains "Serial number:" line then <[ "Serial" := VStr (after_colon line) ]> data
  else data.

Definition arista_version_data (output : string) : gmap string PyVal :=
  fold_left arista_version_line (lines_of output) ∅.

Definition _parse_arista_version (output : string) : gmap string PyVal :=
  py_or (arista_version_data output) (raw_prefix output).

Definition arista_bgp_line (data : gmap string PyVal) (line : string) : gmap string PyVal :=
  if PyStr.contains "BGP summary" line
  then set_if_match "AS_Number" (Re.re_search Re.as_number line) id data
  else data.

Definition ipv4_line (line : string) : bool :=
  match Re.re_match Re.ipv4_leading line with Some _ => true | None => false end.

Definition arista_bgp_data (output : string) : gmap string PyVal :=
  let lines := lines_of output in
  let data := fold_left arista_bgp_line lines ∅ in
  set_neighbors (count_lines ipv4_line lines) data.

Definition _parse_arista_bgp (output : string) : gmap string PyVal :=
  py_or (arista_bgp_data output) (raw_prefix output).

Definition juniper_version_line (data : gmap string PyVal) (line : string) : gmap string PyVal :=
  if PyStr.contains "Model:" line then <[ "Model" := VStr (after_colon line) ]> data
  else if PyStr.contains "JUNOS Software Release" line
       then set_if_match "JUNOS_Version" (Re.re_search Re.release_number line) id data
  else if PyStr.contains "Serial ID:" line then <[ "Serial" := VStr (after_colon line) ]> data
  else data.

Definition juniper_version_data (output : string) : gmap string PyVal :=
  fold_left juniper_version_line (lines_of output) ∅.

Definition _parse_juniper_version (output : string) : gmap string PyVal :=
  py_or (juniper_version_data output) (raw_prefix output).

Definition juniper_bgp_line (data : gmap string PyVal) (line : string) : gmap string PyVal :=
  if PyStr.contains "Router ID:" line then <[ "Router_ID" := VStr (after_colon line) ]> data
  else if PyStr.contains "Local AS:" line then <[ "AS_Number" := VStr (after_colon line) ]> data
  else data.

Definition juniper_bgp_data (output : string) : gmap string PyVal :=
  fold_left juniper_bgp_line (lines_of output) ∅.

Definition _parse_juniper_bgp (output : string) : gmap string PyVal :=
  py_or (juniper_bgp_data output) (raw_prefix output).

Definition sonic_version_line (data : gmap string PyVal) (line : string) : gmap string PyVal :=
  if PyStr.contains "Platform:" line then <[ "Platform" := VStr (after_colon line) ]> data
  else if PyStr.contains "SONiC Software Version:" line
       then <[ "Sonic_Version" := VStr (after_colon line) ]> data
  else if PyStr.contains "System uptime:" line then <[ "Uptime" := VStr (after_colon line) ]> data
  else data.

Definition sonic_version_data (output : string) : gmap string PyVal :=
  fold_left sonic_version_line (lines_of output) ∅.

Definition _parse_sonic_version (output : string) : gmap string PyVal :=
  py_or (sonic_version_data output) (raw_prefix output).

Definition sonic_bgp_data (output : string) : gmap string PyVal :=
  set_neighbors (count_lines ipv4_line (lines_of output)) ∅.

Definition _parse_sonic_bgp (output : string) : gmap string PyVal :=
  py_or (sonic_bgp_data output) (raw_prefix output).

Definition parse_show_version (output os_type : string) : gmap string PyVal :=
  if String.eqb os_type "cisco_ios" then _parse_cisco_version output
  else if String.eqb os_type "arista_eos" then _parse_arista_version output
  else if String.eqb os_type "juniper_junos" then _parse_juniper_version output
  else if String.eqb os_type "sonic_cli" then _parse_sonic_version output
  else {[ "raw_output" := VStr output ]}.

Definition parse_bgp_summary (output os_type : string) : gmap string PyVal :=
  if String.eqb os_type "cisco_ios" then _parse_cisco_bgp output
  else if String.eqb os_type "arista_eos" then _parse_arista_bgp output
  else if String.eqb os_type "juniper_junos" then _parse_juniper_bgp output
  else if String.eqb os_type "sonic_cli" then _parse_sonic_bgp output
  else {[ "raw_output" := VStr output ]}.

(** The OS tags the dispatchers have a branch for. *)
Definition known_os (os_type : string) : bool :=
  String.eqb os_type "cisco_ios" || String.eqb os_type "arista_eos"
  || String.eqb os_type "juniper_junos" || String.eqb os_type "sonic_cli".

End OutputParser.

(** ** ssh_remote.py: DeviceCommandRunner *)

(** What the runner needs of its [ssh_connection]: one method, which returns
    [(success, output)] and may change the connection. *)
Class Connector (C : Type) : Type :=
  execute_command_on_device :
    C -> string (* device_ip *) -> string (* device_username *) ->
    string (* command *) -> (bool * string) * C.

(** One call of [execute_command_on_device], as a test double records it. *)
Record Attempt : Type := mkAttempt {
  a_device_ip : string;
  a_username : string;
  a_command : string
}.

(** The attributes of a [DeviceCommandRunner] (its connection is kept in the
    session below, since the caller shares it). *)
Record Runner : Type := mkRunner {
  device_ip : string;
  device_os : string;
  usernames : list string;
  current_username : option string;
  authenticated : bool;
  failed_usernames : list string
}.

(** [list(dict.fromkeys(l))]: first occurrences, in order. *)
Fixpoint dict_fromkeys_acc (seen l : list string) : list string :=
  match l with
  | [] => []
  | x :: l' =>
      if bool_decide (x ∈ seen) then dict_fromkeys_acc seen l'
      else x :: dict_fromkeys_acc (x :: seen) l'
  end.

Definition dict_fromkeys (l : list string) : list string := dict_fromkeys_acc [] l.

(** [[u for u in l if u not in present]] *)
Definition not_in (present l : list string) : list string :=
  filter (fun u => u ∉ present) l.

Definition _build_username_list (device_os : string) : list string :=
  let device_specific := default [] (assoc_get device_os DEVICE_SPECIFIC_USERNAMES) in
  let usernames := dict_fromkeys (device_specific ++ DEFAULT_USERNAMES) in
  if PyStr.contains "cisco" (PyStr.lower device_os)
  then usernames ++ not_in usernames CISCO_IOS_USERNAMES
  else usernames.

(** [DeviceCommandRunner.__init__]; an empty explicit list is falsy, so the
    built list is used for it too. *)
Definition Runner_init (ip os_type : string) (explicit : option (list string)) : Runner :=
  let os := _normalize_os_type os_type in
  {| device_ip := ip;
     device_os := os;
     usernames := match explicit with
                  | Some (u :: us) => u :: us
                  | _ => _build_username_list os
                  end;
     current_username := None;
     authenticated := false;
     failed_usernames := [] |}.

Definition get_available_commands (r : Runner) : gmap string string :=
  default {[ "custom" := "custom command" ]} (SHOW_COMMANDS !! device_os r).

Definition troubleshooting : string :=
  PyStr.nl +:+ PyStr.nl +:+ "Troubleshooting steps:" +:+ PyStr.nl +:+
  "1. Check device SSH config: show ip ssh" +:+ PyStr.nl +:+
  "2. Check your user account exists on device" +:+ PyStr.nl +:+
  "3. Verify your AD account has device access" +:+ PyStr.nl +:+
  "4. Contact network team: nocenterprise@wal-mart.com" +:+ PyStr.nl +:+
  PyStr.nl +:+ "Note: This device requires specific username(s).".

Definition _build_auth_failure_message (r : Runner) : string :=
  "Authentication failed. " +:+
  "Tried " +:+ PyStr.of_nat (length (failed_usernames r)) +:+ " username(s): " +:+
  PyStr.join ", " (firstn 3 (failed_usernames r)) +:+
  troubleshooting +:+
  PyStr.nl +:+ "Device type: " +:+ device_os r.

(** [success and output and "permission denied" not in output.lower()] *)
Definition accepted (success : bool) (output : string) : bool :=
  success && negb (String.eqb output EmptyString)
  && negb (PyStr.contains "permission denied" (PyStr.lower output)).

(** The [parsed] chosen after an accepted attempt. *)
Definition parse_for (command_alias output os : string) : gmap string PyVal :=
  if String.eqb command_alias "version" then OutputParser.parse_show_version output os
  else if String.eqb command_alias "bgp_summary" then OutputParser.parse_bgp_summary output os
  else {[ "raw_output" := VStr (PyStr.take 200 output) ]}.

Definition unsupported_error (command_alias os : string) : gmap string PyVal :=
  {[ "error" := VStr ("Command '" +:+ command_alias +:+ "' not available for " +:+ os) ]}.

Section Runner.
Context {C : Type} `{!Connector C}.

(** The objects a command run touches: the runner, the connection it
    shares with its caller, and the record of the calls made on the
    connection (oldest first). *)
Record Session : Type := mkSession {
  runner : Runner;
  ssh_connection : C;
  calls : list Attempt
}.

(** [self.ssh_connection.execute_command_on_device(ip, username, command)] *)
Definition execute (st : Session) (username command : string)
  : (bool * string) * Session :=
  let ip := device_ip (runner st) in
  let '(res, conn') := execute_command_on_device (ssh_connection st) ip username command in
  (res, {| runner := runner st;
           ssh_connection := conn';
           calls := calls st ++ [mkAttempt ip username command] |}).

Definition set_runner (st : Session) (r : Runner) : Session :=
  {| runner := r; ssh_connection := ssh_connection st; calls := calls st |}.

Definition accept (r : Runner) (username : string) : Runner :=
  {| device_ip := device_ip r; device_os := device_os r; usernames := usernames r;
     current_username := Some username;
     authenticated := true;
     failed_usernames := failed_usernames r |}.

Definition reject (r : Runner) (username : string) : Runner :=
  {| device_ip := device_ip r; device_os := device_os r; usernames := usernames r;
     current_username := current_username r;
     authenticated := authenticated r;
     failed_usernames := failed_usernames r ++ [username] |}.

(** The [for username in self.usernames] loop of [run_command], with the
    two statements that follow it. *)
Fixpoint try_usernames (command_alias actual_command : string)
    (candidates : list string) (st : Session) : (bool * gmap string PyVal) * Session :=
  match candidates with
  | [] =>
      let error_msg := _build_auth_failure_message (runner st) in
      ((false, {[ "error" := VStr error_msg ]}), st)
  | username :: rest =>
      let '((success, output), st1) := execute st username actual_command in
      if accepted success output
      then
        let st2 := set_runner st1 (accept (runner st1) username) in
        let parsed := parse_for command_alias output (device_os (runner st2)) in
        ((true, parsed), st2)
      else
        try_usernames command_alias actual_command rest
          (set_runner st1 (reject (runner st1) username))
  end.

Definition run_command (command_alias : string) (st : Session)
  : (bool * gmap string PyVal) * Session :=
  match get_available_commands (runner st) !! command_alias with
  | None =>
      ((false, unsupported_error command_alias (device_os (runner st))), st)
  | Some actual_command =>
      try_usernames command_alias actual_command (usernames (runner st)) st
  end.

(** Truth value of [self.current_username]: [None] and the empty string
    are falsy. *)
Definition username_set (u : option string) : bool :=
  match u with
  | Some s => negb (String.eqb s EmptyString)
  | None => false
  end.

(** [self.current_username] as the connections format it into the ssh
    command line. *)
Definition username_arg (u : option string) : string := default "None" u.

Definition run_custom_command (command : string) (st : Session)
  : (bool * string) * Session :=
  let run (st : Session) :=
    execute st (username_arg (current_username (runner st))) command in
  if negb (authenticated (runner st)) && negb (username_set (current_username (runner st)))
  then
    let '((success, _), st1) := run_command "version" st in
    if negb success
    then ((false, "[!] Failed to authenticate to device"), st1)
    else run st1
  else run st.

(** A runner just constructed on a connection. *)
Definition new_session (ip os_type : string) (conn : C)
    (explicit : option (list string)) : Session :=
  {| runner := Runner_init ip os_type explicit; ssh_connection := conn; calls := [] |}.

End Runner.

Arguments Session C : clear implicits.

(** ** bastion_config.py and bastion_manager.py *)

Definition BASTION_TYPE_SSH : string := "ssh".
Definition BASTION_TYPE_GCLOUD : string := "gcloud".
Definition DEFAULT_BASTION : string := "nre_traditional".

(** The keys of a [BASTION_HOSTS] entry that [_load_bastion_config] reads. *)
Record BastionEntry : Type := mkEntry {
  e_name : option string;
  e_type : option string;
  e_host : option string;
  e_port : option nat;
  e_instance_name : option string;
  e_zone : option string;
  e_project : option string;
  e_auth_method : option string;
  e_description : option string;
  e_region : option string
}.

Definition BASTION_HOSTS : list (string * BastionEntry) :=
  [ ("nre_oser_jumpbox",
      mkEntry (Some "NRE Enterprise Oser Jumpbox (TACACS+)") (Some "nre_jumpbox")
        None (Some 22) None None None
        (Some "TACACS+ (PCI token + RSA PIN)")
        (Some "Primary NRE jumpbox with TACACS+ authentication via RSA SecureID")
        (Some "Walmart On-Prem (Network Engineering)"));
    ("nre_traditional",
      mkEntry (Some "NRE Traditional SSH Jump Host (Legacy)") (Some BASTION_TYPE_SSH)
        (Some "oseu2015026.homeoffice.wal-mart.com") (Some 22) None None None
        (Some "AD Password")
        (Some "Legacy SSH bastion host for network device access (deprecated, use Oser jumpbox)")
        (Some "Walmart On-Prem"));
    ("nre_gcloud_us_central",
      mkEntry (Some "NRE Google Cloud Bastion (US Central)") (Some BASTION_TYPE_GCLOUD)
        None None (Some "jumphost-group-6184") (Some "us-central1-a")
        (Some "wmt-network-prod") (Some "gcloud auth")
        (Some "Google Cloud bastion for accessing private VPC resources")
        (Some "us-central1"));
    ("nre_gcloud_us_west",
      mkEntry (Some "NRE Google Cloud Bastion (US West)") (Some BASTION_TYPE_GCLOUD)
        None None (Some "jumphost-group-6185") (Some "us-west1-a")
        (Some "wmt-network-prod") (Some "gcloud auth")
        (Some "Google Cloud bastion for US West private resources")
        (Some "us-west1")) ].

Record BastionConfig : Type := mkBastionConfig {
  bastion_id : string;
  name : string;
  bastion_type : string;
  host : option string;
  port : nat;
  instance_name : option string;
  zone : option string;
  project : option string;
  auth_method : string;
  description : string;
  region : string
}.

(** How a [subprocess.run] of a preflight command ends. *)
Inductive ProcOutcome : Type :=
  | Exited (returncode : nat)
  | TimeoutExpired
  | FileNotFound
  | ProcError.

(** The local machine as the gcloud preflight sees it. *)
Record Gcloud : Type := mkGcloud {
  gcloud_version : ProcOutcome;     (* gcloud --version *)
  gcloud_auth_list : ProcOutcome    (* gcloud auth list *)
}.

Module BastionManager.

Record t : Type := mk {
  id : string;
  username : string;
  password : string;
  connected : bool;
  bastion_config : BastionConfig
}.

(** [None] stands for the [ValueError] on an unknown id. *)
Definition _load_bastion_config (bid : string) : option BastionConfig :=
  match assoc_get bid BASTION_HOSTS with
  | None => None
  | Some d =>
      Some {| bastion_id := bid;
              name := default EmptyString (e_name d);
              bastion_type := default BASTION_TYPE_SSH (e_type d);
              host := e_host d;
              port := default 22 (e_port d);
              instance_name := e_instance_name d;
              zone := e_zone d;
              project := e_project d;
              auth_method := default "password" (e_auth_method d);
              description := default EmptyString (e_description d);
              region := default EmptyString (e_region d) |}
  end.

Definition init (bid username password : string) : option t :=
  match _load_bastion_config bid with
  | None => None
  | Some cfg => Some (mk bid username password false cfg)
  end.

Definition set_connected (m : t) (b : bool) : t :=
  mk (id m) (username m) (password m) b (bastion_config m).

Definition connect_ssh_bastion (m : t) : bool * t :=
  if negb (String.eqb (bastion_type (bastion_config m)) BASTION_TYPE_SSH)
  then (false, m)
  else (true, set_connected m true).

Definition connect_gcloud_bastion (env : Gcloud) (m : t) : bool * t :=
  if negb (String.eqb (bastion_type (bastion_config m)) BASTION_TYPE_GCLOUD)
  then (false, m)
  else
    match gcloud_version env with
    | Exited 0 =>
        match gcloud_auth_list env with
        | Exited 0 => (true, set_connected m true)
        | _ => (false, m)
        end
    | _ => (false, m)
    end.

Definition connect (env : Gcloud) (m : t) : bool * t :=
  if String.eqb (bastion_type (bastion_config m)) BASTION_TYPE_SSH
  then connect_ssh_bastion m
  else if String.eqb (bastion_type (bastion_config m)) BASTION_TYPE_GCLOUD
  then connect_gcloud_bastion env m
  else (false, m).

Definition disconnect (m : t) : t := set_connected m false.

End BastionManager.

(** ** ssh_remote.py: SSHConnection *)

(** How a paramiko [connect] ends. *)
Inductive ConnectOutcome : Type :=
  | ConnOk
  | AuthenticationException
  | SocketTimeout
  | Gaierror
  | ConnError.

(** How a paramiko [exec_command] followed by reading both streams ends. *)
Inductive ExecOutcome : Type :=
  | Streams (stdout stderr : string)
  | ExecTimeout
  | ExecError (msg : string).

(** A paramiko [SSHClient]: whether [close] was called on it, and what the
    far end answers to a command line. *)
Record SSHClient : Type := mkClient {
  closed : bool;
  exec_command : string -> ExecOutcome
}.

Definition client_close (c : SSHClient) : SSHClient :=
  mkClient true (exec_command c).

Module SSHConnection.

Record t : Type := mk {
  username : string;
  password : string;
  bastion_id : string;
  ssh_client : option SSHClient;
  connected : bool;
  bastion_manager : option BastionManager.t
}.

(** [__init__] with [_init_bastion_manager]: an unknown bastion id leaves the
    manager unset. *)
Definition init (username password bid : string) : t :=
  mk username password bid None false (BastionManager.init bid username password).

(** The machine and network [connect_to_jumphost] runs against: the gcloud
    preflight, and the client and outcome of a direct connection to
    [JUMP_HOST]. *)
Record Env : Type := mkEnv {
  gcloud : Gcloud;
  jump_host_client : SSHClient;
  jump_host_connect : ConnectOutcome
}.

Definition connect_to_jumphost (env : Env) (c : t) : bool * t :=
  match bastion_manager c with
  | None => (false, c)
  | Some m =>
      let '(ok, m') := BastionManager.connect (gcloud env) m in
      if ok
      then (true, mk (username c) (password c) (bastion_id c) (ssh_client c) true (Some m'))
      else
        let c1 := mk (username c) (password c) (bastion_id c)
                     (Some (jump_host_client env)) (connected c) (Some m') in
        match jump_host_connect env with
        | ConnOk =>
            (true, mk (username c1) (password c1) (bastion_id c1) (ssh_client c1) true
                      (bastion_manager c1))
        | _ => (false, c1)
        end
  end.

Definition device_command_line (device_username device_ip command : string) : string :=
  "ssh -o StrictHostKeyChecking=no " +:+ device_username +:+ "@" +:+ device_ip +:+
  " '" +:+ command +:+ "'".

Definition execute_command_on_device (c : t) (device_ip device_username command : string)
  : (bool * string) * t :=
  if negb (connected c) then ((false, "[!] Not connected to jump host"), c)
  else
    match ssh_client c with
    | None =>
        ((false, "[!] Command error: 'NoneType' object has no attribute 'exec_command'"), c)
    | Some client =>
        match exec_command client (device_command_line device_username device_ip command) with
        | Streams output error =>
            if negb (String.eqb error EmptyString) && negb (PyStr.contains "Warning" error)
            then ((false, error), c)
            else ((true, output), c)
        | ExecTimeout => ((false, "[!] Command timeout"), c)
        | ExecError e => ((false, "[!] Command error: " +:+ e), c)
        end
    end.

Definition disconnect (c : t) : t :=
  match ssh_client c with
  | Some client =>
      mk (username c) (password c) (bastion_id c) (Some (client_close client)) false
         (bastion_manager c)
  | None => c
  end.

End SSHConnection.

#[export] Instance SSHConnection_Connector : Connector SSHConnection.t :=
  SSHConnection.execute_command_on_device.

(** ** nre_jumpbox.py: NREJumpbox *)

Record NREJumpboxConfig : Type := mkJumpboxConfig {
  primary_host : string;
  fallback_host : string;
  jb_port : nat;
  jb_auth_method : string;
  connect_timeout : nat;
  command_timeout : nat;
  realm : string
}.

Definition default_jumpbox_config : NREJumpboxConfig :=
  mkJumpboxConfig "oser500521" "oser500522" 22 "ad_password" 10 15 EmptyString.

(** The credential a [connect] call offers. *)
Inductive AuthMethod : Type :=
  | ByKey (key_filename : list string)
  | ByPassword (password : string).

(** One call of the transport's [connect]. *)
Record ConnAttempt : Type := mkConnAttempt {
  ca_host : string;
  ca_auth : AuthMethod
}.

Module NREJumpbox.

Record t : Type := mk {
  username : string;
  password : string;
  config : NREJumpboxConfig;
  ssh_client : option SSHClient;
  connected : bool;
  current_host : option string
}.

Definition init (username password : string) (cfg : option NREJumpboxConfig) : t :=
  mk username password (default default_jumpbox_config cfg) None false None.

(** The outside world of a connection: what [_find_ssh_keys] finds ([None]
    when looking raises), what the network answers to a transport [connect]
    given the attempts made before it, and the client object created for an
    attempt. *)
Record Env : Type := mkEnv {
  find_ssh_keys : list ConnAttempt -> option (list string);
  net_connect : list ConnAttempt -> ConnAttempt -> ConnectOutcome;
  new_client : string -> SSHClient
}.

(** The jumpbox object together with the hosts [_try_connect] was called
    for and the transport connections attempted, oldest first. *)
Record World : Type := mkWorld {
  jumpbox : t;
  hosts_tried : list string;
  net_log : list ConnAttempt
}.

Definition _format_hostname (hostname : string) : string := PyStr.lower hostname.

Definition set_client (j : t) (c : SSHClient) : t :=
  mk (username j) (password j) (config j) (Some c) (connected j) (current_host j).

(** [self.ssh_client.connect(...)] *)
Definition transport_connect (env : Env) (a : ConnAttempt) (w : World)
  : ConnectOutcome * World :=
  (net_connect env (net_log w) a,
   mkWorld (jumpbox w) (hosts_tried w) (net_log w ++ [a])).

(** The password half of [_try_connect]. *)
Definition try_password (env : Env) (hostname : string) (w : World) : bool * World :=
  if String.eqb (password (jumpbox w)) EmptyString then (false, w)
  else
    match transport_connect env (mkConnAttempt hostname (ByPassword (password (jumpbox w)))) w with
    | (ConnOk, w') => (true, w')
    | (_, w') => (false, w')
    end.

Definition _try_connect (env : Env) (hostname : string) (w : World) : bool * World :=
  let w := mkWorld (set_client (jumpbox w) (new_client env hostname))
                   (hosts_tried w ++ [hostname]) (net_log w) in
  match find_ssh_keys env (net_log w) with
  | None => (false, w)
  | Some [] => try_password env hostname w
  | Some ssh_keys =>
      match transport_connect env (mkConnAttempt hostname (ByKey ssh_keys)) w with
      | (ConnOk, w') => (true, w')
      | (AuthenticationException, w') => try_password env hostname w'
      | (_, w') => (false, w')
      end
  end.

Definition mark_connected (j : t) (h : string) : t :=
  mk (username j) (password j) (config j) (ssh_client j) true (Some h).

(** The [for host in hosts_to_try] loop of [connect]. *)
Fixpoint connect_loop (env : Env) (hosts : list string) (w : World) : bool * World :=
  match hosts with
  | [] => (false, w)
  | h :: rest =>
      let '(ok, w') := _try_connect env h w in
      if ok
      then (true, mkWorld (mark_connected (jumpbox w') h) (hosts_tried w') (net_log w'))
      else connect_loop env rest w'
  end.

Definition hosts_to_try (j : t) : list string :=
  [ _format_hostname (primary_host (config j));
    _format_hostname (fallback_host (config j)) ].

Definition connect (env : Env) (w : World) : bool * World :=
  connect_loop env (hosts_to_try (jumpbox w)) w.

Definition disconnect (j : t) : t :=
  match ssh_client j with
  | Some client =>
      mk (username j) (password j) (config j) (Some (client_close client)) false
         (current_host j)
  | None => j
  end.

Definition fresh (j : t) : World := mkWorld j [] [].

End NREJumpbox.

(** ** ssh_parsers.py: OutputParser.format_output

    [format_output] walks the items of the dictionary in insertion order, so
    here a dictionary is the list of its items in that order. *)

Module OutputFormat.

(** [str(value)] as an f-string renders it *)
Definition py_str (v : PyVal) : string :=
  match v with
  | VStr s => s
  | VInt n => PyStr.of_nat n
  end.

Fixpoint spaces (n : nat) : string :=
  match n with
  | O => EmptyString
  | S n' => String " "%char (spaces n')
  end.

(** [f"{key:20}"]: a string is left-aligned and padded to 20 characters,
    never cut. *)
Definition ljust (width : nat) (s : string) : string :=
  s +:+ spaces (width - String.length s).

(** [f"  {key:20} : {value}"] *)
Definition field_line (key : string) (value : PyVal) : string :=
  "  " +:+ ljust 20 key +:+ " : " +:+ py_str value.

(** The lines appended by the [for key, value in parsed_data.items()] loop. *)
Fixpoint field_lines (items : list (string * PyVal)) : list PyVal :=
  match items with
  | [] => []
  | (key, value) :: rest =>
      if negb (String.eqb key "raw_output")
      then VStr (field_line key value) :: field_lines rest
      else field_lines rest
  end.

(** ["\n".join(lines)]: raises [TypeError] ([None]) on an item that is not
    a string. *)
Fixpoint join_lines (lines : list PyVal) : option string :=
  match lines with
  | [] => Some EmptyString
  | VInt _ :: _ => None
  | [VStr x] => Some x
  | VStr x :: rest =>
      match join_lines rest with
      | Some r => Some (x +:+ PyStr.nl +:+ r)
      | None => None
      end
  end.

Definition format_output (parsed_data : list (string * PyVal)) : option string :=
  match parsed_data with
  | [] => Some "No output"
  | _ =>
      let lines := field_lines parsed_data in
      let lines :=
        match assoc_get "raw_output" parsed_data, lines with
        | Some raw, [] => lines ++ [raw]
        | _, _ => lines
        end in
      match lines with
      | [] => Some "No data parsed"
      | _ => join_lines lines
      end
  end.

End OutputFormat.

(** ** bastion_manager.py: command execution and listing *)

(** How a [subprocess.run(..., capture_output=True, text=True)] ends. *)
Inductive RunOutcome : Type :=
  | Completed (returncode : Z) (stdout stderr : string)
  | RunTimeout
  | RunError (msg : string).

Module BastionExec.

(** The argument vector handed to [subprocess.run]; [instance_name] is
    passed as it is, [None] included. *)
Definition gcloud_cmd (cfg : BastionConfig) (device_ip device_username command : string)
  : list (option string) :=
  [ Some "gcloud"; Some "compute"; Some "ssh";
    instance_name cfg;
    Some ("--zone=" +:+ default "None" (zone cfg));
    Some ("--project=" +:+ default "None" (project cfg));
    Some "--"; Some "ssh"; Some "-o"; Some "StrictHostKeyChecking=no";
    Some (device_username +:+ "@" +:+ device_ip);
    Some command ].

Definition _execute_via_ssh_bastion (m : BastionManager.t)
    (device_ip device_username command : string) : bool * string :=
  (true, "[*] Ready to execute via " +:+ name (BastionManager.bastion_config m)).

Definition _execute_via_gcloud_bastion (run : list (option string) -> RunOutcome)
    (m : BastionManager.t) (device_ip device_username command : string) : bool * string :=
  match run (gcloud_cmd (BastionManager.bastion_config m) device_ip device_username command) with
  | Completed rc out err => if Z.eqb rc 0 then (true, out) else (false, err)
  | RunTimeout => (false, "[!] Command timed out")
  | RunError e => (false, "[!] gcloud execution failed: " +:+ e)
  end.

Definition execute_command_via_bastion (run : list (option string) -> RunOutcome)
    (m : BastionManager.t) (device_ip device_username command : string) : bool * string :=
  if negb (BastionManager.connected m) then (false, "[!] Not connected to bastion")
  else if String.eqb (bastion_type (BastionManager.bastion_config m)) BASTION_TYPE_SSH
  then _execute_via_ssh_bastion m device_ip device_username command
  else if String.eqb (bastion_type (BastionManager.bastion_config m)) BASTION_TYPE_GCLOUD
  then _execute_via_gcloud_bastion run m device_ip device_username command
  else (false, "[!] Unknown execution method").

(** One entry of [list_available_bastions]: id, name, type, region and
    description, each as [config.get] returns it. *)
Record Listing : Type := mkListing {
  l_id : string;
  l_name : option string;
  l_type : option string;
  l_region : option string;
  l_description : option string
}.

Definition list_available_bastions : list Listing :=
  map (fun '(bid, e) => mkListing bid (e_name e) (e_type e) (e_region e) (e_description e))
      BASTION_HOSTS.

End BastionExec.

(** ** nre_jumpbox.py: one-shot commands *)

Module JumpboxExec.

Definition execute_command (j : NREJumpbox.t) (command : string) : bool * string :=
  if negb (NREJumpbox.connected j) then (false, "[!] Not connected to jumpbox")
  else
    match NREJumpbox.ssh_client j with
    | None => (false, "[!] Error: 'NoneType' object has no attribute 'exec_command'")
    | Some client =>
        match exec_command client command with
        | Streams output error =>
            if negb (String.eqb error EmptyString) && negb (PyStr.contains "Warning" error)
            then (false, PyStr.strip error)
            else (true, PyStr.strip output)
        | ExecTimeout => (false, "[!] Command timeout")
        | ExecError e => (false, "[!] Error: " +:+ e)
        end
    end.

End JumpboxExec.

(** * Auxiliary definitions

    Predicates the properties are stated with, and the test doubles
    (connections, networks, inputs) they are tried on. *)

(** The three segments of the built list: the device-specific names, the
    defaults not among them, and the Cisco extras not among either. *)
Definition device_specific_for (os : string) : list string :=
  default [] (assoc_get os DEVICE_SPECIFIC_USERNAMES).

Definition defaults_segment (os : string) : list string :=
  not_in (device_specific_for os) DEFAULT_USERNAMES.

Definition cisco_segment (os : string) : list string :=
  if PyStr.contains "cisco" (PyStr.lower os)
  then not_in (device_specific_for os ++ defaults_segment os) CISCO_IOS_USERNAMES
  else [].

(** The runner after [us] were rejected in turn. *)
Definition rejected (r : Runner) (us : list string) : Runner :=
  {| device_ip := device_ip r; device_os := device_os r; usernames := usernames r;
     current_username := current_username r;
     authenticated := authenticated r;
     failed_usernames := failed_usernames r ++ us |}.

(** The record of one call made for [u] from the session [st]. *)
Definition attempt_on {C : Type} (st : Session C) (actual_command u : string) : Attempt :=
  mkAttempt (device_ip (runner st)) u actual_command.

(** A result without structured fields: no key besides "raw_output". *)
Definition no_structured_field (m : gmap string PyVal) : Prop :=
  forall k, k <> "raw_output" -> m !! k = None.

(** The extraction steps never write the key "raw_output". *)
Definition no_raw (m : gmap string PyVal) : Prop := m !! "raw_output" = None.

(** What both dispatchers are shown to do. *)
Definition falls_back_to_raw (parse : string -> string -> gmap string PyVal) : Prop :=
  forall output os_type,
    parse output os_type <> ∅
    /\ (OutputParser.known_os os_type = true ->
        no_structured_field (parse output os_type) ->
        parse output os_type = {[ "raw_output" := VStr (PyStr.take 500 output) ]}
        /\ String.length (PyStr.take 500 output) <= 500
        /\ PyStr.startswith (PyStr.take 500 output) output = true)
    /\ (OutputParser.known_os os_type = false ->
        parse output os_type = {[ "raw_output" := VStr output ]}).

(** A test double for the connection: a fixed answer per call. *)
Record Mock : Type := mkMock {
  reply : string -> string -> string -> bool * string
}.

#[export] Instance Mock_Connector : Connector Mock :=
  fun m ip u cmd => (reply m ip u cmd, m).

Definition only_neteng : Mock :=
  mkMock (fun _ u _ =>
    if String.eqb u "neteng" then (true, "Cisco IOS Software, Version 15.2(4)E")
    else (false, "Permission denied, please try again.")).

Definition neteng_silent : Mock :=
  mkMock (fun _ u _ =>
    if String.eqb u "neteng" then (true, EmptyString)
    else (false, "Permission denied, please try again.")).

Definition always_denied : Mock :=
  mkMock (fun _ _ _ => (true, "Permission denied (publickey,password).")).

Definition three_candidates : list string := ["admin"; "netadmin"; "neteng"].

(** The acceptance rule without the test on the output being non-empty:
    the command succeeded and the output does not mention, in any case,
    "permission denied". *)
Definition accepted_without_emptiness_test (success : bool) (output : string) : bool :=
  success && negb (PyStr.contains "permission denied" (PyStr.lower output)).

(** A command output of 501 characters. *)
Definition long_output : string := string_of_list_ascii (repeat "x"%char 501).

(** A network on which the primary host times out and the fallback host
    accepts the password; no private key on the local machine. *)
Definition primary_times_out : NREJumpbox.Env :=
  NREJumpbox.mkEnv
    (fun _ => Some [])
    (fun _ a => if String.eqb (ca_host a) "oser500521" then SocketTimeout else ConnOk)
    (fun _ => mkClient false (fun _ => Streams EmptyString EmptyString)).

(** A jump host client through which the device lets only "neteng" in. *)
Definition device_behind_jump_host : SSHClient :=
  mkClient false (fun line =>
    if PyStr.contains "neteng@" line
    then Streams "Cisco IOS Software, Version 15.2(4)E" EmptyString
    else Streams EmptyString "Permission denied (publickey,password).").

(** A machine without gcloud, and a jump host that takes the password. *)
Definition reachable_jump_host : SSHConnection.Env :=
  SSHConnection.mkEnv (mkGcloud FileNotFound FileNotFound) device_behind_jump_host ConnOk.

(** A connection opened directly to the jump host (the manager of the
    "nre_oser_jumpbox" entry cannot connect, its type being neither ssh nor
    gcloud), and one opened through the default bastion. *)
Definition direct_connection : SSHConnection.t :=
  (SSHConnection.connect_to_jumphost reachable_jump_host
     (SSHConnection.init "vn59iz6" "secret" "nre_oser_jumpbox")).2.

Definition default_bastion_connection : SSHConnection.t :=
  (SSHConnection.connect_to_jumphost reachable_jump_host
     (SSHConnection.init "vn59iz6" "secret" DEFAULT_BASTION)).2.

(** The structured fields each parser can write, per OS tag. *)
Definition version_fields (os_type : string) : list string :=
  if String.eqb os_type "cisco_ios" then ["Model"; "IOS_Version"; "Uptime"; "Serial"]
  else if String.eqb os_type "arista_eos" then ["Model"; "Uptime"; "EOS_Version"; "Serial"]
  else if String.eqb os_type "juniper_junos" then ["Model"; "JUNOS_Version"; "Serial"]
  else if String.eqb os_type "sonic_cli" then ["Platform"; "Sonic_Version"; "Uptime"]
  else [].

Definition bgp_fields (os_type : string) : list string :=
  if String.eqb os_type "cisco_ios" then ["Router_ID"; "BGP_Neighbors"]
  else if String.eqb os_type "arista_eos" then ["AS_Number"; "BGP_Neighbors"]
  else if String.eqb os_type "juniper_junos" then ["Router_ID"; "AS_Number"]
  else if String.eqb os_type "sonic_cli" then ["BGP_Neighbors"]
  else [].

(** Every key of [m] is one of [ks]. *)
Definition keys_within (ks : list string) (m : gmap string PyVal) : Prop :=
  forall k, is_Some (m !! k) -> k ∈ ks.

(** Every text value of [m] is free of colons. *)
Definition colon_free (m : gmap string PyVal) : Prop :=
  forall k text, m !! k = Some (VStr text) -> PyStr.has_char ":"%char text = false.

(** The candidates [us] are called in turn on a connection that starts as
    [c] and ends as [c'], and the answer to each fails the acceptance test:
    the command failed, or the output is empty, or its lower-cased text
    contains "permission denied". *)
Inductive rejected_in_turn {C : Type} `{!Connector C} (ip actual : string)
  : C -> list string -> C -> Prop :=
  | rejected_none (c : C) : rejected_in_turn ip actual c [] c
  | rejected_next (c c' c'' : C) (u : string) (us : list string)
      (success : bool) (output : string) :
      execute_command_on_device c ip u actual = ((success, output), c') ->
      success = false \/ output = EmptyString
      \/ PyStr.contains "permission denied" (PyStr.lower output) = true ->
      rejected_in_turn ip actual c' us c'' ->
      rejected_in_turn ip actual c (u :: us) c''.

(** * Properties *)

(** ** The embedding on sample inputs *)

Example normalize_ios : _normalize_os_type " ios " = "cisco_ios".
Proof. reflexivity. Qed.
Example normalize_nxos : _normalize_os_type "NX-OS" = "nx-os".
Proof. reflexivity. Qed.
Example normalize_empty : _normalize_os_type EmptyString = "cisco_ios".
Proof. reflexivity. Qed.
Example normalize_junos_evo : _normalize_os_type "Junos-EVO" = "juniper_junos".
Proof. reflexivity. Qed.

Example re_cisco_model :
  Re.re_search Re.cisco_model "Cisco IOS XE Software, Cisco C9300 Software"
  = Some "IOS XE".
Proof. reflexivity. Qed.
Example re_version :
  Re.re_search Re.version_number "IOS Software, Version  15.2.4E, RELEASE"
  = Some "15.2.4".
Proof. reflexivity. Qed.
Example re_uptime :
  Re.re_search Re.uptime_is ("sw1 uptime is 3 weeks" +:+ PyStr.nl +:+ "next")
  = Some "3 weeks".
Proof. reflexivity. Qed.
Example re_router_id :
  Re.re_search Re.router_id "BGP router identifier 10.0.0.1, local AS" = Some "10.0.0.1".
Proof. reflexivity. Qed.
Example re_ipv4 :
  Re.re_match Re.ipv4_leading "  10.1.2.3  4 65000" = Some EmptyString
  /\ Re.re_match Re.ipv4_leading "Neighbor 10.1.2.3" = None.
Proof. split; reflexivity. Qed.

Example parse_arista_sample :
  OutputParser.parse_show_version
    ("Arista DCS-7050" +:+ PyStr.nl +:+ "Model: DCS-7050TX " +:+ PyStr.nl +:+
     "Serial number: JPE123" +:+ PyStr.nl) "arista_eos"
  = <[ "Serial" := VStr "JPE123" ]> {[ "Model" := VStr "DCS-7050TX" ]}.
Proof. vm_compute. reflexivity. Qed.
Example parse_empty_cisco :
  OutputParser.parse_show_version EmptyString "cisco_ios" = {[ "raw_output" := VStr EmptyString ]}.
Proof. vm_compute. reflexivity. Qed.
Example parse_sonic_bgp_sample :
  OutputParser.parse_bgp_summary
    ("Neighbor V AS" +:+ PyStr.nl +:+ "10.0.0.1 4 65001" +:+ PyStr.nl +:+ " 10.0.0.2 4 65002")
    "sonic_cli"
  = {[ "BGP_Neighbors" := VInt 2 ]}.
Proof. vm_compute. reflexivity. Qed.

(** ** Strings *)

Module PyStrFacts.
Import PyStr.

Ltac by_cases_on_char c :=
  destruct c as [[] [] [] [] [] [] [] []]; vm_compute; reflexivity.

Lemma lower_c_not_upper c : is_upper_c (lower_c c) = false.
Proof. by_cases_on_char c. Qed.

Lemma lower_c_idem c : lower_c (lower_c c) = lower_c c.
Proof. by_cases_on_char c. Qed.

Lemma no_upper_lower s : no_upper (lower s) = true.
Proof.
  unfold lower. induction s as [|c s IH]; cbn [map_s no_upper]; [reflexivity|].
  rewrite lower_c_not_upper. exact IH.
Qed.

Lemma lower_idem s : lower (lower s) = lower s.
Proof.
  unfold lower. induction s as [|c s IH]; cbn [map_s]; [reflexivity|].
  rewrite lower_c_idem. f_equal. exact IH.
Qed.

Lemma lower_length s : String.length (lower s) = String.length s.
Proof.
  unfold lower. induction s as [|c s IH]; cbn [map_s String.length]; congruence.
Qed.

Lemma lower_nonempty s : s <> EmptyString -> lower s <> EmptyString.
Proof. destruct s; simpl; [congruence | discriminate]. Qed.

Lemma startswith_lower p s :
  startswith p s = true -> startswith (lower p) (lower s) = true.
Proof.
  unfold lower.
  revert s. induction p as [|a p IH]; intros [|b s]; cbn [map_s startswith];
    try congruence.
  intros H. apply andb_prop in H as [Hab Hps].
  apply Ascii.eqb_eq in Hab. subst b.
  rewrite Ascii.eqb_refl. cbn [andb]. apply IH, Hps.
Qed.

(** Lower-casing both sides keeps an occurrence an occurrence. *)
Lemma contains_lower p s :
  contains p s = true -> contains (lower p) (lower s) = true.
Proof.
  induction s as [|b s IH]; cbn [contains]; intros H.
  - apply orb_prop in H as [H|H]; [|discriminate].
    apply startswith_lower in H. change (lower EmptyString) with EmptyString in *.
    cbn [contains]. rewrite H. reflexivity.
  - apply orb_prop in H as [H|H].
    + apply startswith_lower in H.
      change (lower (String b s)) with (String (lower_c b) (lower s)) in *.
      cbn [contains]. rewrite H. reflexivity.
    + change (lower (String b s)) with (String (lower_c b) (lower s)).
      cbn [contains]. rewrite (IH H). apply orb_true_r.
Qed.

Lemma contains_empty_needle s : contains EmptyString s = true.
Proof. destruct s; reflexivity. Qed.

Lemma take_length n s : String.length (take n s) = Nat.min n (String.length s).
Proof.
  revert s. induction n as [|n IH]; intros [|c s]; simpl; try reflexivity.
  rewrite IH. reflexivity.
Qed.

Lemma take_all n s : String.length s <= n -> take n s = s.
Proof.
  revert s. induction n as [|n IH]; intros [|c s]; simpl; intros H;
    try reflexivity; try lia.
  f_equal. apply IH. lia.
Qed.

Lemma take_startswith n s : startswith (take n s) s = true.
Proof.
  revert s. induction n as [|n IH]; intros [|c s]; simpl; try reflexivity.
  rewrite Ascii.eqb_refl. apply IH.
Qed.

Lemma startswith_has_char c p s :
  startswith p s = true -> has_char c p = true -> has_char c s = true.
Proof.
  revert s. induction p as [|a p IH]; intros s Hp Hc; cbn [has_char] in Hc;
    [discriminate|].
  destruct s as [|b s]; cbn [startswith] in Hp; [discriminate|].
  apply andb_prop in Hp as [Hab Hps]. apply Ascii.eqb_eq in Hab. subst b.
  cbn [has_char]. apply orb_prop in Hc as [Hc|Hc].
  - rewrite Hc. reflexivity.
  - rewrite (IH s Hps Hc). apply orb_true_r.
Qed.

Lemma contains_has_char c p s :
  contains p s = true -> has_char c p = true -> has_char c s = true.
Proof.
  intros Hp Hc. induction s as [|b s IH]; cbn [contains] in Hp.
  - apply orb_prop in Hp as [Hp|Hp]; [|discriminate].
    exact (startswith_has_char c p EmptyString Hp Hc).
  - apply orb_prop in Hp as [Hp|Hp].
    + exact (startswith_has_char c p (String b s) Hp Hc).
    + cbn [has_char]. rewrite (IH Hp). apply orb_true_r.
Qed.

Lemma split_nonempty sep s : 1 <= length (split sep s).
Proof.
  induction s as [|b s IH]; cbn [split]; [cbn; lia|].
  destruct (Ascii.eqb b sep); [cbn; lia|].
  destruct (split sep s); cbn in *; lia.
Qed.

(** A text that has the separator splits into at least two pieces, so
    index 1 of the split exists. *)
Lemma split_has_second sep s :
  has_char sep s = true -> 2 <= length (split sep s).
Proof.
  induction s as [|b s IH]; cbn [has_char split]; [discriminate|].
  destruct (Ascii.eqb b sep) eqn:Hb; cbn [orb].
  - intros _. pose proof (split_nonempty sep s). cbn [length]. lia.
  - intros Hs. specialize (IH Hs).
    destruct (split sep s) as [|x xs]; cbn [length] in *; lia.
Qed.

(** Every line on which the parsers index [line.split(":")[1]] contains a
    text with a colon, hence has that index. *)
Lemma split_colon_index_1 needle line :
  has_char ":"%char needle = true ->
  contains needle line = true ->
  2 <= length (split ":"%char line).
Proof.
  intros Hn Hl. apply split_has_second. exact (contains_has_char _ _ _ Hl Hn).
Qed.

End PyStrFacts.

(** ** OS-type normalization *)

Lemma assoc_get_value {V} k (d : list (string * V)) v :
  assoc_get k d = Some v -> v ∈ d.*2.
Proof.
  induction d as [|[k' v'] d IH]; simpl; [discriminate|].
  destruct (String.eqb k k').
  - intros [= ->]. apply list_elem_of_here.
  - intros H. apply list_elem_of_further, IH, H.
Qed.

Lemma first_substring_match_value u d v :
  first_substring_match u d = Some v -> v ∈ d.*2.
Proof.
  induction d as [|[k' v'] d IH]; simpl; [discriminate|].
  destruct (PyStr.contains k' u || PyStr.contains u k').
  - intros [= ->]. apply list_elem_of_here.
  - intros H. apply list_elem_of_further, IH, H.
Qed.

(** Every value of the normalization table is a non-empty lower-case tag. *)
Lemma os_types_value_ok v :
  v ∈ OS_TYPES.*2 ->
  v <> EmptyString /\ PyStr.no_upper v = true /\ PyStr.lower v = v.
Proof.
  intros H. simpl in H.
  repeat (apply elem_of_cons in H as [-> | H];
          [split; [discriminate | split; reflexivity] |]).
  apply elem_of_nil in H. contradiction.
Qed.

(** The substring loop always finds the first entry for the empty tag. *)
Lemma first_substring_match_empty :
  first_substring_match EmptyString OS_TYPES = Some "cisco_ios".
Proof. reflexivity. Qed.

(** On the bytes of any input: the tag is a value of the normalization
    table or the lower-cased, stripped, upper-cased input (reached only when
    that is not empty); it is not empty, has no ASCII capital, and
    lower-casing leaves it as it is. *)
Lemma normalize_tag_shape (os_type : string) :
  _normalize_os_type os_type <> EmptyString
  /\ PyStr.no_upper (_normalize_os_type os_type) = true
  /\ PyStr.lower (_normalize_os_type os_type) = _normalize_os_type os_type
  /\ (_normalize_os_type os_type ∈ OS_TYPES.*2
      \/ _normalize_os_type os_type = PyStr.lower (PyStr.strip (PyStr.upper os_type))).
Proof.
  unfold _normalize_os_type.
  set (os_upper := PyStr.strip (PyStr.upper os_type)).
  destruct (assoc_get os_upper OS_TYPES) as [v|] eqn:Hexact.
  { apply assoc_get_value in Hexact.
    destruct (os_types_value_ok v Hexact) as (? & ? & ?). auto. }
  destruct (first_substring_match os_upper OS_TYPES) as [v|] eqn:Hsub.
  { apply first_substring_match_value in Hsub.
    destruct (os_types_value_ok v Hsub) as (? & ? & ?). auto. }
  assert (Hne : os_upper <> EmptyString).
  { intros E. rewrite E, first_substring_match_empty in Hsub. discriminate. }
  repeat split.
  - apply PyStrFacts.lower_nonempty, Hne.
  - apply PyStrFacts.no_upper_lower.
  - apply PyStrFacts.lower_idem.
  - right. reflexivity.
Qed.

Module AsciiFacts.
Import PyStr.

Ltac by_cases_on_ascii c :=
  destruct c as [[] [] [] [] [] [] [] []]; vm_compute; intros; congruence.

Lemma upper_c_ascii c :
  Nat.ltb (code c) 128 = true -> Nat.ltb (code (upper_c c)) 128 = true.
Proof. by_cases_on_ascii c. Qed.

Lemma lower_c_ascii c :
  Nat.ltb (code c) 128 = true -> Nat.ltb (code (lower_c c)) 128 = true.
Proof. by_cases_on_ascii c. Qed.

Lemma map_ascii f s :
  (forall c, Nat.ltb (code c) 128 = true -> Nat.ltb (code (f c)) 128 = true) ->
  is_ascii s = true -> is_ascii (map_s f s) = true.
Proof.
  intros Hf. induction s as [|c s IH]; cbn [map_s is_ascii]; [reflexivity|].
  intros H. apply andb_prop in H as [Hc Hs]. rewrite (Hf c Hc), (IH Hs). reflexivity.
Qed.

Lemma upper_ascii s : is_ascii s = true -> is_ascii (upper s) = true.
Proof. apply map_ascii, upper_c_ascii. Qed.

Lemma lower_ascii s : is_ascii s = true -> is_ascii (lower s) = true.
Proof. apply map_ascii, lower_c_ascii. Qed.

Lemma lstrip_ascii s : is_ascii s = true -> is_ascii (lstrip s) = true.
Proof.
  induction s as [|c s IH]; cbn [lstrip]; [reflexivity|].
  intros H. destruct (is_space_c c); [|exact H].
  cbn [is_ascii] in H. apply andb_prop in H as [_ Hs]. apply IH, Hs.
Qed.

Lemma rstrip_ascii s : is_ascii s = true -> is_ascii (rstrip s) = true.
Proof.
  induction s as [|c s IH]; cbn [rstrip is_ascii]; [reflexivity|].
  intros H. apply andb_prop in H as [Hc Hs]. specialize (IH Hs).
  destruct (rstrip s) as [|d r].
  - destruct (is_space_c c); cbn [is_ascii]; [reflexivity|]. rewrite Hc. reflexivity.
  - cbn [is_ascii] in *. rewrite Hc. exact IH.
Qed.

Lemma strip_ascii s : is_ascii s = true -> is_ascii (strip s) = true.
Proof. intros H. unfold strip. apply rstrip_ascii, lstrip_ascii, H. Qed.


(** The tag of an ASCII input is ASCII. *)
Lemma normalize_ascii os_type :
  is_ascii os_type = true -> is_ascii (_normalize_os_type os_type) = true.
Proof.
  intros H. destruct (normalize_tag_shape os_type) as (_ & _ & _ & [Hv | ->]).
  - cbn in Hv.
    repeat (apply elem_of_cons in Hv as [-> | Hv]; [reflexivity|]).
    apply elem_of_nil in Hv. contradiction.
  - apply lower_ascii, strip_ascii, upper_ascii, H.
Qed.

End AsciiFacts.

Example upsilon_hook_literal : PyStr.upsilon_hook = "ϒ".
Proof. reflexivity. Qed.




(** ** Username candidate list *)

Lemma dict_fromkeys_acc_elem seen l x :
  x ∈ dict_fromkeys_acc seen l <-> x ∈ l /\ x ∉ seen.
Proof.
  revert seen. induction l as [|y l IH]; intros seen; simpl.
  - split; [intros H; inversion H | intros [H _]; inversion H].
  - case_bool_decide as Hy.
    + rewrite IH, elem_of_cons. split; [tauto|].
      intros [[-> | Hx] Hn]; [contradiction | tauto].
    + rewrite !elem_of_cons, IH, elem_of_cons. split.
      * intros [-> | (Hx & Hn)]; [tauto|]. split; [tauto|]. intros ?. apply Hn. tauto.
      * intros [[-> | Hx] Hn]; [tauto|].
        destruct (decide (x = y)) as [->|Hne]; [tauto|].
        right. split; [exact Hx|]. intros [?|?]; [contradiction|]. apply Hn. assumption.
Qed.

(** [dict.fromkeys] keeps one copy of every key. *)
Lemma dict_fromkeys_acc_NoDup seen l : NoDup (dict_fromkeys_acc seen l).
Proof.
  revert seen. induction l as [|y l IH]; intros seen; simpl.
  - constructor.
  - case_bool_decide as Hy; [apply IH|].
    apply NoDup_cons. split; [|apply IH].
    rewrite dict_fromkeys_acc_elem. intros [_ Hn]. apply Hn. apply list_elem_of_here.
Qed.

Lemma dict_fromkeys_NoDup l : NoDup (dict_fromkeys l).
Proof. apply dict_fromkeys_acc_NoDup. Qed.

Lemma dict_fromkeys_elem l x : x ∈ dict_fromkeys l <-> x ∈ l.
Proof.
  unfold dict_fromkeys. rewrite dict_fromkeys_acc_elem.
  split; [tauto|]. intros H. split; [exact H|]. apply not_elem_of_nil.
Qed.

(** Appending the entries not yet present keeps a list free of duplicates. *)
Lemma extend_not_in_NoDup present extra :
  NoDup present -> NoDup extra -> NoDup (present ++ not_in present extra).
Proof.
  intros Hp He. apply NoDup_app. split; [exact Hp|]. split.
  - intros x Hx Hf. unfold not_in in Hf.
    apply list_elem_of_filter in Hf as [Hn _]. contradiction.
  - unfold not_in. apply NoDup_filter, He.
Qed.

Lemma CISCO_IOS_USERNAMES_NoDup : NoDup CISCO_IOS_USERNAMES.
Proof. apply (bool_decide_unpack _). vm_compute. exact I. Qed.

Lemma build_username_list_NoDup os : NoDup (_build_username_list os).
Proof.
  unfold _build_username_list.
  destruct (PyStr.contains "cisco" (PyStr.lower os)).
  - apply extend_not_in_NoDup;
      [apply dict_fromkeys_NoDup | apply CISCO_IOS_USERNAMES_NoDup].
  - apply dict_fromkeys_NoDup.
Qed.

Lemma build_username_list_segments os :
  _build_username_list os
  = device_specific_for os ++ defaults_segment os ++ cisco_segment os.
Proof.
  destruct (String.eqb os "cisco_ios") eqn:E1;
    [apply String.eqb_eq in E1; subst os; vm_compute; reflexivity|].
  destruct (String.eqb os "arista_eos") eqn:E2;
    [apply String.eqb_eq in E2; subst os; vm_compute; reflexivity|].
  destruct (String.eqb os "juniper_junos") eqn:E3;
    [apply String.eqb_eq in E3; subst os; vm_compute; reflexivity|].
  destruct (String.eqb os "sonic_cli") eqn:E4;
    [apply String.eqb_eq in E4; subst os; vm_compute; reflexivity|].
  unfold _build_username_list, cisco_segment, defaults_segment, device_specific_for.
  assert (Hnone : assoc_get os DEVICE_SPECIFIC_USERNAMES = None).
  { unfold DEVICE_SPECIFIC_USERNAMES, assoc_get. rewrite E1, E2, E3, E4. reflexivity. }
  rewrite Hnone.
  destruct (PyStr.contains "cisco" (PyStr.lower os)); vm_compute; reflexivity.
Qed.

(** C3: for every OS tag the list built when no explicit list is given has
    no duplicate entry and is, in this order, the device-specific usernames
    of the tag, then the default usernames not already listed, then, only
    when the lower-cased tag contains "cisco", the Cisco usernames not
    already listed (and nothing otherwise). The list is a function of the
    tag alone. *)
Theorem build_username_list_dedup_ordered (os : string) :
  NoDup (_build_username_list os)
  /\ _build_username_list os
     = device_specific_for os
       ++ not_in (device_specific_for os) DEFAULT_USERNAMES
       ++ (if PyStr.contains "cisco" (PyStr.lower os)
           then not_in (device_specific_for os
                        ++ not_in (device_specific_for os) DEFAULT_USERNAMES)
                       CISCO_IOS_USERNAMES
           else []).
Proof.
  split; [apply build_username_list_NoDup | apply build_username_list_segments].
Qed.

Example usernames_cisco_ios :
  _build_username_list "cisco_ios"
  = [ "vn59iz6"; "admin"; "netadmin"; "operator"; "root"; "network";
      "automation"; "neteng";
      "netman"; "svc_netman"; "bvneteng"; "bootstrap"; "vendor"; "nettitansvc";
      "gec_netengmonitor"; "svc_netengmonitor";
      "monitor"; "view"; "service"; "support" ].
Proof. vm_compute. reflexivity. Qed.

(** ** The username rotation of [run_command] *)

Lemma rejected_nil r : rejected r [] = r.
Proof. destruct r. unfold rejected. simpl. rewrite app_nil_r. reflexivity. Qed.

Lemma rejected_reject r u us :
  rejected (rejected r [u]) us = rejected r (u :: us).
Proof. unfold rejected. simpl. rewrite <- app_assoc. reflexivity. Qed.

(** The acceptance rule, spelled out. *)
Lemma accepted_iff success output :
  accepted success output = true <->
  success = true /\ output <> EmptyString
  /\ PyStr.contains "permission denied" (PyStr.lower output) = false.
Proof.
  unfold accepted. rewrite !andb_true_iff, !negb_true_iff, String.eqb_neq. tauto.
Qed.

Lemma accepted_empty success : accepted success EmptyString = false.
Proof. unfold accepted. destruct success; reflexivity. Qed.

(** An output that mentions "Permission denied" is never accepted. *)
Lemma accepted_denied success output :
  PyStr.contains "Permission denied" output = true -> accepted success output = false.
Proof.
  intros H. apply PyStrFacts.contains_lower in H.
  change (PyStr.lower "Permission denied") with "permission denied" in H.
  unfold accepted. rewrite H. apply andb_false_r.
Qed.

Section RunnerFacts.
Context {C : Type} `{!Connector C}.

(** A rejected attempt: the call is made, the name goes to
    [failed_usernames], and the loop moves on. *)
Lemma try_usernames_reject alias actual u rest (st : Session C) success output conn' :
  execute_command_on_device (ssh_connection st) (device_ip (runner st)) u actual
    = ((success, output), conn') ->
  accepted success output = false ->
  try_usernames alias actual (u :: rest) st
  = try_usernames alias actual rest
      (mkSession (rejected (runner st) [u]) conn' (calls st ++ [attempt_on st actual u])).
Proof.
  intros Hexec Hrej. cbn [try_usernames]. unfold execute. rewrite Hexec.
  rewrite Hrej. reflexivity.
Qed.

(** An accepted attempt ends the loop. *)
Lemma try_usernames_accept alias actual u rest (st : Session C) success output conn' :
  execute_command_on_device (ssh_connection st) (device_ip (runner st)) u actual
    = ((success, output), conn') ->
  accepted success output = true ->
  try_usernames alias actual (u :: rest) st
  = ((true, parse_for alias output (device_os (runner st))),
     mkSession (accept (runner st) u) conn' (calls st ++ [attempt_on st actual u])).
Proof.
  intros Hexec Hacc. cbn [try_usernames]. unfold execute. rewrite Hexec.
  rewrite Hacc. reflexivity.
Qed.

(** When no attempt can be accepted, on any connection state satisfying an
    invariant [good], the loop tries every candidate, in order, and
    reports the failure. *)
Lemma try_usernames_exhausted (good : C -> Prop) alias actual ip :
  (forall (c : C) u, good c ->
     let res := execute_command_on_device c ip u actual in
     good res.2 /\ accepted res.1.1 res.1.2 = false) ->
  forall us (st : Session C),
    device_ip (runner st) = ip ->
    good (ssh_connection st) ->
    exists conn',
      good conn' /\
      try_usernames alias actual us st
      = ((false, {[ "error" := VStr (_build_auth_failure_message (rejected (runner st) us)) ]}),
         mkSession (rejected (runner st) us) conn'
                   (calls st ++ map (fun u => mkAttempt ip u actual) us)).
Proof.
  intros Hall us. induction us as [|u us IH]; intros st Hip Hgood.
  - exists (ssh_connection st). split; [exact Hgood|]. cbn [try_usernames map].
    rewrite rejected_nil, app_nil_r. destruct st; reflexivity.
  - specialize (Hall (ssh_connection st) u Hgood). cbn zeta in Hall.
    destruct (execute_command_on_device (ssh_connection st) ip u actual)
      as [[success output] conn'] eqn:Hexec.
    cbn [fst snd] in Hall. destruct Hall as [Hgood' Hrej].
    rewrite <- Hip in Hexec.
    rewrite (try_usernames_reject _ _ _ _ _ _ _ _ Hexec Hrej).
    destruct (IH (mkSession (rejected (runner st) [u]) conn'
                            (calls st ++ [attempt_on st actual u]))) as (conn'' & Hg & Heq);
      [exact Hip | exact Hgood' |].
    exists conn''. split; [exact Hg|]. rewrite Heq. cbn [runner calls].
    rewrite rejected_reject. unfold attempt_on. rewrite Hip.
    cbn [map]. rewrite <- app_assoc. reflexivity.
Qed.

(** Whatever the connection answers, the calls of one loop are for a
    prefix of the candidate list, in order. *)
Lemma try_usernames_calls alias actual us (st : Session C) :
  exists k,
    calls (try_usernames alias actual us st).2
    = calls st ++ map (attempt_on st actual) (firstn k us).
Proof.
  revert st. induction us as [|u us IH]; intros st.
  - exists 0. cbn. rewrite app_nil_r. reflexivity.
  - destruct (execute_command_on_device (ssh_connection st) (device_ip (runner st)) u actual)
      as [[success output] conn'] eqn:Hexec.
    destruct (accepted success output) eqn:Hacc.
    + exists 1. rewrite (try_usernames_accept _ _ _ _ _ _ _ _ Hexec Hacc). reflexivity.
    + rewrite (try_usernames_reject _ _ _ _ _ _ _ _ Hexec Hacc).
      destruct (IH (mkSession (rejected (runner st) [u]) conn'
                              (calls st ++ [attempt_on st actual u]))) as [k Hk].
      exists (S k). rewrite Hk. cbn [calls firstn map]. rewrite <- app_assoc. reflexivity.
Qed.

End RunnerFacts.

(** The other half of the acceptance rule: what a rejected answer is. *)
Lemma rejected_iff success output :
  accepted success output = false <->
  success = false \/ output = EmptyString
  \/ PyStr.contains "permission denied" (PyStr.lower output) = true.
Proof.
  unfold accepted. destruct success; cbn [andb].
  - destruct (String.eqb_spec output EmptyString) as [->|Hne]; cbn [negb andb].
    + split; auto.
    + destruct (PyStr.contains "permission denied" (PyStr.lower output)); cbn [negb].
      * split; auto.
      * split; [discriminate|]. intros [H | [H | H]]; congruence.
  - split; auto.
Qed.

Section Walk.
Context {C : Type} `{!Connector C}.

(** The rotation loop walks the candidates from the head: it ends at the
    first candidate whose answer passes the acceptance test, after every
    candidate before it was called and failed the test; or, when no answer
    passes, after all of them were called. *)
Lemma try_usernames_walk alias actual us (st : Session C) :
  (exists pre u post c1 output c2,
      us = pre ++ u :: post
      /\ rejected_in_turn (device_ip (runner st)) actual (ssh_connection st) pre c1
      /\ execute_command_on_device c1 (device_ip (runner st)) u actual = ((true, output), c2)
      /\ output <> EmptyString
      /\ PyStr.contains "permission denied" (PyStr.lower output) = false
      /\ try_usernames alias actual us st
         = ((true, parse_for alias output (device_os (runner st))),
            mkSession (accept (rejected (runner st) pre) u) c2
                      (calls st ++ map (attempt_on st actual) (pre ++ [u]))))
  \/ (exists c1,
        rejected_in_turn (device_ip (runner st)) actual (ssh_connection st) us c1
        /\ try_usernames alias actual us st
           = ((false, {[ "error" := VStr (_build_auth_failure_message (rejected (runner st) us)) ]}),
              mkSession (rejected (runner st) us) c1
                        (calls st ++ map (attempt_on st actual) us))).
Proof.
  revert st. induction us as [|u us IH]; intros st.
  - right. exists (ssh_connection st). split; [constructor|].
    cbn [try_usernames map]. rewrite rejected_nil, app_nil_r. destruct st; reflexivity.
  - destruct (execute_command_on_device (ssh_connection st) (device_ip (runner st)) u actual)
      as [[success output] conn'] eqn:Hexec.
    destruct (accepted success output) eqn:Hacc.
    + left. pose proof (proj1 (accepted_iff _ _) Hacc) as (-> & Hne & Hpd).
      exists [], u, us, (ssh_connection st), output, conn'.
      split; [reflexivity|]. split; [constructor|]. split; [exact Hexec|].
      split; [exact Hne|]. split; [exact Hpd|].
      rewrite (try_usernames_accept _ _ _ _ _ _ _ _ Hexec Hacc).
      cbn [app map]. rewrite rejected_nil. reflexivity.
    + rewrite (try_usernames_reject _ _ _ _ _ _ _ _ Hexec Hacc).
      pose proof (proj1 (rejected_iff _ _) Hacc) as Hwhy.
      set (st1 := mkSession (rejected (runner st) [u]) conn'
                            (calls st ++ [attempt_on st actual u])).
      destruct (IH st1)
        as [(pre & v & post & c1 & out & c2 & Hus & Hrej & Hv & Hne & Hpd & Heq)
           | (c1 & Hrej & Heq)].
      * left. exists (u :: pre), v, post, c1, out, c2.
        split; [rewrite Hus; reflexivity|].
        split; [exact (rejected_next _ _ _ _ _ _ _ _ _ Hexec Hwhy Hrej)|].
        split; [exact Hv|]. split; [exact Hne|]. split; [exact Hpd|].
        rewrite Heq. cbn [runner calls st1].
        rewrite rejected_reject, <- app_assoc. reflexivity.
      * right. exists c1.
        split; [exact (rejected_next _ _ _ _ _ _ _ _ _ Hexec Hwhy Hrej)|].
        rewrite Heq. cbn [runner calls st1].
        rewrite rejected_reject, <- app_assoc. reflexivity.
Qed.

(** [run_command] on a supported alias, in terms of the walk. *)
Lemma run_command_walk alias actual (st : Session C) :
  get_available_commands (runner st) !! alias = Some actual ->
  (exists pre u post c1 output c2,
      usernames (runner st) = pre ++ u :: post
      /\ rejected_in_turn (device_ip (runner st)) actual (ssh_connection st) pre c1
      /\ execute_command_on_device c1 (device_ip (runner st)) u actual = ((true, output), c2)
      /\ output <> EmptyString
      /\ PyStr.contains "permission denied" (PyStr.lower output) = false
      /\ run_command alias st
         = ((true, parse_for alias output (device_os (runner st))),
            mkSession (accept (rejected (runner st) pre) u) c2
                      (calls st ++ map (attempt_on st actual) (pre ++ [u]))))
  \/ (exists c1,
        rejected_in_turn (device_ip (runner st)) actual (ssh_connection st)
          (usernames (runner st)) c1
        /\ run_command alias st
           = ((false, {[ "error" := VStr (_build_auth_failure_message
                                            (rejected (runner st) (usernames (runner st)))) ]}),
              mkSession (rejected (runner st) (usernames (runner st))) c1
                        (calls st ++ map (attempt_on st actual) (usernames (runner st))))).
Proof.
  intros Halias. unfold run_command. rewrite Halias. apply try_usernames_walk.
Qed.

Lemma attempt_usernames (st : Session C) actual us :
  map a_username (map (attempt_on st actual) us) = us.
Proof. rewrite map_map. cbn [attempt_on a_username]. apply map_id. Qed.

End Walk.

(** ** Unsupported alias *)

(** C6: for an alias that the command table of the runner's OS does not
    have, [run_command] returns the "not available" error and leaves the
    whole session as it was: no call on the connection, no username tried,
    [failed_usernames] unchanged. *)
Theorem run_command_unsupported_alias {C : Type} `{!Connector C}
    (st : Session C) (command_alias : string) :
  get_available_commands (runner st) !! command_alias = None ->
  run_command command_alias st
  = ((false, {[ "error" := VStr ("Command '" +:+ command_alias +:+
                                 "' not available for " +:+ device_os (runner st)) ]}),
     st)
  /\ calls (run_command command_alias st).2 = calls st
  /\ failed_usernames (runner (run_command command_alias st).2)
     = failed_usernames (runner st).
Proof.
  intros Habsent. unfold run_command. rewrite Habsent. auto.
Qed.

Lemma run_command_unsupported_alias_witness :
  let st := new_session "10.0.0.1" "IOS" always_denied None in
  get_available_commands (runner st) !! "reload" = None
  /\ calls (run_command "reload" st).2 = []
  /\ (run_command "reload" st).1.1 = false.
Proof.
  intros st.
  assert (Habsent : get_available_commands (runner st) !! "reload" = None)
    by (vm_compute; reflexivity).
  destruct (run_command_unsupported_alias st "reload" Habsent) as (Heq & Hcalls & _).
  split; [exact Habsent|]. split; [exact Hcalls|]. rewrite Heq. reflexivity.
Defined.

(** ** Rotation until the first accepted candidate *)

(** C4, as stated, fails: the connection below answers success to "neteng"
    only, and nothing it answers mentions "permission denied", so by the
    stated rule "neteng" is accepted on the third attempt; the code rejects
    all three, because the successful answer is empty. *)
Lemma run_command_rejects_silent_success :
  let st := new_session "10.0.0.1" "IOS" neteng_silent (Some three_candidates) in
  let answer u := reply neteng_silent "10.0.0.1" u "show version" in
  accepted_without_emptiness_test (answer "admin").1 (answer "admin").2 = false
  /\ accepted_without_emptiness_test (answer "netadmin").1 (answer "netadmin").2 = false
  /\ accepted_without_emptiness_test (answer "neteng").1 (answer "neteng").2 = true
  /\ (run_command "version" st).1.1 = false
  /\ current_username (runner (run_command "version" st).2) = None
  /\ failed_usernames (runner (run_command "version" st).2)
     = ["admin"; "netadmin"; "neteng"].
Proof. vm_compute. repeat split; reflexivity. Qed.

(** C4, amended: on the candidate list admin, netadmin, neteng and a
    connection on which only "neteng" passes the acceptance test,
    [run_command "version"] calls the connection for the three candidates in
    list order, accepts the third, returns success with the parsed output,
    and leaves [current_username = "neteng"] and
    [failed_usernames = admin, netadmin]. The acceptance test is: the
    command succeeded, the output is not empty, and the lower-cased output
    does not contain "permission denied". *)
Theorem run_command_accepts_third_candidate {C : Type} `{!Connector C}
    (good : C -> Prop) (conn : C) (ip os_type actual : string) :
  let st := new_session ip os_type conn (Some three_candidates) in
  get_available_commands (runner st) !! "version" = Some actual ->
  good conn ->
  (forall c u, good c ->
     let res := execute_command_on_device c ip u actual in
     good res.2 /\ (accepted res.1.1 res.1.2 = true <-> u = "neteng")) ->
  (exists output conn',
     run_command "version" st
     = ((true, OutputParser.parse_show_version output (_normalize_os_type os_type)),
        mkSession
          (mkRunner ip (_normalize_os_type os_type) three_candidates
                    (Some "neteng") true ["admin"; "netadmin"])
          conn'
          [mkAttempt ip "admin" actual; mkAttempt ip "netadmin" actual;
           mkAttempt ip "neteng" actual]))
  /\ (forall success output,
        accepted success output = true <->
        success = true /\ output <> EmptyString
        /\ PyStr.contains "permission denied" (PyStr.lower output) = false).
Proof.
  intros st Hversion Hconn Hrule. split; [|apply accepted_iff].
  unfold run_command. rewrite Hversion.
  change (usernames (runner st)) with ["admin"; "netadmin"; "neteng"].
  (* admin *)
  destruct (execute_command_on_device conn ip "admin" actual) as [[s1 o1] c1] eqn:E1.
  pose proof (Hrule conn "admin" Hconn) as H1. cbn zeta in H1. rewrite E1 in H1.
  cbn [fst snd] in H1. destruct H1 as [Hc1 H1].
  assert (R1 : accepted s1 o1 = false).
  { destruct (accepted s1 o1); [|reflexivity].
    assert (Habs : "admin" = "neteng") by (apply H1; reflexivity). discriminate Habs. }
  rewrite (try_usernames_reject _ _ _ _ st _ _ _ E1 R1).
  (* netadmin *)
  destruct (execute_command_on_device c1 ip "netadmin" actual) as [[s2 o2] c2] eqn:E2.
  pose proof (Hrule c1 "netadmin" Hc1) as H2. cbn zeta in H2. rewrite E2 in H2.
  cbn [fst snd] in H2. destruct H2 as [Hc2 H2].
  assert (R2 : accepted s2 o2 = false).
  { destruct (accepted s2 o2); [|reflexivity].
    assert (Habs : "netadmin" = "neteng") by (apply H2; reflexivity). discriminate Habs. }
  erewrite try_usernames_reject; [| exact E2 | exact R2].
  (* neteng *)
  destruct (execute_command_on_device c2 ip "neteng" actual) as [[s3 o3] c3] eqn:E3.
  pose proof (Hrule c2 "neteng" Hc2) as H3. cbn zeta in H3. rewrite E3 in H3.
  cbn [fst snd] in H3. destruct H3 as [_ H3].
  assert (A3 : accepted s3 o3 = true) by (apply H3; reflexivity).
  erewrite try_usernames_accept; [| exact E3 | exact A3].
  exists o3, c3. reflexivity.
Qed.

Lemma run_command_accepts_third_candidate_witness :
  let st := new_session "10.0.0.1" "IOS" only_neteng (Some three_candidates) in
  (run_command "version" st).1.1 = true
  /\ current_username (runner (run_command "version" st).2) = Some "neteng"
  /\ failed_usernames (runner (run_command "version" st).2) = ["admin"; "netadmin"]
  /\ map a_username (calls (run_command "version" st).2) = three_candidates.
Proof.
  intros st.
  destruct (run_command_accepts_third_candidate
              (fun c => c = only_neteng) only_neteng "10.0.0.1" "IOS" "show version")
    as [(output & conn' & Hrun) _].
  - vm_compute. reflexivity.
  - reflexivity.
  - intros c u ->. cbn zeta. split; [reflexivity|].
    unfold execute_command_on_device, Mock_Connector, only_neteng. cbn [reply fst snd].
    destruct (String.eqb u "neteng") eqn:Hu.
    + apply String.eqb_eq in Hu. split; [intros _; exact Hu | intros _; vm_compute; reflexivity].
    + apply String.eqb_neq in Hu. split; [intros Hacc; vm_compute in Hacc; discriminate | intros E; contradiction].
  - fold st in Hrun. rewrite Hrun. repeat split; reflexivity.
Defined.

(** ** Exhausting the candidates *)

(** What the failure message shows of the failed usernames and of the
    count. *)
Lemma auth_failure_message_text (r : Runner) :
  _build_auth_failure_message r
  = "Authentication failed. Tried "
    +:+ NilZero.string_of_uint (Nat.to_uint (length (failed_usernames r)))
    +:+ " username(s): "
    +:+ match failed_usernames r with
        | [] => EmptyString
        | [a] => a
        | [a; b] => a +:+ ", " +:+ b
        | a :: b :: c :: _ => a +:+ ", " +:+ b +:+ ", " +:+ c
        end
    +:+ String (ascii_of_nat 10) (String (ascii_of_nat 10) "Troubleshooting steps:")
    +:+ String (ascii_of_nat 10) "1. Check device SSH config: show ip ssh"
    +:+ String (ascii_of_nat 10) "2. Check your user account exists on device"
    +:+ String (ascii_of_nat 10) "3. Verify your AD account has device access"
    +:+ String (ascii_of_nat 10) "4. Contact network team: nocenterprise@wal-mart.com"
    +:+ String (ascii_of_nat 10)
          (String (ascii_of_nat 10) "Note: This device requires specific username(s).")
    +:+ String (ascii_of_nat 10) "Device type: "
    +:+ device_os r.
Proof.
  unfold _build_auth_failure_message, PyStr.of_nat.
  assert (Hsample : PyStr.join ", " (firstn 3 (failed_usernames r))
                    = match failed_usernames r with
                      | [] => EmptyString
                      | [a] => a
                      | [a; b] => a +:+ ", " +:+ b
                      | a :: b :: c :: _ => a +:+ ", " +:+ b +:+ ", " +:+ c
                      end).
  { destruct (failed_usernames r) as [|a [|b [|c l]]]; reflexivity. }
  rewrite Hsample.
  generalize (NilZero.string_of_uint (Nat.to_uint (length (failed_usernames r)))).
  generalize (match failed_usernames r with
              | [] => EmptyString
              | [a] => a
              | [a; b] => a +:+ ", " +:+ b
              | a :: b :: c :: _ => a +:+ ", " +:+ b +:+ ", " +:+ c
              end).
  generalize (device_os r). intros tag sample count. reflexivity.
Qed.

(** C5: a runner built on a non-empty explicit candidate list, asked for an
    alias its OS supports, on a connection whose every answer contains
    "Permission denied": [run_command] returns failure after one call per
    candidate, in order; [failed_usernames] is the whole candidate list (so
    as long as it); nothing is cached; and the error text is "Authentication
    failed. Tried", the number of candidates in decimal, "username(s):", the
    first three candidates (all of them when there are fewer) separated by
    ", ", the six fixed lines of troubleshooting steps, and "Device type:"
    with the normalized OS tag. *)
Theorem run_command_all_denied {C : Type} `{!Connector C}
    (good : C -> Prop) (conn : C) (ip os_type command_alias actual : string)
    (candidates : list string) :
  let st := new_session ip os_type conn (Some candidates) in
  candidates <> [] ->
  get_available_commands (runner st) !! command_alias = Some actual ->
  good conn ->
  (forall c u, good c ->
     let res := execute_command_on_device c ip u actual in
     good res.2 /\ PyStr.contains "Permission denied" res.1.2 = true) ->
  exists conn',
    let out := run_command command_alias st in
    let line (text : string) : string := String (ascii_of_nat 10) text in
    let sample :=
      match candidates with
      | [] => EmptyString
      | [a] => a
      | [a; b] => a +:+ ", " +:+ b
      | a :: b :: c :: _ => a +:+ ", " +:+ b +:+ ", " +:+ c
      end in
    out.1
    = (false,
       {[ "error" :=
            VStr ("Authentication failed. Tried "
                  +:+ NilZero.string_of_uint (Nat.to_uint (length candidates))
                  +:+ " username(s): " +:+ sample
                  +:+ line (line "Troubleshooting steps:")
                  +:+ line "1. Check device SSH config: show ip ssh"
                  +:+ line "2. Check your user account exists on device"
                  +:+ line "3. Verify your AD account has device access"
                  +:+ line "4. Contact network team: nocenterprise@wal-mart.com"
                  +:+ line (line "Note: This device requires specific username(s).")
                  +:+ line "Device type: " +:+ _normalize_os_type os_type) ]})
    /\ failed_usernames (runner out.2) = candidates
    /\ length (failed_usernames (runner out.2)) = length candidates
    /\ current_username (runner out.2) = None
    /\ authenticated (runner out.2) = false
    /\ ssh_connection out.2 = conn'
    /\ calls out.2 = map (fun u => mkAttempt ip u actual) candidates.
Proof.
  intros st Hne Halias Hconn Hdenied.
  assert (Hus : usernames (runner st) = candidates).
  { destruct candidates; [contradiction | reflexivity]. }
  assert (Hrej : forall c u, good c ->
            let res := execute_command_on_device c ip u actual in
            good res.2 /\ accepted res.1.1 res.1.2 = false).
  { intros c u Hc. destruct (Hdenied c u Hc) as [Hg Hd].
    split; [exact Hg | apply accepted_denied, Hd]. }
  destruct (try_usernames_exhausted good command_alias actual ip Hrej candidates st
              eq_refl Hconn) as (conn' & _ & Hrun).
  exists conn'. cbn zeta. unfold run_command. rewrite Halias, Hus, Hrun.
  rewrite auth_failure_message_text.
  cbn [fst snd runner calls ssh_connection rejected failed_usernames current_username
       authenticated device_os st new_session Runner_init app].
  repeat split.
Qed.

Lemma run_command_all_denied_witness :
  let st := new_session "10.0.0.1" "IOS" always_denied
              (Some ["admin"; "netadmin"; "neteng"; "root"]) in
  (run_command "version" st).1
  = (false,
     {[ "error" :=
          VStr ("Authentication failed. Tried 4 username(s): admin, netadmin, neteng"
                +:+ PyStr.nl +:+ PyStr.nl +:+ "Troubleshooting steps:"
                +:+ PyStr.nl +:+ "1. Check device SSH config: show ip ssh"
                +:+ PyStr.nl +:+ "2. Check your user account exists on device"
                +:+ PyStr.nl +:+ "3. Verify your AD account has device access"
                +:+ PyStr.nl +:+ "4. Contact network team: nocenterprise@wal-mart.com"
                +:+ PyStr.nl +:+ PyStr.nl
                +:+ "Note: This device requires specific username(s)."
                +:+ PyStr.nl +:+ "Device type: cisco_ios") ]})
  /\ failed_usernames (runner (run_command "version" st).2)
     = ["admin"; "netadmin"; "neteng"; "root"]
  /\ map a_username (calls (run_command "version" st).2)
     = ["admin"; "netadmin"; "neteng"; "root"].
Proof.
  intros st.
  destruct (run_command_all_denied (fun c => c = always_denied) always_denied
              "10.0.0.1" "IOS" "version" "show version"
              ["admin"; "netadmin"; "neteng"; "root"])
    as (conn' & Hout & Hfailed & _ & _ & _ & _ & Hcalls).
  - discriminate.
  - vm_compute. reflexivity.
  - reflexivity.
  - intros c u ->. cbn zeta. split; [reflexivity | vm_compute; reflexivity].
  - fold st in Hout, Hfailed, Hcalls. rewrite Hout, Hfailed, Hcalls.
    split; [|split; reflexivity].
    reflexivity.
Defined.

(** ** Empty output *)

(** C10: when the connection answers a candidate with success and the empty
    string, the loop of [run_command] does not accept it: the call is made,
    the username is appended to [failed_usernames], [current_username] and
    [authenticated] keep their values, and the loop goes on with the
    remaining candidates. No empty output is ever accepted: acceptance
    requires success, a non-empty output and no "permission denied". *)
Theorem run_command_rejects_empty_output {C : Type} `{!Connector C}
    (st : Session C) (command_alias actual u : string) (rest : list string) (conn' : C) :
  execute_command_on_device (ssh_connection st) (device_ip (runner st)) u actual
    = ((true, EmptyString), conn') ->
  let st1 := mkSession
               (mkRunner (device_ip (runner st)) (device_os (runner st))
                         (usernames (runner st)) (current_username (runner st))
                         (authenticated (runner st))
                         (failed_usernames (runner st) ++ [u]))
               conn'
               (calls st ++ [mkAttempt (device_ip (runner st)) u actual]) in
  try_usernames command_alias actual (u :: rest) st
  = try_usernames command_alias actual rest st1
  /\ (forall success, accepted success EmptyString = false)
  /\ (forall success output,
        accepted success output = true <->
        success = true /\ output <> EmptyString
        /\ PyStr.contains "permission denied" (PyStr.lower output) = false).
Proof.
  intros Hexec st1. split; [|split; [apply accepted_empty | apply accepted_iff]].
  apply (try_usernames_reject _ _ _ _ _ _ _ _ Hexec (accepted_empty true)).
Qed.

Lemma run_command_rejects_empty_output_witness :
  let st := new_session "10.0.0.1" "IOS" neteng_silent (Some ["neteng"]) in
  execute_command_on_device (ssh_connection st) "10.0.0.1" "neteng" "show version"
    = ((true, EmptyString), neteng_silent)
  /\ (run_command "version" st).1.1 = false
  /\ failed_usernames (runner (run_command "version" st).2) = ["neteng"]
  /\ current_username (runner (run_command "version" st).2) = None.
Proof.
  intros st.
  assert (Hexec : execute_command_on_device (ssh_connection st) (device_ip (runner st))
                    "neteng" "show version" = ((true, EmptyString), neteng_silent))
    by reflexivity.
  split; [exact Hexec|].
  destruct (run_command_rejects_empty_output st "version" "show version" "neteng" []
              neteng_silent Hexec) as [Hstep _].
  assert (Hrun : run_command "version" st
                 = try_usernames "version" "show version" ["neteng"] st)
    by (vm_compute; reflexivity).
  rewrite Hrun, Hstep. repeat split; reflexivity.
Defined.

(** ** The cached username *)

Section CachedUsername.
Context {C : Type} `{!Connector C}.

(** [run_command] makes its calls for a prefix of the candidate list,
    starting at its head, whatever the runner has cached. *)
Lemma run_command_calls (st : Session C) command_alias :
  exists k,
    map a_username (calls (run_command command_alias st).2)
    = map a_username (calls st) ++ firstn k (usernames (runner st)).
Proof.
  unfold run_command.
  destruct (get_available_commands (runner st) !! command_alias) as [actual|].
  - destruct (try_usernames_calls command_alias actual (usernames (runner st)) st)
      as [k Hk].
    exists k. rewrite Hk, map_app, map_map. cbn [attempt_on a_username].
    rewrite map_id. reflexivity.
  - exists 0. cbn. rewrite app_nil_r. reflexivity.
Qed.

(** Acceptance sets both attributes [run_custom_command] looks at. *)
Lemma accept_caches r u :
  current_username (accept r u) = Some u /\ authenticated (accept r u) = true.
Proof. split; reflexivity. Qed.

End CachedUsername.




(** ** Output parser fallback *)

Module ParserFacts.
Import OutputParser.

Lemma no_raw_empty : no_raw ∅.
Proof. apply lookup_empty. Qed.

Lemma no_raw_insert k v m : k <> "raw_output" -> no_raw m -> no_raw (<[k := v]> m).
Proof. intros Hk Hm. unfold no_raw. rewrite lookup_insert_ne; assumption. Qed.

Lemma no_raw_set_if_match k o f m :
  k <> "raw_output" -> no_raw m -> no_raw (set_if_match k o f m).
Proof. intros Hk Hm. destruct o; simpl; [apply no_raw_insert|]; assumption. Qed.

Lemma no_raw_set_neighbors n m : no_raw m -> no_raw (set_neighbors n m).
Proof.
  intros Hm. unfold set_neighbors. destruct (Nat.ltb 0 n); [|assumption].
  apply no_raw_insert; [discriminate | assumption].
Qed.

Lemma no_raw_fold (f : gmap string PyVal -> string -> gmap string PyVal) lines m :
  (forall d line, no_raw d -> no_raw (f d line)) ->
  no_raw m -> no_raw (fold_left f lines m).
Proof.
  intros Hf. revert m. induction lines as [|l lines IH]; intros m Hm; simpl.
  - exact Hm.
  - apply IH, Hf, Hm.
Qed.

Ltac line_step f :=
  intros d line Hd; unfold f;
  repeat match goal with
         | |- context [if ?b then _ else _] => destruct b
         end;
  solve [ assumption
        | apply no_raw_insert; [discriminate | assumption]
        | apply no_raw_set_if_match; [discriminate | assumption] ].

Lemma cisco_version_data_no_raw output : no_raw (cisco_version_data output).
Proof.
  unfold cisco_version_data.
  repeat (apply no_raw_set_if_match; [discriminate|]). apply no_raw_empty.
Qed.

Lemma cisco_bgp_data_no_raw output : no_raw (cisco_bgp_data output).
Proof.
  unfold cisco_bgp_data. apply no_raw_set_neighbors, no_raw_fold; [|apply no_raw_empty].
  line_step cisco_bgp_line.
Qed.

Lemma arista_version_data_no_raw output : no_raw (arista_version_data output).
Proof.
  unfold arista_version_data. apply no_raw_fold; [|apply no_raw_empty].
  line_step arista_version_line.
Qed.

Lemma arista_bgp_data_no_raw output : no_raw (arista_bgp_data output).
Proof.
  unfold arista_bgp_data. apply no_raw_set_neighbors, no_raw_fold; [|apply no_raw_empty].
  line_step arista_bgp_line.
Qed.

Lemma juniper_version_data_no_raw output : no_raw (juniper_version_data output).
Proof.
  unfold juniper_version_data. apply no_raw_fold; [|apply no_raw_empty].
  line_step juniper_version_line.
Qed.

Lemma juniper_bgp_data_no_raw output : no_raw (juniper_bgp_data output).
Proof.
  unfold juniper_bgp_data. apply no_raw_fold; [|apply no_raw_empty].
  line_step juniper_bgp_line.
Qed.

Lemma sonic_version_data_no_raw output : no_raw (sonic_version_data output).
Proof.
  unfold sonic_version_data. apply no_raw_fold; [|apply no_raw_empty].
  line_step sonic_version_line.
Qed.

Lemma sonic_bgp_data_no_raw output : no_raw (sonic_bgp_data output).
Proof. unfold sonic_bgp_data. apply no_raw_set_neighbors, no_raw_empty. Qed.

Lemma raw_prefix_nonempty output : raw_prefix output <> ∅.
Proof.
  unfold raw_prefix. intros H.
  apply (f_equal (fun m : gmap string PyVal => m !! "raw_output")) in H.
  rewrite lookup_singleton_eq, lookup_empty in H. discriminate.
Qed.

(** [data or {"raw_output": output[:500]}] is never empty, and is the
    fallback exactly when nothing was extracted. *)
Lemma py_or_raw_prefix data output :
  no_raw data ->
  py_or data (raw_prefix output) <> ∅
  /\ (no_structured_field (py_or data (raw_prefix output)) ->
      py_or data (raw_prefix output) = raw_prefix output)
  /\ (data <> ∅ -> py_or data (raw_prefix output) = data)
  /\ (data = ∅ -> py_or data (raw_prefix output) = raw_prefix output).
Proof.
  intros Hraw. unfold py_or. destruct (decide (data = ∅)) as [He|Hne].
  - split; [apply raw_prefix_nonempty|]. repeat split; intros; congruence.
  - split; [exact Hne|]. split; [|split; intros; congruence].
    intros Hnone. exfalso. apply Hne. apply map_eq. intros k.
    rewrite lookup_empty.
    destruct (decide (k = "raw_output")) as [->|Hk]; [exact Hraw | apply Hnone, Hk].
Qed.

(** Every parser of a known OS has the shape [data or raw prefix] with
    [data] free of the key "raw_output". *)
Lemma known_os_shape (parse : string -> string -> gmap string PyVal) output os_type :
  parse = parse_show_version \/ parse = parse_bgp_summary ->
  known_os os_type = true ->
  exists data, no_raw data /\ parse output os_type = py_or data (raw_prefix output).
Proof.
  intros Hparse Hknown. unfold known_os in Hknown.
  destruct Hparse as [-> | ->]; unfold parse_show_version, parse_bgp_summary;
    destruct (String.eqb os_type "cisco_ios");
    [ eexists; split; [apply cisco_version_data_no_raw | reflexivity] | | 
      eexists; split; [apply cisco_bgp_data_no_raw | reflexivity] | ];
    destruct (String.eqb os_type "arista_eos");
    [ eexists; split; [apply arista_version_data_no_raw | reflexivity] | | 
      eexists; split; [apply arista_bgp_data_no_raw | reflexivity] | ];
    destruct (String.eqb os_type "juniper_junos");
    [ eexists; split; [apply juniper_version_data_no_raw | reflexivity] | | 
      eexists; split; [apply juniper_bgp_data_no_raw | reflexivity] | ];
    destruct (String.eqb os_type "sonic_cli");
    [ eexists; split; [apply sonic_version_data_no_raw | reflexivity] | discriminate | 
      eexists; split; [apply sonic_bgp_data_no_raw | reflexivity] | discriminate ].
Qed.

Lemma unknown_os_passthrough output os_type :
  known_os os_type = false ->
  parse_show_version output os_type = {[ "raw_output" := VStr output ]}
  /\ parse_bgp_summary output os_type = {[ "raw_output" := VStr output ]}.
Proof.
  unfold known_os, parse_show_version, parse_bgp_summary. intros H.
  destruct (String.eqb os_type "cisco_ios"); [discriminate|].
  destruct (String.eqb os_type "arista_eos"); [discriminate|].
  destruct (String.eqb os_type "juniper_junos"); [discriminate|].
  destruct (String.eqb os_type "sonic_cli"); [discriminate|].
  split; reflexivity.
Qed.

End ParserFacts.

(** C2: the code does not bound the fallback for an OS tag outside the
    enumeration. On an input of 501 characters and the tag "nx-os", both
    [parse_show_version] and [parse_bgp_summary] return the single field
    "raw_output" holding all 501 characters, so no prefix of at most 500;
    on the same input the fallback of a known tag ("cisco_ios") holds the
    first 500 characters, and the fallback of [run_command] for the other
    aliases the first 200. *)
Theorem parse_unknown_os_not_truncated :
  String.length long_output = 501
  /\ OutputParser.known_os "nx-os" = false
  /\ no_structured_field (OutputParser.parse_show_version long_output "nx-os")
  /\ OutputParser.parse_show_version long_output "nx-os"
     = {[ "raw_output" := VStr long_output ]}
  /\ OutputParser.parse_bgp_summary long_output "nx-os"
     = {[ "raw_output" := VStr long_output ]}
  /\ ~ (exists v, OutputParser.parse_show_version long_output "nx-os"
                  = {[ "raw_output" := VStr v ]}
                  /\ String.length v <= 500)
  /\ ~ (exists v, OutputParser.parse_bgp_summary long_output "nx-os"
                  = {[ "raw_output" := VStr v ]}
                  /\ String.length v <= 500)
  /\ (exists v, OutputParser.parse_show_version long_output "cisco_ios"
                = {[ "raw_output" := VStr v ]}
                /\ String.length v = 500)
  /\ (exists v, OutputParser.parse_bgp_summary long_output "cisco_ios"
                = {[ "raw_output" := VStr v ]}
                /\ String.length v = 500)
  /\ (exists v, parse_for "interfaces" long_output "nx-os"
                = {[ "raw_output" := VStr v ]}
                /\ String.length v = 200).
Proof.
  assert (Hversion : OutputParser.parse_show_version long_output "nx-os"
                     = {[ "raw_output" := VStr long_output ]}) by reflexivity.
  assert (Hbgp : OutputParser.parse_bgp_summary long_output "nx-os"
                 = {[ "raw_output" := VStr long_output ]}) by reflexivity.
  assert (Hlen : String.length long_output = 501) by (vm_compute; reflexivity).
  assert (Hwhole : forall m : gmap string PyVal,
            m = {[ "raw_output" := VStr long_output ]} ->
            ~ (exists v, m = {[ "raw_output" := VStr v ]} /\ String.length v <= 500)).
  { intros m -> (v & Hv & Hle).
    apply (f_equal (fun m : gmap string PyVal => m !! "raw_output")) in Hv.
    rewrite !lookup_singleton_eq in Hv. injection Hv as <-. lia. }
  split; [exact Hlen|]. split; [reflexivity|]. split.
  { intros k Hk. rewrite Hversion. apply lookup_singleton_ne. congruence. }
  split; [exact Hversion|]. split; [exact Hbgp|].
  split; [apply Hwhole, Hversion|]. split; [apply Hwhole, Hbgp|].
  split; [|split].
  - exists (PyStr.take 500 long_output). split; vm_compute; reflexivity.
  - exists (PyStr.take 500 long_output). split; vm_compute; reflexivity.
  - exists (PyStr.take 200 long_output). split; vm_compute; reflexivity.
Qed.

(** What the two dispatchers do on every input: [parse_show_version] and
    [parse_bgp_summary] never return an empty mapping. For the four known OS
    tags, a result without structured fields (the empty input and any text
    matching no pattern included) is exactly the one field "raw_output"
    holding the first 500 characters of the input. For every other OS tag
    the result is exactly the one field "raw_output" holding the whole
    input, whatever its length. *)
Lemma dispatchers_fall_back_to_raw_output :
  falls_back_to_raw OutputParser.parse_show_version
  /\ falls_back_to_raw OutputParser.parse_bgp_summary.
Proof.
  assert (Hboth : forall parse,
            parse = OutputParser.parse_show_version
            \/ parse = OutputParser.parse_bgp_summary ->
            falls_back_to_raw parse).
  { intros parse Hparse output os_type.
    destruct (OutputParser.known_os os_type) eqn:Hknown.
    - destruct (ParserFacts.known_os_shape parse output os_type Hparse Hknown)
        as (data & Hraw & ->).
      destruct (ParserFacts.py_or_raw_prefix data output Hraw) as (Hne & Hfb & _).
      split; [exact Hne|]. split; [|discriminate].
      intros _ Hnone. split; [apply Hfb, Hnone|]. split.
      + rewrite PyStrFacts.take_length. lia.
      + apply PyStrFacts.take_startswith.
    - destruct (ParserFacts.unknown_os_passthrough output os_type Hknown) as [Hv Hb].
      assert (Heq : parse output os_type = {[ "raw_output" := VStr output ]})
        by (destruct Hparse as [-> | ->]; assumption).
      split; [|split; [discriminate | intros _; exact Heq]].
      rewrite Heq. intros H.
      apply (f_equal (fun m : gmap string PyVal => m !! "raw_output")) in H.
      rewrite lookup_singleton_eq, lookup_empty in H. discriminate. }
  split; apply Hboth; auto.
Qed.

Example dispatchers_fall_back_examples :
  OutputParser.known_os "cisco_ios" = true
  /\ no_structured_field (OutputParser.parse_show_version EmptyString "cisco_ios")
  /\ OutputParser.parse_show_version EmptyString "cisco_ios" = {[ "raw_output" := VStr EmptyString ]}
  /\ OutputParser.known_os "nx-os" = false
  /\ OutputParser.parse_bgp_summary "% Invalid input" "nx-os"
     = {[ "raw_output" := VStr "% Invalid input" ]}.
Proof.
  destruct dispatchers_fall_back_to_raw_output as [Hversion Hbgp].
  assert (Hnone : no_structured_field
                    (OutputParser.parse_show_version EmptyString "cisco_ios")).
  { intros k Hk.
    assert (Hrun : OutputParser.parse_show_version EmptyString "cisco_ios"
                   = {[ "raw_output" := VStr EmptyString ]}) by (vm_compute; reflexivity).
    rewrite Hrun. apply lookup_singleton_ne. congruence. }
  destruct (Hversion EmptyString "cisco_ios") as (_ & Hknown & _).
  destruct (Hbgp "% Invalid input" "nx-os") as (_ & _ & Hunknown).
  split; [reflexivity|]. split; [exact Hnone|].
  split; [exact (proj1 (Hknown eq_refl Hnone))|].
  split; [reflexivity | exact (Hunknown eq_refl)].
Defined.

(** ** Jumpbox failover *)

Module JumpboxFacts.
Import NREJumpbox.

Lemma try_password_hosts env h w :
  hosts_tried (try_password env h w).2 = hosts_tried w
  /\ jumpbox (try_password env h w).2 = jumpbox w.
Proof.
  unfold try_password, transport_connect.
  destruct (String.eqb (password (jumpbox w)) EmptyString); [split; reflexivity|].
  destruct (net_connect env _ _); split; reflexivity.
Qed.

(** One [_try_connect] records its host once, and replaces the client. *)
Lemma try_connect_hosts env h w :
  hosts_tried (_try_connect env h w).2 = hosts_tried w ++ [h]
  /\ config (jumpbox (_try_connect env h w).2) = config (jumpbox w).
Proof.
  unfold _try_connect.
  destruct (find_ssh_keys env _) as [[|k ks]|]; cbn [snd];
    [ | | split; reflexivity].
  - match goal with |- context [try_password env h ?w'] =>
      destruct (try_password_hosts env h w') as [-> ->] end.
    split; reflexivity.
  - unfold transport_connect.
    destruct (net_connect env _ _); cbn [snd]; try (split; reflexivity).
    match goal with |- context [try_password env h ?w'] =>
      destruct (try_password_hosts env h w') as [-> ->] end.
    split; reflexivity.
Qed.

(** A host that times out on every transport connection is a failed host. *)
Lemma try_connect_timeout env h w :
  (forall log auth, net_connect env log (mkConnAttempt h auth) = SocketTimeout) ->
  (_try_connect env h w).1 = false.
Proof.
  intros Htimeout. unfold _try_connect, try_password, transport_connect.
  destruct (find_ssh_keys env _) as [[|k ks]|]; cbn [fst];
    [ | rewrite Htimeout; reflexivity | reflexivity].
  cbn [jumpbox set_client password].
  destruct (String.eqb (password (jumpbox w)) EmptyString); [reflexivity|].
  rewrite Htimeout. reflexivity.
Qed.

(** Without keys, a host that takes the password is a connected host. *)
Lemma try_connect_password_ok env h w :
  password (jumpbox w) <> EmptyString ->
  find_ssh_keys env (net_log w) = Some [] ->
  (forall log auth, net_connect env log (mkConnAttempt h auth) = ConnOk) ->
  (_try_connect env h w).1 = true.
Proof.
  intros Hpw Hkeys Hok. unfold _try_connect. cbn [net_log]. rewrite Hkeys.
  unfold try_password, transport_connect. cbn [jumpbox set_client password].
  apply String.eqb_neq in Hpw. rewrite Hpw, Hok. reflexivity.
Qed.

End JumpboxFacts.

(** C8: [connect] tries the primary host first and the fallback host
    second. If the attempt on the primary host fails (for any reason, a
    timeout included) and the attempt on the fallback host succeeds,
    [connect] returns success with [current_host] the fallback host and
    [connected] set, after exactly these two host attempts. If the attempt
    on the primary host succeeds, it is the only host attempt, and the
    session is attributed to the primary host. Host names are the configured
    ones in lower case, as [_format_hostname] gives them. *)
Theorem connect_fails_over_to_fallback (env : NREJumpbox.Env) (w : NREJumpbox.World) :
  let primary := NREJumpbox._format_hostname (primary_host (NREJumpbox.config (NREJumpbox.jumpbox w))) in
  let fallback := NREJumpbox._format_hostname (fallback_host (NREJumpbox.config (NREJumpbox.jumpbox w))) in
  let first := NREJumpbox._try_connect env primary w in
  let second := NREJumpbox._try_connect env fallback first.2 in
  let out := NREJumpbox.connect env w in
  (first.1 = false -> second.1 = true ->
     out.1 = true
     /\ NREJumpbox.current_host (NREJumpbox.jumpbox out.2) = Some fallback
     /\ NREJumpbox.connected (NREJumpbox.jumpbox out.2) = true
     /\ NREJumpbox.hosts_tried out.2 = NREJumpbox.hosts_tried w ++ [primary; fallback]
     /\ NREJumpbox.net_log out.2 = NREJumpbox.net_log second.2)
  /\ (first.1 = true ->
     out.1 = true
     /\ NREJumpbox.current_host (NREJumpbox.jumpbox out.2) = Some primary
     /\ NREJumpbox.connected (NREJumpbox.jumpbox out.2) = true
     /\ NREJumpbox.hosts_tried out.2 = NREJumpbox.hosts_tried w ++ [primary]
     /\ NREJumpbox.net_log out.2 = NREJumpbox.net_log first.2).
Proof.
  intros primary fallback first second out.
  pose proof (JumpboxFacts.try_connect_hosts env primary w) as [Hh1 _].
  pose proof (JumpboxFacts.try_connect_hosts env fallback first.2) as [Hh2 _].
  fold first in Hh1. fold second in Hh2.
  assert (Hout : out = NREJumpbox.connect_loop env [primary; fallback] w) by reflexivity.
  cbn [NREJumpbox.connect_loop] in Hout. fold first in Hout.
  destruct first as [ok1 w1] eqn:E1. cbn [fst snd] in *.
  split.
  - intros -> Hsecond. fold second in Hout.
    destruct second as [ok2 w2] eqn:E2. cbn [fst snd] in *. subst ok2.
    rewrite Hout. cbn [fst snd NREJumpbox.jumpbox NREJumpbox.hosts_tried NREJumpbox.net_log
                       NREJumpbox.mark_connected NREJumpbox.current_host NREJumpbox.connected].
    rewrite Hh2, Hh1, <- app_assoc. repeat split.
  - intros ->. rewrite Hout.
    cbn [fst snd NREJumpbox.jumpbox NREJumpbox.hosts_tried NREJumpbox.net_log
         NREJumpbox.mark_connected NREJumpbox.current_host NREJumpbox.connected].
    rewrite Hh1. repeat split.
Qed.

Lemma connect_fails_over_to_fallback_witness :
  let w := NREJumpbox.fresh (NREJumpbox.init "vn59iz6" "secret" None) in
  (NREJumpbox._try_connect primary_times_out "oser500521" w).1 = false
  /\ (NREJumpbox.connect primary_times_out w).1 = true
  /\ NREJumpbox.current_host (NREJumpbox.jumpbox (NREJumpbox.connect primary_times_out w).2)
     = Some "oser500522"
  /\ NREJumpbox.hosts_tried (NREJumpbox.connect primary_times_out w).2
     = ["oser500521"; "oser500522"].
Proof.
  intros w.
  destruct (connect_fails_over_to_fallback primary_times_out w) as [Hfallback _].
  assert (H1 : (NREJumpbox._try_connect primary_times_out "oser500521" w).1 = false)
    by (apply JumpboxFacts.try_connect_timeout; intros; reflexivity).
  destruct (Hfallback H1) as (Hok & Hhost & _ & Hhosts & _).
  - vm_compute. reflexivity.
  - split; [exact H1|]. split; [exact Hok|]. split; [exact Hhost | exact Hhosts].
Defined.

(** ** Disconnecting *)

Module DisconnectFacts.

(** [BastionManager.disconnect] always clears the flag, and a second call
    changes nothing. *)
Lemma manager_disconnect_clears m :
  BastionManager.connected (BastionManager.disconnect m) = false.
Proof. reflexivity. Qed.

Lemma manager_disconnect_idempotent m :
  BastionManager.disconnect (BastionManager.disconnect m) = BastionManager.disconnect m.
Proof. reflexivity. Qed.

(** [SSHConnection.disconnect]: a second call changes nothing. *)
Lemma connection_disconnect_idempotent c :
  SSHConnection.disconnect (SSHConnection.disconnect c) = SSHConnection.disconnect c.
Proof.
  unfold SSHConnection.disconnect.
  destruct (SSHConnection.ssh_client c) as [client|] eqn:Hc; cbn.
  - reflexivity.
  - rewrite Hc. reflexivity.
Qed.

(** On a connection that never connected it leaves [connected] false. *)
Lemma connection_disconnect_never_connected username password bid :
  SSHConnection.connected
    (SSHConnection.disconnect (SSHConnection.init username password bid)) = false.
Proof. reflexivity. Qed.

(** With a client in hand the flag is cleared and the client closed. *)
Lemma connection_disconnect_with_client c client :
  SSHConnection.ssh_client c = Some client ->
  SSHConnection.connected (SSHConnection.disconnect c) = false
  /\ SSHConnection.ssh_client (SSHConnection.disconnect c) = Some (client_close client).
Proof. intros H. unfold SSHConnection.disconnect. rewrite H. split; reflexivity. Qed.

(** Without a client it does nothing at all. *)
Lemma connection_disconnect_without_client c :
  SSHConnection.ssh_client c = None -> SSHConnection.disconnect c = c.
Proof. intros H. unfold SSHConnection.disconnect. rewrite H. reflexivity. Qed.

(** The default bastion is of the SSH type. *)
Lemma default_bastion_is_ssh :
  bastion_type <$> BastionManager._load_bastion_config DEFAULT_BASTION
  = Some BASTION_TYPE_SSH.
Proof. reflexivity. Qed.

End DisconnectFacts.

(** C9 fails on [SSHConnection]: a connection opened through the default
    bastion is connected by its bastion manager, without a client of its
    own; [disconnect] then does nothing, and [connected] stays true. *)
Theorem disconnect_keeps_connected_without_client (env : SSHConnection.Env) :
  let c0 := SSHConnection.init "vn59iz6" "secret" DEFAULT_BASTION in
  let c1 := (SSHConnection.connect_to_jumphost env c0).2 in
  (SSHConnection.connect_to_jumphost env c0).1 = true
  /\ SSHConnection.connected c1 = true
  /\ SSHConnection.ssh_client c1 = None
  /\ SSHConnection.disconnect c1 = c1
  /\ SSHConnection.connected (SSHConnection.disconnect c1) = true
  /\ (BastionManager.connected <$> SSHConnection.bastion_manager (SSHConnection.disconnect c1))
     = Some true.
Proof. repeat split; reflexivity. Qed.

(** The runner over both kinds of connection. *)
Example runner_over_direct_connection :
  let out := run_command "version"
               (new_session "10.0.0.1" "IOS" direct_connection (Some three_candidates)) in
  out.1 = (true, <[ "IOS_Version" := VStr "15.2" ]> {[ "Model" := VStr "IOS" ]})
  /\ current_username (runner out.2) = Some "neteng"
  /\ failed_usernames (runner out.2) = ["admin"; "netadmin"]
  /\ SSHConnection.connected (SSHConnection.disconnect direct_connection) = false.
Proof. vm_compute. repeat split; reflexivity. Qed.

Example runner_over_default_bastion :
  let out := run_command "version"
               (new_session "10.0.0.1" "IOS" default_bastion_connection
                  (Some three_candidates)) in
  out.1.1 = false
  /\ failed_usernames (runner out.2) = three_candidates
  /\ execute_command_on_device default_bastion_connection "10.0.0.1" "neteng" "show version"
     = ((false, "[!] Command error: 'NoneType' object has no attribute 'exec_command'"),
        default_bastion_connection).
Proof. vm_compute. repeat split; reflexivity. Qed.

(** * Further properties of the code *)

(** ** Normalization of the OS tag *)

Module NormalizeFacts.
Import PyStr.

Lemma upper_lower_c c : upper_c (lower_c c) = upper_c c.
Proof. PyStrFacts.by_cases_on_char c. Qed.

Lemma upper_upper_c c : upper_c (upper_c c) = upper_c c.
Proof. PyStrFacts.by_cases_on_char c. Qed.

Lemma space_upper_c c : is_space_c (upper_c c) = is_space_c c.
Proof. PyStrFacts.by_cases_on_char c. Qed.

Lemma upper_lower s : upper (lower s) = upper s.
Proof.
  unfold upper, lower. induction s as [|c s IH]; cbn [map_s]; [reflexivity|].
  rewrite upper_lower_c, IH. reflexivity.
Qed.

Lemma upper_upper s : upper (upper s) = upper s.
Proof.
  unfold upper. induction s as [|c s IH]; cbn [map_s]; [reflexivity|].
  rewrite upper_upper_c, IH. reflexivity.
Qed.

(** Stripping commutes with a character map that keeps white space white
    space and the rest the rest. *)
Lemma lstrip_map f s :
  (forall c, is_space_c (f c) = is_space_c c) ->
  lstrip (map_s f s) = map_s f (lstrip s).
Proof.
  intros Hf. induction s as [|c s IH]; cbn [map_s lstrip]; [reflexivity|].
  rewrite Hf. destruct (is_space_c c); [exact IH | reflexivity].
Qed.

Lemma rstrip_map f s :
  (forall c, is_space_c (f c) = is_space_c c) ->
  rstrip (map_s f s) = map_s f (rstrip s).
Proof.
  intros Hf. induction s as [|c s IH]; cbn [map_s rstrip]; [reflexivity|].
  rewrite IH, Hf. destruct (rstrip s); cbn [map_s]; [|reflexivity].
  destruct (is_space_c c); reflexivity.
Qed.

Lemma strip_upper s : strip (upper s) = upper (strip s).
Proof.
  unfold strip, upper.
  rewrite (lstrip_map _ _ space_upper_c), (rstrip_map _ _ space_upper_c). reflexivity.
Qed.

Lemma lstrip_no_leading_space s : no_leading_space (lstrip s).
Proof.
  induction s as [|c s IH]; cbn [lstrip]; [exact I|].
  destruct (is_space_c c) eqn:Hc; [exact IH | exact Hc].
Qed.

Lemma lstrip_fixed s : no_leading_space s -> lstrip s = s.
Proof. destruct s as [|c s]; cbn; [reflexivity|]. intros ->. reflexivity. Qed.

Lemma rstrip_no_leading_space s : no_leading_space s -> no_leading_space (rstrip s).
Proof.
  destruct s as [|c s]; cbn [rstrip no_leading_space]; [exact id|].
  intros Hc. destruct (rstrip s); [rewrite Hc|]; exact Hc.
Qed.

Lemma rstrip_idem s : rstrip (rstrip s) = rstrip s.
Proof.
  induction s as [|c s IH]; cbn [rstrip]; [reflexivity|].
  destruct (rstrip s) as [|d r] eqn:Hr.
  - destruct (is_space_c c) eqn:Hc; cbn [rstrip]; [reflexivity|].
    rewrite Hc. reflexivity.
  - cbn [rstrip]. cbn [rstrip] in IH. rewrite IH. reflexivity.
Qed.

(** [strip] is idempotent. *)
Lemma strip_idem s : strip (strip s) = strip s.
Proof.
  unfold strip.
  rewrite (lstrip_fixed (rstrip (lstrip s))).
  - apply rstrip_idem.
  - apply rstrip_no_leading_space, lstrip_no_leading_space.
Qed.

(** The normalized tag depends on the stripped, upper-cased input only. *)
Lemma normalize_by_key a b :
  strip (upper a) = strip (upper b) -> _normalize_os_type a = _normalize_os_type b.
Proof. intros H. unfold _normalize_os_type. rewrite H. reflexivity. Qed.

Lemma key_of_upper s : strip (upper (upper s)) = strip (upper s).
Proof. rewrite upper_upper. reflexivity. Qed.

Lemma key_of_lower s : strip (upper (lower s)) = strip (upper s).
Proof. rewrite upper_lower. reflexivity. Qed.

Lemma key_of_strip s : strip (upper (strip s)) = strip (upper s).
Proof. rewrite <- strip_upper. apply strip_idem. Qed.

(** The key of the lower-cased key is the key again. *)
Lemma key_of_lowered_key s :
  strip (upper (lower (strip (upper s)))) = strip (upper s).
Proof. rewrite key_of_lower, key_of_strip, key_of_upper. reflexivity. Qed.

End NormalizeFacts.

(** X1: for every ASCII input string the normalized tag is ASCII again,
    and normalizing an already normalized tag changes nothing. *)
Theorem normalize_os_type_idempotent (os_type : string) :
  PyStr.is_ascii os_type = true ->
  PyStr.is_ascii (_normalize_os_type os_type) = true
  /\ _normalize_os_type (_normalize_os_type os_type) = _normalize_os_type os_type.
Proof.
  intros Hascii. split; [apply AsciiFacts.normalize_ascii, Hascii|].
  unfold _normalize_os_type at 2 3.
  set (os_upper := PyStr.strip (PyStr.upper os_type)).
  destruct (assoc_get os_upper OS_TYPES) as [v|] eqn:Hexact.
  { apply assoc_get_value in Hexact. cbn in Hexact.
    repeat (apply elem_of_cons in Hexact as [-> | Hexact]; [reflexivity|]).
    apply elem_of_nil in Hexact. contradiction. }
  destruct (first_substring_match os_upper OS_TYPES) as [v|] eqn:Hsub.
  { apply first_substring_match_value in Hsub. cbn in Hsub.
    repeat (apply elem_of_cons in Hsub as [-> | Hsub]; [reflexivity|]).
    apply elem_of_nil in Hsub. contradiction. }
  unfold _normalize_os_type. subst os_upper.
  rewrite NormalizeFacts.key_of_lowered_key, Hexact, Hsub. reflexivity.
Qed.

Lemma normalize_os_type_idempotent_witness :
  PyStr.is_ascii "Arista vEOS-lab" = true
  /\ _normalize_os_type "Arista vEOS-lab" = "arista_eos"
  /\ _normalize_os_type (_normalize_os_type "Arista vEOS-lab") = "arista_eos"
  /\ _normalize_os_type (_normalize_os_type " Cisco NX-OS ") = "cisco nx-os".
Proof.
  split; [reflexivity|]. split; [reflexivity|]. split.
  - rewrite (proj2 (normalize_os_type_idempotent "Arista vEOS-lab" eq_refl)). reflexivity.
  - rewrite (proj2 (normalize_os_type_idempotent " Cisco NX-OS " eq_refl)). reflexivity.
Defined.

(** X2: for every ASCII input string, the normalized tag does not depend on
    the letter case of the input nor on white space around it. *)
Theorem normalize_os_type_ignores_case_and_padding (os_type : string) :
  PyStr.is_ascii os_type = true ->
  _normalize_os_type (PyStr.upper os_type) = _normalize_os_type os_type
  /\ _normalize_os_type (PyStr.lower os_type) = _normalize_os_type os_type
  /\ _normalize_os_type (PyStr.strip os_type) = _normalize_os_type os_type
  /\ _normalize_os_type (" " +:+ os_type +:+ " ") = _normalize_os_type os_type.
Proof.
  intros _.
  split; [apply NormalizeFacts.normalize_by_key, NormalizeFacts.key_of_upper|].
  split; [apply NormalizeFacts.normalize_by_key, NormalizeFacts.key_of_lower|].
  split; [apply NormalizeFacts.normalize_by_key, NormalizeFacts.key_of_strip|].
  apply NormalizeFacts.normalize_by_key.
  rewrite <- (NormalizeFacts.key_of_strip (" " +:+ os_type +:+ " ")).
  rewrite <- (NormalizeFacts.key_of_strip os_type).
  f_equal. f_equal. unfold PyStr.strip.
  change (" " +:+ os_type +:+ " ") with (String " "%char (os_type +:+ " ")).
  cbn [PyStr.lstrip]. change (PyStr.is_space_c " ") with true. cbn iota.
  (* white space appended on the right is stripped with the rest *)
  assert (Hr : forall s, PyStr.rstrip (s +:+ " ") = PyStr.rstrip s).
  { induction s as [|c s IH]; [reflexivity|].
    change (String c s +:+ " ") with (String c (s +:+ " ")).
    cbn [PyStr.rstrip]. rewrite IH. reflexivity. }
  assert (Hl : forall s, PyStr.lstrip (s +:+ " ") = PyStr.lstrip s +:+ " "
                         \/ PyStr.lstrip s = EmptyString /\ PyStr.lstrip (s +:+ " ") = EmptyString).
  { induction s as [|c s IH]; [right; split; reflexivity|].
    change (String c s +:+ " ") with (String c (s +:+ " ")).
    cbn [PyStr.lstrip]. destruct (PyStr.is_space_c c); [exact IH|].
    left. reflexivity. }
  destruct (Hl os_type) as [-> | [-> ->]]; [apply Hr | reflexivity].
Qed.

Lemma normalize_os_type_ignores_case_and_padding_witness :
  PyStr.is_ascii "Junos" = true
  /\ _normalize_os_type "Junos" = "juniper_junos"
  /\ _normalize_os_type "JUNOS" = "juniper_junos"
  /\ _normalize_os_type "junos" = "juniper_junos"
  /\ _normalize_os_type " Junos " = "juniper_junos".
Proof.
  destruct (normalize_os_type_ignores_case_and_padding "Junos" eq_refl)
    as (Hupper & Hlower & _ & Hpadded).
  split; [reflexivity|]. split; [reflexivity|].
  split; [exact Hupper|]. split; [exact Hlower | exact Hpadded].
Defined.

(** X3: the substring rule gives the first table entry priority: a tag that,
    stripped and upper-cased, contains "IOS" or is a fragment of "IOS" (the
    empty tag included) is normalized to "cisco_ios", whatever other key it
    also contains. *)
Theorem normalize_os_type_ios_first (os_type : string) :
  PyStr.contains "IOS" (PyStr.strip (PyStr.upper os_type))
  || PyStr.contains (PyStr.strip (PyStr.upper os_type)) "IOS" = true ->
  _normalize_os_type os_type = "cisco_ios".
Proof.
  unfold _normalize_os_type.
  set (os_upper := PyStr.strip (PyStr.upper os_type)). intros Hios.
  destruct (assoc_get os_upper OS_TYPES) as [v|] eqn:Hexact.
  - cbn [assoc_get OS_TYPES] in Hexact.
    destruct (String.eqb os_upper "IOS") eqn:E1; [congruence|].
    destruct (String.eqb os_upper "EOS") eqn:E2;
      [apply String.eqb_eq in E2; rewrite E2 in Hios; discriminate Hios|].
    destruct (String.eqb os_upper "JUNOS") eqn:E3;
      [apply String.eqb_eq in E3; rewrite E3 in Hios; discriminate Hios|].
    destruct (String.eqb os_upper "SONIC") eqn:E4;
      [apply String.eqb_eq in E4; rewrite E4 in Hios; discriminate Hios|].
    discriminate Hexact.
  - cbn [first_substring_match OS_TYPES]. rewrite Hios. reflexivity.
Qed.

Lemma normalize_os_type_ios_first_witness :
  PyStr.contains "IOS" (PyStr.strip (PyStr.upper "Arista EOS, not ios"))
  || PyStr.contains (PyStr.strip (PyStr.upper "Arista EOS, not ios")) "IOS" = true
  /\ _normalize_os_type "Arista EOS, not ios" = "cisco_ios".
Proof.
  split; [reflexivity|].
  apply normalize_os_type_ios_first. reflexivity.
Defined.

(** ** The candidate list *)

(** X4: a username is in the built list exactly when it is a device-specific
    name of the tag, a default name, or, for a tag containing "cisco", a
    Cisco name: nothing is lost and nothing else is added. *)
Theorem build_username_list_members (os u : string) :
  u ∈ _build_username_list os <->
  u ∈ default [] (assoc_get os DEVICE_SPECIFIC_USERNAMES)
  \/ u ∈ DEFAULT_USERNAMES
  \/ (PyStr.contains "cisco" (PyStr.lower os) = true /\ u ∈ CISCO_IOS_USERNAMES).
Proof.
  unfold _build_username_list.
  set (ds := default [] (assoc_get os DEVICE_SPECIFIC_USERNAMES)).
  destruct (PyStr.contains "cisco" (PyStr.lower os)).
  - rewrite elem_of_app. unfold not_in. rewrite list_elem_of_filter.
    rewrite !dict_fromkeys_elem, !elem_of_app. split.
    + intros [[?|?] | [_ ?]]; auto.
    + intros [? | [? | [_ Hc]]]; auto.
      destruct (decide (u ∈ ds)) as [?|?]; [auto|].
      destruct (decide (u ∈ DEFAULT_USERNAMES)) as [?|?]; [auto|].
      right. split; [tauto | exact Hc].
  - rewrite dict_fromkeys_elem, elem_of_app. split.
    + intros [?|?]; auto.
    + intros [? | [? | [Hf _]]]; auto. discriminate Hf.
Qed.

(** X5: a constructed runner always has a candidate to try, whatever the OS
    string and the explicit list (an empty explicit list falls back to the
    built list, which holds every default username). *)
Theorem runner_always_has_candidates (ip os_type : string) (explicit : option (list string)) :
  usernames (Runner_init ip os_type explicit) <> []
  /\ (explicit = None \/ explicit = Some [] ->
      forall u, u ∈ DEFAULT_USERNAMES -> u ∈ usernames (Runner_init ip os_type explicit)).
Proof.
  assert (Hbuilt : forall os u, u ∈ DEFAULT_USERNAMES -> u ∈ _build_username_list os).
  { intros os u Hu. unfold _build_username_list.
    assert (Hin : u ∈ dict_fromkeys
                        (default [] (assoc_get os DEVICE_SPECIFIC_USERNAMES)
                         ++ DEFAULT_USERNAMES)).
    { apply dict_fromkeys_elem, elem_of_app. right. exact Hu. }
    destruct (PyStr.contains "cisco" (PyStr.lower os)); [|exact Hin].
    apply elem_of_app. left. exact Hin. }
  assert (Hne : forall os, _build_username_list os <> []).
  { intros os Hnil. specialize (Hbuilt os "neteng").
    rewrite Hnil in Hbuilt. eapply not_elem_of_nil, Hbuilt.
    apply (bool_decide_unpack _). vm_compute. exact I. }
  split.
  - destruct explicit as [[|u us]|]; cbn; try apply Hne. discriminate.
  - intros [-> | ->] u Hu; cbn; apply Hbuilt, Hu.
Qed.

Lemma runner_always_has_candidates_witness :
  "bootstrap" ∈ usernames (Runner_init "10.0.0.1" "JUNOS" (Some [])).
Proof.
  apply (proj2 (runner_always_has_candidates "10.0.0.1" "JUNOS" (Some []))).
  - right. reflexivity.
  - apply (bool_decide_unpack _). vm_compute. exact I.
Defined.

(** ** What a command run leaves behind *)

Section RunOutcomes.
Context {C : Type} `{!Connector C}.

(** The two ways the rotation loop ends. *)
Lemma try_usernames_outcome alias actual us (st : Session C) :
  (exists pre u post output conn',
      us = pre ++ u :: post
      /\ try_usernames alias actual us st
         = ((true, parse_for alias output (device_os (runner st))),
            mkSession (accept (rejected (runner st) pre) u) conn'
                      (calls st ++ map (attempt_on st actual) (pre ++ [u]))))
  \/ (exists conn',
        try_usernames alias actual us st
        = ((false, {[ "error" := VStr (_build_auth_failure_message (rejected (runner st) us)) ]}),
           mkSession (rejected (runner st) us) conn'
                     (calls st ++ map (attempt_on st actual) us))).
Proof.
  revert st. induction us as [|u us IH]; intros st.
  - right. exists (ssh_connection st). cbn [try_usernames map].
    rewrite rejected_nil, app_nil_r. destruct st; reflexivity.
  - destruct (execute_command_on_device (ssh_connection st) (device_ip (runner st)) u actual)
      as [[success output] conn'] eqn:Hexec.
    destruct (accepted success output) eqn:Hacc.
    + left. exists [], u, us, output, conn'. split; [reflexivity|].
      rewrite (try_usernames_accept _ _ _ _ _ _ _ _ Hexec Hacc).
      cbn [app map]. rewrite rejected_nil. reflexivity.
    + rewrite (try_usernames_reject _ _ _ _ _ _ _ _ Hexec Hacc).
      set (st1 := mkSession (rejected (runner st) [u]) conn'
                            (calls st ++ [attempt_on st actual u])).
      destruct (IH st1) as [(pre & v & post & out & c2 & Hus & Heq) | (c2 & Heq)].
      * left. exists (u :: pre), v, post, out, c2. split; [rewrite Hus; reflexivity|].
        rewrite Heq. cbn [runner calls st1].
        rewrite rejected_reject, <- app_assoc. reflexivity.
      * right. exists c2. rewrite Heq. cbn [runner calls st1].
        rewrite rejected_reject, <- app_assoc. reflexivity.
Qed.

End RunOutcomes.

(** X6: when [run_command] succeeds the accepted username is the first
    candidate whose answer passed the acceptance test: its call returned
    success with a non-empty output free of "permission denied"; the
    candidates before it, and only they, were each called once, in order,
    each answer failing the test (no success, an empty output, or
    "permission denied" in it), and were appended to [failed_usernames];
    the accepted one is cached with [authenticated] set, and no later
    candidate was called. *)
Theorem run_command_first_accepted_wins {C : Type} `{!Connector C}
    (st : Session C) (command_alias : string) :
  (run_command command_alias st).1.1 = true ->
  exists actual pre u post c1 output c2,
    get_available_commands (runner st) !! command_alias = Some actual
    /\ usernames (runner st) = pre ++ u :: post
    /\ rejected_in_turn (device_ip (runner st)) actual (ssh_connection st) pre c1
    /\ execute_command_on_device c1 (device_ip (runner st)) u actual = ((true, output), c2)
    /\ output <> EmptyString
    /\ PyStr.contains "permission denied" (PyStr.lower output) = false
    /\ (run_command command_alias st).1.2
       = parse_for command_alias output (device_os (runner st))
    /\ ssh_connection (run_command command_alias st).2 = c2
    /\ current_username (runner (run_command command_alias st).2) = Some u
    /\ authenticated (runner (run_command command_alias st).2) = true
    /\ failed_usernames (runner (run_command command_alias st).2)
       = failed_usernames (runner st) ++ pre
    /\ map a_username (calls (run_command command_alias st).2)
       = map a_username (calls st) ++ pre ++ [u].
Proof.
  destruct (get_available_commands (runner st) !! command_alias) as [actual|] eqn:Halias;
    [|unfold run_command; rewrite Halias; discriminate].
  destruct (run_command_walk command_alias actual st Halias)
    as [(pre & u & post & c1 & output & c2 & Hus & Hrej & Hu & Hne & Hpd & Heq)
       | (c1 & Hrej & Heq)]; rewrite Heq; [|discriminate].
  intros _. exists actual, pre, u, post, c1, output, c2.
  split; [reflexivity|]. split; [exact Hus|]. split; [exact Hrej|]. split; [exact Hu|].
  split; [exact Hne|]. split; [exact Hpd|].
  cbn [fst snd runner calls ssh_connection accept rejected current_username authenticated
       failed_usernames].
  split; [reflexivity|]. split; [reflexivity|]. split; [reflexivity|].
  split; [reflexivity|]. split; [reflexivity|].
  rewrite map_app, attempt_usernames. reflexivity.
Qed.

Lemma run_command_first_accepted_wins_witness :
  let st := new_session "10.0.0.1" "EOS" only_neteng None in
  (run_command "version" st).1.1 = true
  /\ current_username (runner (run_command "version" st).2) = Some "neteng"
  /\ failed_usernames (runner (run_command "version" st).2)
     = ["admin"; "automation"; "netadmin"; "operator"]
  /\ execute_command_on_device only_neteng "10.0.0.1" "neteng" "show version"
     = ((true, "Cisco IOS Software, Version 15.2(4)E"), only_neteng)
  /\ execute_command_on_device only_neteng "10.0.0.1" "operator" "show version"
     = ((false, "Permission denied, please try again."), only_neteng).
Proof.
  intros st.
  assert (Hok : (run_command "version" st).1.1 = true) by (vm_compute; reflexivity).
  destruct (run_command_first_accepted_wins st "version" Hok)
    as (actual & pre & u & post & c1 & output & c2 & _).
  split; [exact Hok|]. repeat split; vm_compute; reflexivity.
Defined.

(** X7: when [run_command] fails on an alias the OS supports, every
    candidate was called exactly once, in list order, and all of them were
    appended to [failed_usernames]; the cached username and the
    [authenticated] flag are left as they were. *)
Theorem run_command_failure_tried_everyone {C : Type} `{!Connector C}
    (st : Session C) (command_alias : string) :
  is_Some (get_available_commands (runner st) !! command_alias) ->
  (run_command command_alias st).1.1 = false ->
  failed_usernames (runner (run_command command_alias st).2)
  = failed_usernames (runner st) ++ usernames (runner st)
  /\ map a_username (calls (run_command command_alias st).2)
     = map a_username (calls st) ++ usernames (runner st)
  /\ current_username (runner (run_command command_alias st).2)
     = current_username (runner st)
  /\ authenticated (runner (run_command command_alias st).2) = authenticated (runner st).
Proof.
  unfold run_command. intros [actual ->].
  destruct (try_usernames_outcome command_alias actual (usernames (runner st)) st)
    as [(pre & u & post & out & c2 & Hus & Heq) | (c2 & Heq)]; rewrite Heq; [discriminate|].
  intros _.
  cbn [fst snd runner calls rejected current_username authenticated failed_usernames].
  repeat split. rewrite map_app, map_map. cbn [attempt_on a_username].
  rewrite map_id. reflexivity.
Qed.

Lemma run_command_failure_tried_everyone_witness :
  let st := new_session "10.0.0.1" "SONIC" always_denied None in
  is_Some (get_available_commands (runner st) !! "routes")
  /\ (run_command "routes" st).1.1 = false
  /\ length (failed_usernames (runner (run_command "routes" st).2)) = 13.
Proof.
  intros st.
  assert (Hsome : is_Some (get_available_commands (runner st) !! "routes"))
    by (exists "show ip route"; vm_compute; reflexivity).
  assert (Hfail : (run_command "routes" st).1.1 = false) by (vm_compute; reflexivity).
  destruct (run_command_failure_tried_everyone st "routes" Hsome Hfail) as (Hf & _).
  split; [exact Hsome|]. split; [exact Hfail|]. rewrite Hf. vm_compute. reflexivity.
Defined.

(** X8: no command run changes the device address, the OS tag or the
    candidate list of the runner, and [failed_usernames] only grows: what
    was recorded before stays, in place, at the front. *)
Theorem runs_keep_identity_and_history {C : Type} `{!Connector C}
    (st : Session C) (command_alias command : string) :
  let after_alias := runner (run_command command_alias st).2 in
  let after_custom := runner (run_custom_command command st).2 in
  (device_ip after_alias = device_ip (runner st)
   /\ device_os after_alias = device_os (runner st)
   /\ usernames after_alias = usernames (runner st)
   /\ exists more, failed_usernames after_alias = failed_usernames (runner st) ++ more)
  /\ (device_ip after_custom = device_ip (runner st)
      /\ device_os after_custom = device_os (runner st)
      /\ usernames after_custom = usernames (runner st)
      /\ exists more, failed_usernames after_custom = failed_usernames (runner st) ++ more).
Proof.
  assert (Halias : forall a (s : Session C),
            device_ip (runner (run_command a s).2) = device_ip (runner s)
            /\ device_os (runner (run_command a s).2) = device_os (runner s)
            /\ usernames (runner (run_command a s).2) = usernames (runner s)
            /\ exists more, failed_usernames (runner (run_command a s).2)
                            = failed_usernames (runner s) ++ more).
  { intros a s. unfold run_command.
    destruct (get_available_commands (runner s) !! a) as [actual|].
    - destruct (try_usernames_outcome a actual (usernames (runner s)) s)
        as [(pre & u & post & out & c2 & Hus & Heq) | (c2 & Heq)]; rewrite Heq;
        cbn [fst snd runner accept rejected device_ip device_os usernames failed_usernames];
        repeat split; eauto.
    - cbn [snd]. repeat split. exists []. rewrite app_nil_r. reflexivity. }
  intros after_alias after_custom. split; [apply Halias|].
  subst after_custom. unfold run_custom_command.
  assert (Hexec : forall (s : Session C) u, runner (execute s u command).2 = runner s).
  { intros s u. unfold execute.
    destruct (execute_command_on_device _ _ _ _) as [res conn']. reflexivity. }
  destruct (negb (authenticated (runner st)) && negb (username_set (current_username (runner st)))).
  - specialize (Halias "version" st).
    destruct (run_command "version" st) as [[success parsed] st1]. cbn [snd] in Halias.
    destruct success; cbn [negb snd]; [rewrite Hexec|]; exact Halias.
  - rewrite Hexec. repeat split. exists []. rewrite app_nil_r. reflexivity.
Qed.

(** ** The fields the parsers produce *)

Module FieldFacts.
Import OutputParser.

Lemma within_empty ks : keys_within ks ∅.
Proof. intros k [v Hv]. rewrite lookup_empty in Hv. discriminate. Qed.

Lemma within_insert ks k v m :
  k ∈ ks -> keys_within ks m -> keys_within ks (<[k := v]> m).
Proof.
  intros Hk Hm k' Hsome. destruct (decide (k = k')) as [<-|Hne]; [exact Hk|].
  rewrite lookup_insert_ne in Hsome by exact Hne. apply Hm, Hsome.
Qed.

Lemma within_set_if_match ks k o f m :
  k ∈ ks -> keys_within ks m -> keys_within ks (set_if_match k o f m).
Proof. intros Hk Hm. destruct o; cbn; [apply within_insert|]; assumption. Qed.

Lemma within_set_neighbors ks n m :
  "BGP_Neighbors" ∈ ks -> keys_within ks m -> keys_within ks (set_neighbors n m).
Proof.
  intros Hk Hm. unfold set_neighbors. destruct (Nat.ltb 0 n); [|assumption].
  apply within_insert; assumption.
Qed.

Lemma within_fold ks (f : gmap string PyVal -> string -> gmap string PyVal) lines m :
  (forall d line, keys_within ks d -> keys_within ks (f d line)) ->
  keys_within ks m -> keys_within ks (fold_left f lines m).
Proof.
  intros Hf. revert m. induction lines as [|l lines IH]; intros m Hm; cbn.
  - exact Hm.
  - apply IH, Hf, Hm.
Qed.

Lemma within_weaken ks ks' m :
  (forall k, k ∈ ks -> k ∈ ks') -> keys_within ks m -> keys_within ks' m.
Proof. intros Hsub Hm k Hk. apply Hsub, Hm, Hk. Qed.

Lemma within_py_or ks data output :
  keys_within ks data ->
  keys_within ("raw_output" :: ks) (py_or data (raw_prefix output)).
Proof.
  intros Hd. unfold py_or. destruct (decide (data = ∅)).
  - intros k [v Hv]. unfold raw_prefix in Hv.
    apply lookup_singleton_Some in Hv as [<- _]. apply list_elem_of_here.
  - intros k Hk. apply list_elem_of_further, Hd, Hk.
Qed.

Ltac member := apply (bool_decide_unpack _); vm_compute; exact I.

Ltac field_step f :=
  intros d line Hd; unfold f;
  repeat match goal with
         | |- context [if ?b then _ else _] => destruct b
         end;
  solve [ assumption
        | apply within_insert; [member | assumption]
        | apply within_set_if_match; [member | assumption] ].

Lemma cisco_version_keys output :
  keys_within ["Model"; "IOS_Version"; "Uptime"; "Serial"] (cisco_version_data output).
Proof.
  unfold cisco_version_data.
  repeat (apply within_set_if_match; [member|]). apply within_empty.
Qed.

Lemma arista_version_keys output :
  keys_within ["Model"; "Uptime"; "EOS_Version"; "Serial"] (arista_version_data output).
Proof.
  unfold arista_version_data. apply within_fold; [|apply within_empty].
  field_step arista_version_line.
Qed.

Lemma juniper_version_keys output :
  keys_within ["Model"; "JUNOS_Version"; "Serial"] (juniper_version_data output).
Proof.
  unfold juniper_version_data. apply within_fold; [|apply within_empty].
  field_step juniper_version_line.
Qed.

Lemma sonic_version_keys output :
  keys_within ["Platform"; "Sonic_Version"; "Uptime"] (sonic_version_data output).
Proof.
  unfold sonic_version_data. apply within_fold; [|apply within_empty].
  field_step sonic_version_line.
Qed.

Lemma cisco_bgp_keys output :
  keys_within ["Router_ID"; "BGP_Neighbors"] (cisco_bgp_data output).
Proof.
  unfold cisco_bgp_data. apply within_set_neighbors; [member|].
  apply within_fold; [|apply within_empty]. field_step cisco_bgp_line.
Qed.

Lemma arista_bgp_keys output :
  keys_within ["AS_Number"; "BGP_Neighbors"] (arista_bgp_data output).
Proof.
  unfold arista_bgp_data. apply within_set_neighbors; [member|].
  apply within_fold; [|apply within_empty]. field_step arista_bgp_line.
Qed.

Lemma juniper_bgp_keys output :
  keys_within ["Router_ID"; "AS_Number"] (juniper_bgp_data output).
Proof.
  unfold juniper_bgp_data. apply within_fold; [|apply within_empty].
  field_step juniper_bgp_line.
Qed.

Lemma sonic_bgp_keys output :
  keys_within ["BGP_Neighbors"] (sonic_bgp_data output).
Proof.
  unfold sonic_bgp_data. apply within_set_neighbors; [member | apply within_empty].
Qed.

Lemma within_raw_only ks v :
  keys_within ("raw_output" :: ks) {[ "raw_output" := v ]}.
Proof.
  intros k [w Hw]. apply lookup_singleton_Some in Hw as [<- _]. apply list_elem_of_here.
Qed.

End FieldFacts.

Lemma version_keys_known output os_type :
  keys_within ("raw_output" :: version_fields os_type)
    (OutputParser.parse_show_version output os_type).
Proof.
  unfold OutputParser.parse_show_version, version_fields.
  destruct (String.eqb os_type "cisco_ios");
    [apply FieldFacts.within_py_or, FieldFacts.cisco_version_keys|].
  destruct (String.eqb os_type "arista_eos");
    [apply FieldFacts.within_py_or, FieldFacts.arista_version_keys|].
  destruct (String.eqb os_type "juniper_junos");
    [apply FieldFacts.within_py_or, FieldFacts.juniper_version_keys|].
  destruct (String.eqb os_type "sonic_cli");
    [apply FieldFacts.within_py_or, FieldFacts.sonic_version_keys|].
  apply FieldFacts.within_raw_only.
Qed.

Lemma bgp_keys_known output os_type :
  keys_within ("raw_output" :: bgp_fields os_type)
    (OutputParser.parse_bgp_summary output os_type).
Proof.
  unfold OutputParser.parse_bgp_summary, bgp_fields.
  destruct (String.eqb os_type "cisco_ios");
    [apply FieldFacts.within_py_or, FieldFacts.cisco_bgp_keys|].
  destruct (String.eqb os_type "arista_eos");
    [apply FieldFacts.within_py_or, FieldFacts.arista_bgp_keys|].
  destruct (String.eqb os_type "juniper_junos");
    [apply FieldFacts.within_py_or, FieldFacts.juniper_bgp_keys|].
  destruct (String.eqb os_type "sonic_cli");
    [apply FieldFacts.within_py_or, FieldFacts.sonic_bgp_keys|].
  apply FieldFacts.within_raw_only.
Qed.

(** X9: the parsers write a closed set of field names: whatever the output,
    every key of the result of [parse_show_version] is "raw_output" or one
    of the version fields of the OS tag, and every key of the result of
    [parse_bgp_summary] is "raw_output" or one of its BGP fields; for a tag
    outside the four known ones there is no field but "raw_output". *)
Theorem parsers_write_known_fields (output os_type : string) :
  keys_within ("raw_output" :: version_fields os_type)
    (OutputParser.parse_show_version output os_type)
  /\ keys_within ("raw_output" :: bgp_fields os_type)
       (OutputParser.parse_bgp_summary output os_type).
Proof.
  split; [apply version_keys_known | apply bgp_keys_known].
Qed.

Module ResultFacts.
Import OutputParser.

Lemma singleton_nonempty (k : string) (v : PyVal) : ({[ k := v ]} : gmap string PyVal) <> ∅.
Proof.
  intros H. apply (f_equal (fun m : gmap string PyVal => m !! k)) in H.
  rewrite lookup_singleton_eq, lookup_empty in H. discriminate.
Qed.

(** Either the result is the raw fallback alone, or it has no "raw_output". *)
Lemma raw_or_fields (parse : string -> string -> gmap string PyVal) output os_type :
  parse = parse_show_version \/ parse = parse_bgp_summary ->
  parse output os_type <> ∅
  /\ ((exists v, parse output os_type = {[ "raw_output" := VStr v ]})
      \/ parse output os_type !! "raw_output" = None).
Proof.
  intros Hparse. destruct (known_os os_type) eqn:Hknown.
  - destruct (ParserFacts.known_os_shape parse output os_type Hparse Hknown)
      as (data & Hraw & ->).
    destruct (ParserFacts.py_or_raw_prefix data output Hraw) as (Hne & _ & Hdata & Hempty).
    split; [exact Hne|].
    destruct (decide (data = ∅)) as [He|Hn].
    + left. eexists. rewrite (Hempty He). reflexivity.
    + right. rewrite (Hdata Hn). exact Hraw.
  - destruct (ParserFacts.unknown_os_passthrough output os_type Hknown) as [Hv Hb].
    assert (Heq : parse output os_type = {[ "raw_output" := VStr output ]})
      by (destruct Hparse as [-> | ->]; assumption).
    rewrite Heq. split; [apply singleton_nonempty | left; eexists; reflexivity].
Qed.

Lemma error_not_a_version_field os_type : "error" ∉ "raw_output" :: version_fields os_type.
Proof.
  unfold version_fields.
  repeat match goal with
         | |- context [if ?b then _ else _] => destruct b
         end; apply (bool_decide_unpack _); vm_compute; exact I.
Qed.

Lemma error_not_a_bgp_field os_type : "error" ∉ "raw_output" :: bgp_fields os_type.
Proof.
  unfold bgp_fields.
  repeat match goal with
         | |- context [if ?b then _ else _] => destruct b
         end; apply (bool_decide_unpack _); vm_compute; exact I.
Qed.

Lemma lacks_outside ks (m : gmap string PyVal) k :
  keys_within ks m -> k ∉ ks -> m !! k = None.
Proof.
  intros Hm Hk. destruct (m !! k) eqn:E; [|reflexivity].
  exfalso. apply Hk, Hm. rewrite E. eexists. reflexivity.
Qed.

End ResultFacts.

(** X10: in every parser result the raw fallback and the structured fields
    exclude each other: the result is never empty, and it is either the
    single field "raw_output" or a mapping without the key "raw_output". *)
Theorem raw_output_excludes_fields (output os_type : string) :
  (OutputParser.parse_show_version output os_type <> ∅
   /\ ((exists v, OutputParser.parse_show_version output os_type = {[ "raw_output" := VStr v ]})
       \/ OutputParser.parse_show_version output os_type !! "raw_output" = None))
  /\ (OutputParser.parse_bgp_summary output os_type <> ∅
      /\ ((exists v, OutputParser.parse_bgp_summary output os_type = {[ "raw_output" := VStr v ]})
          \/ OutputParser.parse_bgp_summary output os_type !! "raw_output" = None)).
Proof. split; apply ResultFacts.raw_or_fields; auto. Qed.

(** X11: the dictionary [run_command] returns tells success from failure:
    on success it is not empty and has no key "error"; on failure it is
    exactly one field "error" holding a text. *)
Theorem run_command_error_key_iff_failure {C : Type} `{!Connector C}
    (st : Session C) (command_alias : string) :
  let out := (run_command command_alias st).1 in
  if out.1
  then out.2 <> ∅ /\ out.2 !! "error" = None
  else exists msg, out.2 = {[ "error" := VStr msg ]}.
Proof.
  cbn zeta. unfold run_command.
  destruct (get_available_commands (runner st) !! command_alias) as [actual|];
    [|cbn; eexists; reflexivity].
  destruct (try_usernames_outcome command_alias actual (usernames (runner st)) st)
    as [(pre & u & post & out & c2 & Hus & Heq) | (c2 & Heq)]; rewrite Heq; cbn [fst snd];
    [|eexists; reflexivity].
  unfold parse_for.
  destruct (String.eqb command_alias "version").
  - split.
    + apply (ResultFacts.raw_or_fields OutputParser.parse_show_version). auto.
    + eapply ResultFacts.lacks_outside;
        [apply version_keys_known | apply ResultFacts.error_not_a_version_field].
  - destruct (String.eqb command_alias "bgp_summary").
    + split.
      * apply (ResultFacts.raw_or_fields OutputParser.parse_bgp_summary). auto.
      * eapply ResultFacts.lacks_outside;
          [apply bgp_keys_known | apply ResultFacts.error_not_a_bgp_field].
    + split; [apply ResultFacts.singleton_nonempty|].
      apply lookup_singleton_ne. discriminate.
Qed.

(** ** Command tables and the OS tag *)

Lemma show_commands_unknown os :
  OutputParser.known_os os = false -> SHOW_COMMANDS !! os = None.
Proof.
  unfold OutputParser.known_os. intros H.
  destruct (String.eqb os "cisco_ios") eqn:E1; [discriminate|].
  destruct (String.eqb os "arista_eos") eqn:E2; [discriminate|].
  destruct (String.eqb os "juniper_junos") eqn:E3; [discriminate|].
  destruct (String.eqb os "sonic_cli") eqn:E4; [discriminate|].
  apply String.eqb_neq in E1, E2, E3, E4.
  unfold SHOW_COMMANDS. cbn [list_to_map foldr fst snd].
  rewrite !lookup_insert_ne by congruence. apply lookup_empty.
Qed.

Lemma known_os_cases os :
  OutputParser.known_os os = true ->
  os = "cisco_ios" \/ os = "arista_eos" \/ os = "juniper_junos" \/ os = "sonic_cli".
Proof.
  unfold OutputParser.known_os. intros H.
  destruct (String.eqb_spec os "cisco_ios"); [auto|].
  destruct (String.eqb_spec os "arista_eos"); [auto|].
  destruct (String.eqb_spec os "juniper_junos"); [auto|].
  destruct (String.eqb_spec os "sonic_cli"); [auto|]. discriminate.
Qed.

(** X12: the command table and the parsers agree on the OS tags: a runner
    supports the aliases "version" and "bgp_summary" exactly when its tag is
    one the parsers know, "version" is then always "show version", and for
    every other tag the only alias is "custom", standing for the literal
    text "custom command". *)
Theorem aliases_follow_known_os (r : Runner) :
  if OutputParser.known_os (device_os r)
  then get_available_commands r !! "version" = Some "show version"
       /\ is_Some (get_available_commands r !! "bgp_summary")
       /\ get_available_commands r !! "custom" = None
  else get_available_commands r = {[ "custom" := "custom command" ]}.
Proof.
  unfold get_available_commands.
  destruct (OutputParser.known_os (device_os r)) eqn:Hknown.
  - destruct (known_os_cases _ Hknown) as [-> | [-> | [-> | ->]]];
      (split; [vm_compute; reflexivity|]);
      (split; [eexists; vm_compute; reflexivity | vm_compute; reflexivity]).
  - rewrite (show_commands_unknown _ Hknown). reflexivity.
Qed.

(** X13: on a runner that has not authenticated yet and whose OS tag is not
    one of the four known ones, [run_custom_command] always fails with the
    authentication error and never calls the connection: the alias
    "version" it authenticates with does not exist for such a tag. *)
Theorem run_custom_command_needs_known_os {C : Type} `{!Connector C}
    (st : Session C) (command : string) :
  OutputParser.known_os (device_os (runner st)) = false ->
  authenticated (runner st) = false ->
  current_username (runner st) = None ->
  run_custom_command command st = ((false, "[!] Failed to authenticate to device"), st).
Proof.
  intros Hknown Hauth Hcur. unfold run_custom_command, run_command.
  rewrite Hauth, Hcur. cbn [negb andb username_set].
  unfold get_available_commands. rewrite (show_commands_unknown _ Hknown).
  reflexivity.
Qed.

Lemma run_custom_command_needs_known_os_witness :
  let st := new_session "10.0.0.1" "NX-OS" only_neteng None in
  OutputParser.known_os (device_os (runner st)) = false
  /\ run_custom_command "show clock" st
     = ((false, "[!] Failed to authenticate to device"), st).
Proof.
  intros st. split; [reflexivity|].
  apply run_custom_command_needs_known_os; reflexivity.
Defined.

(** X14: on a runner that has not authenticated yet, [run_custom_command]
    first runs the alias "version". If that fails, the command is never sent:
    the calls made are those of the "version" run and the answer is the
    authentication error. If it succeeds, the command is sent exactly once,
    after the "version" calls, under the username just accepted, which is
    one of the candidates. *)
Theorem run_custom_command_authenticates_first {C : Type} `{!Connector C}
    (st : Session C) (command : string) :
  authenticated (runner st) = false ->
  current_username (runner st) = None ->
  let version := run_command "version" st in
  let out := run_custom_command command st in
  if version.1.1
  then exists u,
         u ∈ usernames (runner st)
         /\ current_username (runner out.2) = Some u
         /\ calls out.2 = calls version.2 ++ [mkAttempt (device_ip (runner st)) u command]
  else out = ((false, "[!] Failed to authenticate to device"), version.2).
Proof.
  intros Hauth Hcur. cbn zeta. unfold run_custom_command.
  rewrite Hauth, Hcur. cbn [negb andb username_set].
  destruct (run_command "version" st) as [[success parsed] st1] eqn:Hrun.
  cbn [fst snd]. destruct success; cbn [negb]; [|reflexivity].
  unfold run_command in Hrun.
  destruct (get_available_commands (runner st) !! "version") as [actual|];
    [|discriminate].
  destruct (try_usernames_outcome "version" actual (usernames (runner st)) st)
    as [(pre & u & post & o & c2 & Hus & Heq) | (c2 & Heq)];
    rewrite Heq in Hrun; [|discriminate].
  injection Hrun as _ <-. exists u. split.
  - rewrite Hus. apply elem_of_app. right. apply list_elem_of_here.
  - unfold execute. cbn [runner ssh_connection calls accept current_username device_ip
                         rejected].
    change (username_arg (Some u)) with u.
    destruct (execute_command_on_device c2 (device_ip (runner st)) u command) as [res c3].
    cbn [snd runner calls current_username]. split; reflexivity.
Qed.

Lemma run_custom_command_authenticates_first_witness :
  let st := new_session "10.0.0.1" "IOS" only_neteng (Some three_candidates) in
  authenticated (runner st) = false
  /\ current_username (runner st) = None
  /\ map a_username (calls (run_custom_command "show clock" st).2)
     = ["admin"; "netadmin"; "neteng"; "neteng"].
Proof.
  intros st. split; [reflexivity|]. split; [reflexivity|].
  pose proof (run_custom_command_authenticates_first st "show clock" eq_refl eq_refl) as H.
  cbn zeta in H.
  assert (Hok : (run_command "version" st).1.1 = true) by (vm_compute; reflexivity).
  rewrite Hok in H. destruct H as (u & _ & _ & Hcalls).
  clear Hcalls. vm_compute. reflexivity.
Defined.

(** ** SSHConnection *)

(** X15: [execute_command_on_device] never changes the connection, and it
    reports success only on a connected connection that has a client, when
    the remote command line ran to its end with an error stream that is
    empty or mentions "Warning"; the output is then the standard output,
    untouched. *)
Theorem ssh_execute_success_conditions (c : SSHConnection.t)
    (device_ip device_username command : string) :
  let out := SSHConnection.execute_command_on_device c device_ip device_username command in
  out.2 = c
  /\ (out.1.1 = true ->
      SSHConnection.connected c = true
      /\ exists client stdout stderr,
           SSHConnection.ssh_client c = Some client
           /\ exec_command client
                (SSHConnection.device_command_line device_username device_ip command)
              = Streams stdout stderr
           /\ out.1.2 = stdout
           /\ (stderr = EmptyString \/ PyStr.contains "Warning" stderr = true)).
Proof.
  cbn zeta. unfold SSHConnection.execute_command_on_device.
  destruct (SSHConnection.connected c); cbn [negb]; [|split; [reflexivity|discriminate]].
  destruct (SSHConnection.ssh_client c) as [client|]; [|split; [reflexivity|discriminate]].
  destruct (exec_command client _) as [stdout stderr| |e] eqn:Hexec;
    try (split; [reflexivity|discriminate]).
  destruct (String.eqb_spec stderr EmptyString) as [->|Hne]; cbn [negb andb].
  - split; [reflexivity|]. intros _. split; [reflexivity|].
    exists client, stdout, EmptyString. auto.
  - destruct (PyStr.contains "Warning" stderr) eqn:Hw; cbn [negb];
      [|split; [reflexivity|discriminate]].
    split; [reflexivity|]. intros _. split; [reflexivity|].
    exists client, stdout, stderr. auto.
Qed.

Lemma ssh_execute_success_conditions_witness :
  (SSHConnection.execute_command_on_device direct_connection
     "10.0.0.1" "neteng" "show version").1.1 = true
  /\ SSHConnection.connected direct_connection = true.
Proof.
  assert (Hok : (SSHConnection.execute_command_on_device direct_connection
                   "10.0.0.1" "neteng" "show version").1.1 = true) by reflexivity.
  split; [exact Hok|].
  exact (proj1 (proj2 (ssh_execute_success_conditions direct_connection
                         "10.0.0.1" "neteng" "show version") Hok)).
Defined.

(** A connection that is not connected, or that has no client, answers
    every call with a failure and stays as it is. *)
Lemma unusable_connection_rejects (c : SSHConnection.t) ip u cmd :
  SSHConnection.connected c = false \/ SSHConnection.ssh_client c = None ->
  exists msg, execute_command_on_device c ip u cmd = ((false, msg), c).
Proof.
  unfold execute_command_on_device, SSHConnection_Connector,
    SSHConnection.execute_command_on_device.
  intros [H | H]; rewrite H.
  - eexists. reflexivity.
  - destruct (SSHConnection.connected c); eexists; reflexivity.
Qed.

(** X16: over a connection that is not connected, or that is connected
    without a client, no command of the runner can succeed: [run_command]
    and [run_custom_command] return failure whatever the alias, the command
    and the candidates, and leave the connection as it was. For a supported
    alias [run_command] still walks the whole candidate list and records
    every name as failed. *)
Theorem runner_over_unusable_connection (st : Session SSHConnection.t)
    (command_alias command : string) :
  SSHConnection.connected (ssh_connection st) = false
  \/ SSHConnection.ssh_client (ssh_connection st) = None ->
  ((run_command command_alias st).1.1 = false
   /\ ssh_connection (run_command command_alias st).2 = ssh_connection st
   /\ (is_Some (get_available_commands (runner st) !! command_alias) ->
       failed_usernames (runner (run_command command_alias st).2)
       = failed_usernames (runner st) ++ usernames (runner st)))
  /\ ((run_custom_command command st).1.1 = false
      /\ ssh_connection (run_custom_command command st).2 = ssh_connection st).
Proof.
  intros Hbad.
  assert (Hrej : forall actual (c : SSHConnection.t) u,
            c = ssh_connection st ->
            let res := execute_command_on_device c (device_ip (runner st)) u actual in
            res.2 = ssh_connection st /\ accepted res.1.1 res.1.2 = false).
  { intros actual c u ->. cbn zeta.
    destruct (unusable_connection_rejects (ssh_connection st) (device_ip (runner st))
                u actual Hbad) as [msg ->].
    split; reflexivity. }
  assert (Hrun : forall a,
            (run_command a st).1.1 = false
            /\ ssh_connection (run_command a st).2 = ssh_connection st
            /\ runner (run_command a st).2
               = match get_available_commands (runner st) !! a with
                 | Some _ => rejected (runner st) (usernames (runner st))
                 | None => runner st
                 end).
  { intros a. unfold run_command.
    destruct (get_available_commands (runner st) !! a) as [actual|];
      [|repeat split].
    destruct (try_usernames_exhausted (fun c => c = ssh_connection st) a actual
                (device_ip (runner st)) (Hrej actual)
                (usernames (runner st)) st eq_refl eq_refl) as (c' & -> & ->).
    repeat split. }
  split.
  - destruct (Hrun command_alias) as (Hfail & Hconn & Hrunner).
    split; [exact Hfail|]. split; [exact Hconn|].
    intros [actual Hsome]. rewrite Hrunner, Hsome. reflexivity.
  - unfold run_custom_command.
    assert (Hexec : forall (s : Session SSHConnection.t) u,
              ssh_connection s = ssh_connection st ->
              device_ip (runner s) = device_ip (runner st) ->
              (execute s u command).1.1 = false
              /\ ssh_connection (execute s u command).2 = ssh_connection st).
    { intros s u Hs Hip. unfold execute. rewrite Hs, Hip.
      destruct (unusable_connection_rejects (ssh_connection st) (device_ip (runner st))
                  u command Hbad) as [msg ->].
      split; reflexivity. }
    destruct (negb (authenticated (runner st)) && negb (username_set (current_username (runner st)))).
    + destruct (Hrun "version") as (Hfail & Hconn & _).
      destruct (run_command "version" st) as [[success parsed] st1].
      cbn [fst snd] in Hfail, Hconn. subst success. cbn [negb fst snd].
      split; [reflexivity | exact Hconn].
    + apply Hexec; reflexivity.
Qed.

Lemma runner_over_unusable_connection_witness :
  let st := new_session "10.0.0.1" "IOS"
              (SSHConnection.init "vn59iz6" "secret" DEFAULT_BASTION) None in
  SSHConnection.connected (ssh_connection st) = false
  /\ (run_command "version" st).1.1 = false
  /\ (run_custom_command "show clock" st).1.1 = false.
Proof.
  intros st.
  destruct (runner_over_unusable_connection st "version" "show clock") as [(H1 & _) (H2 & _)].
  - left. reflexivity.
  - split; [reflexivity|]. split; assumption.
Defined.

(** X17: through a bastion of the SSH type [connect_to_jumphost] answers
    True whatever the machine and the network are, without creating a
    client; the connection it leaves answers every command with the
    "NoneType" command error. *)
Theorem ssh_bastion_connects_without_client (env : SSHConnection.Env)
    (c : SSHConnection.t) (m : BastionManager.t) :
  SSHConnection.bastion_manager c = Some m ->
  bastion_type (BastionManager.bastion_config m) = BASTION_TYPE_SSH ->
  SSHConnection.ssh_client c = None ->
  let out := SSHConnection.connect_to_jumphost env c in
  out.1 = true
  /\ SSHConnection.connected out.2 = true
  /\ SSHConnection.ssh_client out.2 = None
  /\ forall device_ip device_username command,
       SSHConnection.execute_command_on_device out.2 device_ip device_username command
       = ((false, "[!] Command error: 'NoneType' object has no attribute 'exec_command'"),
          out.2).
Proof.
  intros Hm Htype Hclient. cbn zeta.
  unfold SSHConnection.connect_to_jumphost, BastionManager.connect,
    BastionManager.connect_ssh_bastion.
  rewrite Hm, Htype. cbn [String.eqb negb fst snd]. 
  change (String.eqb BASTION_TYPE_SSH BASTION_TYPE_SSH) with true. cbn [negb fst snd].
  rewrite Hclient. repeat split.
Qed.

Lemma ssh_bastion_connects_without_client_witness :
  let c := SSHConnection.init "vn59iz6" "secret" "nre_traditional" in
  SSHConnection.ssh_client c = None
  /\ (SSHConnection.connect_to_jumphost reachable_jump_host c).1 = true
  /\ (SSHConnection.execute_command_on_device
        (SSHConnection.connect_to_jumphost reachable_jump_host c).2
        "10.0.0.1" "neteng" "show version").1.1 = false.
Proof.
  intros c. split; [reflexivity|].
  destruct (BastionManager.init "nre_traditional" "vn59iz6" "secret") as [m|] eqn:Hm;
    [|discriminate Hm].
  destruct (ssh_bastion_connects_without_client reachable_jump_host c m)
    as (Hok & _ & _ & Hexec).
  - exact Hm.
  - vm_compute in Hm. injection Hm as <-. reflexivity.
  - reflexivity.
  - split; [exact Hok|]. rewrite Hexec. reflexivity.
Defined.

(** X18: [connect_to_jumphost] sets [connected] exactly when it answers
    True: after a True answer the flag is set, after a False answer the flag
    is what it was; and a connection built on a bastion id that is not in
    [BASTION_HOSTS] never connects and is left untouched. *)
Theorem connect_to_jumphost_flag (env : SSHConnection.Env) (c : SSHConnection.t) :
  (if (SSHConnection.connect_to_jumphost env c).1
   then SSHConnection.connected (SSHConnection.connect_to_jumphost env c).2 = true
   else SSHConnection.connected (SSHConnection.connect_to_jumphost env c).2
        = SSHConnection.connected c)
  /\ forall username password bid,
       assoc_get bid BASTION_HOSTS = None ->
       SSHConnection.connect_to_jumphost env (SSHConnection.init username password bid)
       = (false, SSHConnection.init username password bid).
Proof.
  split.
  - unfold SSHConnection.connect_to_jumphost.
    destruct (SSHConnection.bastion_manager c) as [m|]; [|reflexivity].
    destruct (BastionManager.connect (SSHConnection.gcloud env) m) as [[] m'];
      [reflexivity|].
    destruct (SSHConnection.jump_host_connect env); reflexivity.
  - intros username password bid Hnone.
    unfold SSHConnection.connect_to_jumphost, SSHConnection.init, BastionManager.init,
      BastionManager._load_bastion_config.
    rewrite Hnone. reflexivity.
Qed.

Lemma connect_to_jumphost_flag_witness :
  assoc_get "nre_lab" BASTION_HOSTS = None
  /\ (SSHConnection.connect_to_jumphost reachable_jump_host
        (SSHConnection.init "vn59iz6" "secret" "nre_lab")).1 = false.
Proof.
  split; [reflexivity|].
  rewrite (proj2 (connect_to_jumphost_flag reachable_jump_host
                    (SSHConnection.init "vn59iz6" "secret" "nre_lab"))
             "vn59iz6" "secret" "nre_lab" eq_refl).
  reflexivity.
Defined.

(** ** BastionManager *)

(** A connection attempt either sets the flag or changes nothing. *)
Lemma bastion_connect_state (env : Gcloud) (m : BastionManager.t) :
  (BastionManager.connect env m).2
  = (if (BastionManager.connect env m).1 then BastionManager.set_connected m true else m).
Proof.
  unfold BastionManager.connect, BastionManager.connect_ssh_bastion,
    BastionManager.connect_gcloud_bastion.
  destruct (String.eqb (bastion_type (BastionManager.bastion_config m)) BASTION_TYPE_SSH);
    [reflexivity|].
  destruct (String.eqb (bastion_type (BastionManager.bastion_config m)) BASTION_TYPE_GCLOUD);
    [|reflexivity].
  cbn [negb]. destruct (gcloud_version env) as [[|n]| | |]; try reflexivity.
  destruct (gcloud_auth_list env) as [[|n]| | |]; reflexivity.
Qed.

(** X19: [BastionManager.connect] answers True exactly for a bastion of the
    SSH type, or one of the gcloud type when both gcloud preflight commands
    exit with code 0. A True answer sets [connected] and changes nothing
    else; a False answer changes nothing at all. *)
Theorem bastion_connect_characterized (env : Gcloud) (m : BastionManager.t) :
  let out := BastionManager.connect env m in
  (out.1 = true <->
     bastion_type (BastionManager.bastion_config m) = BASTION_TYPE_SSH
     \/ (bastion_type (BastionManager.bastion_config m) = BASTION_TYPE_GCLOUD
         /\ gcloud_version env = Exited 0 /\ gcloud_auth_list env = Exited 0))
  /\ out.2 = (if out.1 then BastionManager.set_connected m true else m).
Proof.
  cbn zeta. unfold BastionManager.connect, BastionManager.connect_ssh_bastion,
    BastionManager.connect_gcloud_bastion.
  destruct (String.eqb_spec (bastion_type (BastionManager.bastion_config m)) BASTION_TYPE_SSH)
    as [Hs|Hs]; cbn [negb fst snd].
  { split; [|reflexivity]. split; auto. }
  destruct (String.eqb_spec (bastion_type (BastionManager.bastion_config m)) BASTION_TYPE_GCLOUD)
    as [Hg|Hg]; cbn [negb fst snd].
  - destruct (gcloud_version env) as [[|n]| | |] eqn:Hv; cbn [fst snd];
      try (split; [|reflexivity]; split;
           [discriminate | intros [?|(_ & ? & _)]; [contradiction | discriminate]]).
    destruct (gcloud_auth_list env) as [[|n]| | |] eqn:Ha; cbn [fst snd];
      try (split; [|reflexivity]; split;
           [discriminate | intros [?|(_ & _ & ?)]; [contradiction | discriminate]]).
    split; [|reflexivity]. split; auto.
  - split; [|reflexivity]. split; [discriminate|].
    intros [?|(? & _)]; contradiction.
Qed.

(** X20: connecting and then disconnecting a manager that was not connected
    gives the manager back as it was, whatever happened in between; in any
    state, disconnecting after a connection attempt is the same as
    disconnecting at once, and leaves [connected] false. *)
Theorem bastion_connect_disconnect_round_trip (env : Gcloud) (m : BastionManager.t) :
  BastionManager.disconnect (BastionManager.connect env m).2 = BastionManager.disconnect m
  /\ BastionManager.connected (BastionManager.disconnect (BastionManager.connect env m).2)
     = false
  /\ (BastionManager.connected m = false ->
      BastionManager.disconnect (BastionManager.connect env m).2 = m).
Proof.
  pose proof (bastion_connect_state env m) as Hstate.
  assert (H1 : BastionManager.disconnect (BastionManager.connect env m).2
               = BastionManager.disconnect m).
  { rewrite Hstate. destruct (BastionManager.connect env m).1; reflexivity. }
  split; [exact H1|]. split; [rewrite H1; reflexivity|].
  intros Hc. rewrite H1. destruct m. cbn in Hc. subst. reflexivity.
Qed.

Lemma bastion_connect_disconnect_round_trip_witness :
  exists m,
    BastionManager.init "nre_gcloud_us_west" "vn59iz6" "secret" = Some m
    /\ BastionManager.connected m = false
    /\ BastionManager.disconnect
         (BastionManager.connect (mkGcloud (Exited 0) (Exited 0)) m).2 = m.
Proof.
  destruct (BastionManager.init "nre_gcloud_us_west" "vn59iz6" "secret") as [m|] eqn:Hm;
    [|discriminate Hm].
  exists m. split; [reflexivity|].
  assert (Hc : BastionManager.connected m = false)
    by (vm_compute in Hm; injection Hm as <-; reflexivity).
  split; [exact Hc|].
  apply (proj2 (proj2 (bastion_connect_disconnect_round_trip _ m)) Hc).
Defined.

Lemma assoc_get_is_Some {V} k (d : list (string * V)) :
  is_Some (assoc_get k d) <-> k ∈ d.*1.
Proof.
  induction d as [|[k' v] d IH]; cbn.
  - split; [intros [? H]; discriminate | intros H; inversion H].
  - destruct (String.eqb_spec k k') as [->|Hne].
    + split; [intros _; apply list_elem_of_here | intros _; eexists; reflexivity].
    + rewrite IH, elem_of_cons. split; [auto | intros [?|?]; [contradiction | assumption]].
Qed.

(** X21: a bastion manager can be built exactly for the ids that
    [list_available_bastions] lists, which are the keys of [BASTION_HOSTS]
    in order; a manager that was built starts disconnected and carries, in
    itself and in its configuration, the id it was asked for. *)
Theorem bastion_init_matches_listing (bid username password : string) :
  (is_Some (BastionManager.init bid username password) <->
   bid ∈ map BastionExec.l_id BastionExec.list_available_bastions)
  /\ map BastionExec.l_id BastionExec.list_available_bastions = BASTION_HOSTS.*1
  /\ forall m, BastionManager.init bid username password = Some m ->
       BastionManager.id m = bid
       /\ bastion_id (BastionManager.bastion_config m) = bid
       /\ BastionManager.connected m = false
       /\ BastionManager.username m = username
       /\ BastionManager.password m = password.
Proof.
  assert (Hids : map BastionExec.l_id BastionExec.list_available_bastions = BASTION_HOSTS.*1)
    by reflexivity.
  split; [|split; [exact Hids|]].
  - rewrite Hids, <- assoc_get_is_Some.
    unfold BastionManager.init, BastionManager._load_bastion_config.
    destruct (assoc_get bid BASTION_HOSTS); split; intros [x Hx];
      try discriminate; eexists; reflexivity.
  - intros m. unfold BastionManager.init, BastionManager._load_bastion_config.
    destruct (assoc_get bid BASTION_HOSTS); [|discriminate].
    intros [= <-]. repeat split.
Qed.

Lemma bastion_init_matches_listing_witness :
  exists m,
    BastionManager.init "nre_gcloud_us_central" "vn59iz6" "secret" = Some m
    /\ bastion_id (BastionManager.bastion_config m) = "nre_gcloud_us_central".
Proof.
  destruct (BastionManager.init "nre_gcloud_us_central" "vn59iz6" "secret") as [m|] eqn:Hm;
    [|discriminate Hm].
  exists m. split; [reflexivity|].
  apply (proj2 (proj2 (bastion_init_matches_listing
                         "nre_gcloud_us_central" "vn59iz6" "secret")) m Hm).
Defined.

(** X22: [execute_command_via_bastion] never reports success on a manager
    that is not connected, nor on one whose type is neither ssh nor gcloud;
    on a gcloud bastion success means the gcloud process exited with code 0
    and the output is its standard output; and on a connected SSH bastion
    the answer is a fixed "Ready to execute" text that depends neither on
    the device, nor on the username, nor on the command, nor on any
    process: nothing is run. *)
Theorem bastion_execute_outcomes (run : list (option string) -> RunOutcome)
    (m : BastionManager.t) (device_ip device_username command : string) :
  let out := BastionExec.execute_command_via_bastion run m device_ip device_username command in
  (out.1 = true ->
     BastionManager.connected m = true
     /\ (bastion_type (BastionManager.bastion_config m) = BASTION_TYPE_SSH
         \/ (bastion_type (BastionManager.bastion_config m) = BASTION_TYPE_GCLOUD
             /\ exists stderr,
                  run (BastionExec.gcloud_cmd (BastionManager.bastion_config m)
                         device_ip device_username command)
                  = Completed 0 out.2 stderr)))
  /\ (BastionManager.connected m = true ->
      bastion_type (BastionManager.bastion_config m) = BASTION_TYPE_SSH ->
      forall run' ip' username' command',
        BastionExec.execute_command_via_bastion run' m ip' username' command'
        = (true, "[*] Ready to execute via " +:+ name (BastionManager.bastion_config m))).
Proof.
  cbn zeta. unfold BastionExec.execute_command_via_bastion. split.
  - destruct (BastionManager.connected m); cbn [negb]; [|discriminate].
    destruct (String.eqb_spec (bastion_type (BastionManager.bastion_config m)) BASTION_TYPE_SSH)
      as [Hs|Hs]; [auto|].
    destruct (String.eqb_spec (bastion_type (BastionManager.bastion_config m)) BASTION_TYPE_GCLOUD)
      as [Hg|Hg]; [|discriminate].
    unfold BastionExec._execute_via_gcloud_bastion.
    destruct (run _) as [rc stdout stderr| |e]; try discriminate.
    destruct (Z.eqb_spec rc 0) as [->|Hrc]; [|discriminate].
    intros _. split; [reflexivity|]. right. split; [exact Hg|].
    exists stderr. reflexivity.
  - intros -> Hs run' ip' username' command'. rewrite Hs. reflexivity.
Qed.

Lemma bastion_execute_outcomes_witness :
  exists m,
    BastionManager.init "nre_traditional" "vn59iz6" "secret" = Some m
    /\ BastionExec.execute_command_via_bastion (fun _ => RunTimeout)
         (BastionManager.connect (mkGcloud FileNotFound FileNotFound) m).2
         "10.0.0.1" "neteng" "show version"
       = (true, "[*] Ready to execute via NRE Traditional SSH Jump Host (Legacy)").
Proof.
  destruct (BastionManager.init "nre_traditional" "vn59iz6" "secret") as [m|] eqn:Hm;
    [|discriminate Hm].
  exists m. split; [reflexivity|].
  vm_compute in Hm. injection Hm as <-.
  match goal with
  | |- BastionExec.execute_command_via_bastion _ ?mm _ _ _ = _ =>
      rewrite (proj2 (bastion_execute_outcomes (fun _ => RunTimeout) mm "a" "b" "c")
                 eq_refl eq_refl)
  end.
  reflexivity.
Defined.

(** ** NREJumpbox *)

Module JumpboxMoreFacts.
Import NREJumpbox.

Lemma try_password_jumpbox env h w : jumpbox (try_password env h w).2 = jumpbox w.
Proof. apply JumpboxFacts.try_password_hosts. Qed.

(** A host attempt replaces the client and touches nothing else of the
    jumpbox object. *)
Lemma try_connect_jumpbox env h w :
  jumpbox (_try_connect env h w).2 = set_client (jumpbox w) (new_client env h).
Proof.
  unfold _try_connect.
  destruct (find_ssh_keys env _) as [[|k ks]|]; cbn [snd]; [ | | reflexivity].
  - rewrite try_password_jumpbox. reflexivity.
  - unfold transport_connect.
    destruct (net_connect env _ _); cbn [snd jumpbox]; try reflexivity.
    rewrite try_password_jumpbox. reflexivity.
Qed.

(** The jumpbox object after [connect], by cases on the two host attempts. *)
Lemma connect_jumpbox env w :
  let p := _format_hostname (primary_host (config (jumpbox w))) in
  let f := _format_hostname (fallback_host (config (jumpbox w))) in
  let j1 := set_client (jumpbox w) (new_client env p) in
  let j2 := set_client j1 (new_client env f) in
  ((connect env w).1 = true /\ jumpbox (connect env w).2 = mark_connected j1 p)
  \/ ((connect env w).1 = true /\ jumpbox (connect env w).2 = mark_connected j2 f)
  \/ ((connect env w).1 = false /\ jumpbox (connect env w).2 = j2
      /\ hosts_tried (connect env w).2 = hosts_tried w ++ [p; f]).
Proof.
  intros p f j1 j2. unfold connect, hosts_to_try. fold p f. cbn [connect_loop].
  pose proof (try_connect_jumpbox env p w) as H1.
  pose proof (JumpboxFacts.try_connect_hosts env p w) as [Hh1 _].
  destruct (_try_connect env p w) as [[] w1]; cbn [fst snd] in *.
  { left. rewrite H1. auto. }
  pose proof (try_connect_jumpbox env f w1) as H2.
  pose proof (JumpboxFacts.try_connect_hosts env f w1) as [Hh2 _].
  destruct (_try_connect env f w1) as [[] w2]; cbn [fst snd] in *.
  - right. left. rewrite H2, H1. auto.
  - right. right. rewrite H2, H1, Hh2, Hh1, <- app_assoc. auto.
Qed.

End JumpboxMoreFacts.

(** X23: after [connect], whether it succeeded or not, [disconnect] always
    leaves the jumpbox disconnected, with the client of the last host
    attempt closed. *)
Theorem jumpbox_disconnect_after_connect (env : NREJumpbox.Env) (w : NREJumpbox.World) :
  let j := NREJumpbox.disconnect (NREJumpbox.jumpbox (NREJumpbox.connect env w).2) in
  NREJumpbox.connected j = false
  /\ exists client, NREJumpbox.ssh_client j = Some client /\ closed client = true.
Proof.
  cbn zeta.
  destruct (JumpboxMoreFacts.connect_jumpbox env w) as [[_ ->] | [[_ ->] | (_ & -> & _)]];
    (split; [reflexivity | eexists; split; reflexivity]).
Qed.

(** X24: [connect] answers True exactly when it leaves the jumpbox
    connected to one of the two configured hosts, named in
    [current_host]; when it answers False both hosts were tried, in order,
    and [connected] and [current_host] are what they were. The credentials
    and the configuration never change. *)
Theorem jumpbox_connect_outcome (env : NREJumpbox.Env) (w : NREJumpbox.World) :
  let out := NREJumpbox.connect env w in
  (if out.1
   then NREJumpbox.connected (NREJumpbox.jumpbox out.2) = true
        /\ exists h, h ∈ NREJumpbox.hosts_to_try (NREJumpbox.jumpbox w)
                     /\ NREJumpbox.current_host (NREJumpbox.jumpbox out.2) = Some h
   else NREJumpbox.connected (NREJumpbox.jumpbox out.2)
        = NREJumpbox.connected (NREJumpbox.jumpbox w)
        /\ NREJumpbox.current_host (NREJumpbox.jumpbox out.2)
           = NREJumpbox.current_host (NREJumpbox.jumpbox w)
        /\ NREJumpbox.hosts_tried out.2
           = NREJumpbox.hosts_tried w ++ NREJumpbox.hosts_to_try (NREJumpbox.jumpbox w))
  /\ NREJumpbox.username (NREJumpbox.jumpbox out.2) = NREJumpbox.username (NREJumpbox.jumpbox w)
  /\ NREJumpbox.password (NREJumpbox.jumpbox out.2) = NREJumpbox.password (NREJumpbox.jumpbox w)
  /\ NREJumpbox.config (NREJumpbox.jumpbox out.2) = NREJumpbox.config (NREJumpbox.jumpbox w).
Proof.
  cbn zeta.
  destruct (JumpboxMoreFacts.connect_jumpbox env w)
    as [[-> ->] | [[-> ->] | (-> & -> & ->)]]; cbn [NREJumpbox.mark_connected
      NREJumpbox.set_client NREJumpbox.connected NREJumpbox.current_host
      NREJumpbox.username NREJumpbox.password NREJumpbox.config].
  - repeat split. eexists. split; [|reflexivity]. apply list_elem_of_here.
  - repeat split. eexists. split; [|reflexivity].
    apply list_elem_of_further, list_elem_of_here.
  - repeat split.
Qed.

(** X25: one host attempt makes at most two transport connections, both to
    that host: none when there is neither a key nor a password (or looking
    for keys raises); with keys, the key attempt first; the password is
    offered only when it is not empty, and after a key attempt only when
    that attempt was answered by an authentication failure (a timeout, a
    DNS failure or another error ends the attempt). The answer is True
    exactly when the last connection made was accepted. *)
Theorem try_connect_attempts (env : NREJumpbox.Env) (hostname : string)
    (w : NREJumpbox.World) :
  let out := NREJumpbox._try_connect env hostname w in
  let log := NREJumpbox.net_log w in
  let pw := mkConnAttempt hostname (ByPassword (NREJumpbox.password (NREJumpbox.jumpbox w))) in
  (NREJumpbox.net_log out.2 = log /\ out.1 = false)
  \/ (exists keys,
        keys <> []
        /\ NREJumpbox.find_ssh_keys env log = Some keys
        /\ NREJumpbox.net_log out.2 = log ++ [mkConnAttempt hostname (ByKey keys)]
        /\ (out.1 = true <->
            NREJumpbox.net_connect env log (mkConnAttempt hostname (ByKey keys)) = ConnOk))
  \/ (NREJumpbox.find_ssh_keys env log = Some []
      /\ NREJumpbox.password (NREJumpbox.jumpbox w) <> EmptyString
      /\ NREJumpbox.net_log out.2 = log ++ [pw]
      /\ (out.1 = true <-> NREJumpbox.net_connect env log pw = ConnOk))
  \/ (exists keys,
        keys <> []
        /\ NREJumpbox.find_ssh_keys env log = Some keys
        /\ NREJumpbox.net_connect env log (mkConnAttempt hostname (ByKey keys))
           = AuthenticationException
        /\ NREJumpbox.password (NREJumpbox.jumpbox w) <> EmptyString
        /\ NREJumpbox.net_log out.2 = log ++ [mkConnAttempt hostname (ByKey keys); pw]
        /\ (out.1 = true <->
            NREJumpbox.net_connect env (log ++ [mkConnAttempt hostname (ByKey keys)]) pw
            = ConnOk)).
Proof.
  cbn zeta. unfold NREJumpbox._try_connect. cbn [NREJumpbox.net_log].
  destruct (NREJumpbox.find_ssh_keys env (NREJumpbox.net_log w)) as [[|k ks]|] eqn:Hkeys;
    [ | | left; split; reflexivity].
  - unfold NREJumpbox.try_password, NREJumpbox.transport_connect.
    cbn [NREJumpbox.jumpbox NREJumpbox.set_client NREJumpbox.password NREJumpbox.net_log
         NREJumpbox.hosts_tried].
    destruct (String.eqb_spec (NREJumpbox.password (NREJumpbox.jumpbox w)) EmptyString)
      as [Hpw|Hpw]; [left; split; reflexivity|].
    right. right. left. split; [reflexivity|]. split; [exact Hpw|].
    destruct (NREJumpbox.net_connect env _ _) eqn:Hnet; cbn [fst snd NREJumpbox.net_log];
      (split; [reflexivity|]); split; congruence.
  - unfold NREJumpbox.transport_connect.
    cbn [NREJumpbox.jumpbox NREJumpbox.net_log NREJumpbox.hosts_tried].
    destruct (NREJumpbox.net_connect env (NREJumpbox.net_log w)
                (mkConnAttempt hostname (ByKey (k :: ks)))) eqn:Hkey;
      cbn [fst snd NREJumpbox.net_log];
      try (right; left; exists (k :: ks); split; [discriminate|]; split; [reflexivity|];
           split; [reflexivity|]; rewrite Hkey; split; congruence).
    unfold NREJumpbox.try_password, NREJumpbox.transport_connect.
    cbn [NREJumpbox.jumpbox NREJumpbox.set_client NREJumpbox.password NREJumpbox.net_log
         NREJumpbox.hosts_tried].
    destruct (String.eqb_spec (NREJumpbox.password (NREJumpbox.jumpbox w)) EmptyString)
      as [Hpw|Hpw]; cbn [fst snd NREJumpbox.net_log].
    + right. left. exists (k :: ks). split; [discriminate|]. split; [reflexivity|].
      split; [reflexivity|]. rewrite Hkey. split; congruence.
    + right. right. right. exists (k :: ks). split; [discriminate|].
      split; [reflexivity|]. split; [exact Hkey|]. split; [exact Hpw|].
      destruct (NREJumpbox.net_connect env
                  (NREJumpbox.net_log w ++ [mkConnAttempt hostname (ByKey (k :: ks))]) _)
        eqn:Hnet; cbn [fst snd NREJumpbox.net_log];
        (split; [rewrite <- app_assoc; reflexivity|]); split; congruence.
Qed.

(** X26: [NREJumpbox.execute_command] reports success only on a connected
    jumpbox with a client, when the command ran to its end with an error
    stream that is empty or mentions "Warning"; and whenever the command ran
    to its end, the text returned, output or error, is stripped: stripping
    it again changes nothing. *)
Theorem jumpbox_execute_command_stripped (j : NREJumpbox.t) (command : string) :
  let out := JumpboxExec.execute_command j command in
  (out.1 = true ->
     NREJumpbox.connected j = true
     /\ exists client stdout stderr,
          NREJumpbox.ssh_client j = Some client
          /\ exec_command client command = Streams stdout stderr
          /\ out.2 = PyStr.strip stdout
          /\ (stderr = EmptyString \/ PyStr.contains "Warning" stderr = true))
  /\ (forall client stdout stderr,
        NREJumpbox.connected j = true ->
        NREJumpbox.ssh_client j = Some client ->
        exec_command client command = Streams stdout stderr ->
        PyStr.strip out.2 = out.2
        /\ out.2 = (if out.1 then PyStr.strip stdout else PyStr.strip stderr)).
Proof.
  cbn zeta. unfold JumpboxExec.execute_command. split.
  - destruct (NREJumpbox.connected j); cbn [negb]; [|discriminate].
    destruct (NREJumpbox.ssh_client j) as [client|]; [|discriminate].
    destruct (exec_command client command) as [stdout stderr| |e] eqn:Hexec;
      try discriminate.
    destruct (String.eqb_spec stderr EmptyString) as [->|Hne]; cbn [negb andb].
    + intros _. split; [reflexivity|]. exists client, stdout, EmptyString. auto.
    + destruct (PyStr.contains "Warning" stderr) eqn:Hw; cbn [negb]; [|discriminate].
      intros _. split; [reflexivity|]. exists client, stdout, stderr. auto.
  - intros client stdout stderr -> -> ->. cbn [negb].
    destruct (negb (String.eqb stderr EmptyString) && negb (PyStr.contains "Warning" stderr));
      cbn [fst snd]; split; try reflexivity; apply NormalizeFacts.strip_idem.
Qed.

Lemma jumpbox_execute_command_stripped_witness :
  let j := NREJumpbox.mk "vn59iz6" "secret" default_jumpbox_config
             (Some (mkClient false (fun _ => Streams "  oser500521 " EmptyString)))
             true (Some "oser500521") in
  NREJumpbox.connected j = true
  /\ JumpboxExec.execute_command j "hostname" = (true, "oser500521").
Proof.
  intros j. split; [reflexivity|].
  destruct (proj2 (jumpbox_execute_command_stripped j "hostname") _ _ _
              eq_refl eq_refl eq_refl) as [_ Hout].
  destruct (JumpboxExec.execute_command j "hostname") as [ok text] eqn:E.
  cbn [fst snd] in Hout. vm_compute in E. injection E as <- <-. reflexivity.
Defined.

(** ** Formatting a parsed result *)

Module FormatFacts.
Import OutputFormat.

Lemma field_lines_join items : exists text, join_lines (field_lines items) = Some text.
Proof.
  induction items as [|[k v] items [text IH]]; cbn [field_lines].
  - eexists. reflexivity.
  - destruct (negb (String.eqb k "raw_output")); [|eexists; exact IH].
    cbn [join_lines]. rewrite IH.
    destruct (field_lines items); eexists; reflexivity.
Qed.

Lemma field_lines_nil_has_raw items :
  items <> [] -> field_lines items = [] ->
  exists raw, assoc_get "raw_output" items = Some raw.
Proof.
  destruct items as [|[k v] items]; [contradiction|]. intros _. cbn [field_lines].
  destruct (String.eqb_spec k "raw_output") as [->|Hne]; cbn [negb]; [|discriminate].
  intros _. exists v. reflexivity.
Qed.

End FormatFacts.

(** X27: [format_output] of the empty dictionary is "No output". Of any
    other dictionary it is either the field lines joined by newlines (one
    line per key other than "raw_output", the raw text left out) when there
    is such a key, or else the value of "raw_output" alone, which is always
    present then and must be a text (an integer there makes the join raise).
    The text "No data parsed" is never produced by the last branch. *)
Theorem format_output_cases (parsed_data : list (string * PyVal)) :
  match parsed_data with
  | [] => OutputFormat.format_output parsed_data = Some "No output"
  | _ =>
      match OutputFormat.field_lines parsed_data with
      | [] =>
          exists raw,
            assoc_get "raw_output" parsed_data = Some raw
            /\ OutputFormat.format_output parsed_data
               = match raw with VStr text => Some text | VInt _ => None end
      | lines =>
          exists text,
            OutputFormat.format_output parsed_data = Some text
            /\ OutputFormat.join_lines lines = Some text
            /\ length lines
               = length (filter (fun kv => kv.1 <> "raw_output") parsed_data)
      end
  end.
Proof.
  destruct parsed_data as [|kv rest]; [reflexivity|].
  set (items := kv :: rest).
  assert (Hcount : length (OutputFormat.field_lines items)
                   = length (filter (fun kv => kv.1 <> "raw_output") items)).
  { clear. induction items as [|[k v] items IH]; [reflexivity|].
    cbn [OutputFormat.field_lines]. rewrite filter_cons. cbn [fst].
    destruct (String.eqb_spec k "raw_output") as [->|Hne]; cbn [negb].
    - rewrite decide_False by (intros H; apply H; reflexivity). exact IH.
    - rewrite decide_True by exact Hne. cbn [length]. rewrite IH. reflexivity. }
  destruct (OutputFormat.field_lines items) as [|l ls] eqn:Hlines.
  - destruct (FormatFacts.field_lines_nil_has_raw items) as [raw Hraw];
      [discriminate | exact Hlines |].
    exists raw. split; [exact Hraw|].
    unfold OutputFormat.format_output. fold items. cbn iota.
    subst items. rewrite Hlines, Hraw. cbn [app].
    destruct raw; reflexivity.
  - destruct (FormatFacts.field_lines_join items) as [text Htext].
    rewrite Hlines in Htext. exists text.
    split; [|split; [exact Htext | exact Hcount]].
    unfold OutputFormat.format_output. subst items. rewrite Hlines.
    destruct (assoc_get "raw_output" (kv :: rest)); exact Htext.
Qed.

(** X28: when a parser found no structured field, formatting its result
    gives the raw text back: the first 500 characters of the output for the
    four known OS tags, the whole output for any other tag. *)
Theorem format_of_unparsed_output (output os_type : string) :
  (no_structured_field (OutputParser.parse_show_version output os_type) ->
   OutputFormat.format_output (map_to_list (OutputParser.parse_show_version output os_type))
   = Some (if OutputParser.known_os os_type then PyStr.take 500 output else output))
  /\ (no_structured_field (OutputParser.parse_bgp_summary output os_type) ->
      OutputFormat.format_output (map_to_list (OutputParser.parse_bgp_summary output os_type))
      = Some (if OutputParser.known_os os_type then PyStr.take 500 output else output)).
Proof.
  assert (Hboth : forall parse,
            parse = OutputParser.parse_show_version
            \/ parse = OutputParser.parse_bgp_summary ->
            no_structured_field (parse output os_type) ->
            OutputFormat.format_output (map_to_list (parse output os_type))
            = Some (if OutputParser.known_os os_type then PyStr.take 500 output else output)).
  { intros parse Hparse Hnone.
    destruct (OutputParser.known_os os_type) eqn:Hknown.
    - destruct (ParserFacts.known_os_shape parse output os_type Hparse Hknown)
        as (data & Hraw & Heq).
      rewrite Heq in Hnone |- *.
      destruct (ParserFacts.py_or_raw_prefix data output Hraw) as (_ & Hfb & _).
      rewrite (Hfb Hnone). unfold OutputParser.raw_prefix.
      rewrite map_to_list_singleton. reflexivity.
    - destruct (ParserFacts.unknown_os_passthrough output os_type Hknown) as [Hv Hb].
      assert (Heq : parse output os_type = {[ "raw_output" := VStr output ]})
        by (destruct Hparse as [-> | ->]; assumption).
      rewrite Heq, map_to_list_singleton. reflexivity. }
  split; apply Hboth; auto.
Qed.

Lemma format_of_unparsed_output_witness :
  no_structured_field (OutputParser.parse_show_version "% Invalid input" "cisco_ios")
  /\ OutputFormat.format_output
       (map_to_list (OutputParser.parse_show_version "% Invalid input" "cisco_ios"))
     = Some "% Invalid input".
Proof.
  assert (Hnone : no_structured_field
                    (OutputParser.parse_show_version "% Invalid input" "cisco_ios")).
  { assert (Hrun : OutputParser.parse_show_version "% Invalid input" "cisco_ios"
                   = {[ "raw_output" := VStr "% Invalid input" ]}) by (vm_compute; reflexivity).
    intros k Hk. rewrite Hrun. apply lookup_singleton_ne. congruence. }
  split; [exact Hnone|].
  rewrite (proj1 (format_of_unparsed_output "% Invalid input" "cisco_ios") Hnone).
  reflexivity.
Defined.

(** ** Values cut at the second colon *)

Module ColonFacts.
Import PyStr OutputParser.

Lemma split_pieces_without_sep sep s :
  Forall (fun piece => has_char sep piece = false) (split sep s).
Proof.
  induction s as [|c s IH]; cbn [split].
  - constructor; [reflexivity | constructor].
  - destruct (Ascii.eqb c sep) eqn:Hc.
    + constructor; [reflexivity | exact IH].
    + destruct (split sep s) as [|p ps]; constructor.
      * cbn [has_char]. rewrite Hc. reflexivity.
      * constructor.
      * cbn [has_char]. rewrite Hc. inversion IH; subst. assumption.
      * inversion IH; subst. assumption.
Qed.

Lemma lstrip_keeps_absent c s : has_char c s = false -> has_char c (lstrip s) = false.
Proof.
  induction s as [|a s IH]; cbn [lstrip has_char]; [reflexivity|].
  intros H. apply orb_false_elim in H as [Ha Hs].
  destruct (is_space_c a); [apply IH, Hs|]. cbn [has_char]. rewrite Ha, Hs. reflexivity.
Qed.

Lemma rstrip_keeps_absent c s : has_char c s = false -> has_char c (rstrip s) = false.
Proof.
  induction s as [|a s IH]; cbn [rstrip has_char]; [reflexivity|].
  intros H. apply orb_false_elim in H as [Ha Hs]. specialize (IH Hs).
  destruct (rstrip s) as [|b r].
  - destruct (is_space_c a); cbn [has_char]; [reflexivity|]. rewrite Ha. reflexivity.
  - cbn [has_char] in *. rewrite Ha. exact IH.
Qed.

(** What [line.split(":")[1].strip()] returns has no colon in it. *)
Lemma after_colon_without_colon line : has_char ":"%char (after_colon line) = false.
Proof.
  unfold after_colon, strip. apply rstrip_keeps_absent, lstrip_keeps_absent.
  pose proof (split_pieces_without_sep ":"%char line) as Hall.
  destruct (split ":"%char line) as [|p0 [|p1 ps]]; cbn [nth]; try reflexivity.
  inversion Hall as [|? ? _ Hrest]; subst. inversion Hrest; subst. assumption.
Qed.

Lemma colon_free_empty : colon_free ∅.
Proof. intros k text H. rewrite lookup_empty in H. discriminate. Qed.

Lemma colon_free_insert k line m :
  colon_free m -> colon_free (<[k := VStr (after_colon line)]> m).
Proof.
  intros Hm k' text. destruct (decide (k = k')) as [<-|Hne].
  - rewrite lookup_insert_eq. intros [= <-]. apply after_colon_without_colon.
  - rewrite lookup_insert_ne by exact Hne. apply Hm.
Qed.

Lemma colon_free_fold (f : gmap string PyVal -> string -> gmap string PyVal) lines m :
  (forall d line, colon_free d -> colon_free (f d line)) ->
  colon_free m -> colon_free (fold_left f lines m).
Proof.
  intros Hf. revert m. induction lines as [|l lines IH]; intros m Hm; cbn.
  - exact Hm.
  - apply IH, Hf, Hm.
Qed.

Ltac colon_step f :=
  intros d line Hd; unfold f;
  repeat match goal with
         | |- context [if ?b then _ else _] => destruct b
         end;
  solve [ assumption | apply colon_free_insert; assumption ].

Lemma arista_version_colon_free output : colon_free (arista_version_data output).
Proof.
  unfold arista_version_data. apply colon_free_fold; [|apply colon_free_empty].
  colon_step arista_version_line.
Qed.

Lemma sonic_version_colon_free output : colon_free (sonic_version_data output).
Proof.
  unfold sonic_version_data. apply colon_free_fold; [|apply colon_free_empty].
  colon_step sonic_version_line.
Qed.

Lemma juniper_bgp_colon_free output : colon_free (juniper_bgp_data output).
Proof.
  unfold juniper_bgp_data. apply colon_free_fold; [|apply colon_free_empty].
  colon_step juniper_bgp_line.
Qed.

Lemma py_or_field data output k v :
  k <> "raw_output" -> py_or data (raw_prefix output) !! k = Some v -> data !! k = Some v.
Proof.
  intros Hk. unfold py_or. destruct (decide (data = ∅)); [|exact id].
  unfold raw_prefix. rewrite lookup_singleton_ne by congruence. discriminate.
Qed.

End ColonFacts.

(** X29: the Arista and SONiC version fields and the Juniper BGP fields are
    what stands between the first and the second colon of their line,
    stripped: whatever the output, no such field value contains a colon
    (an uptime such as "1 day, 3:45" is kept as "1 day, 3"). *)
Theorem colon_fields_are_cut (output key text : string) :
  key <> "raw_output" ->
  (OutputParser.parse_show_version output "arista_eos" !! key = Some (VStr text) ->
   PyStr.has_char ":"%char text = false)
  /\ (OutputParser.parse_show_version output "sonic_cli" !! key = Some (VStr text) ->
      PyStr.has_char ":"%char text = false)
  /\ (OutputParser.parse_bgp_summary output "juniper_junos" !! key = Some (VStr text) ->
      PyStr.has_char ":"%char text = false).
Proof.
  intros Hk.
  change (OutputParser.parse_show_version output "arista_eos")
    with (OutputParser._parse_arista_version output).
  change (OutputParser.parse_show_version output "sonic_cli")
    with (OutputParser._parse_sonic_version output).
  change (OutputParser.parse_bgp_summary output "juniper_junos")
    with (OutputParser._parse_juniper_bgp output).
  repeat split; intros H; apply (ColonFacts.py_or_field _ _ _ _ Hk) in H.
  - exact (ColonFacts.arista_version_colon_free output key text H).
  - exact (ColonFacts.sonic_version_colon_free output key text H).
  - exact (ColonFacts.juniper_bgp_colon_free output key text H).
Qed.

Lemma colon_fields_are_cut_witness :
  OutputParser.parse_show_version "System uptime: 1 day, 3:45" "sonic_cli"
  = {[ "Uptime" := VStr "1 day, 3" ]}
  /\ PyStr.has_char ":"%char "1 day, 3" = false.
Proof.
  assert (Hrun : OutputParser.parse_show_version "System uptime: 1 day, 3:45" "sonic_cli"
                 = {[ "Uptime" := VStr "1 day, 3" ]}) by (vm_compute; reflexivity).
  split; [exact Hrun|].
  apply (proj1 (proj2 (colon_fields_are_cut "System uptime: 1 day, 3:45" "Uptime" "1 day, 3"
                         ltac:(discriminate)))).
  rewrite Hrun. apply lookup_singleton_eq.
Defined.

(** ** The neighbor count *)

Module NeighborFacts.
Import OutputParser.

Lemma count_lines_from (p : string -> bool) (lines : list string) (n : nat) :
  fold_left (fun (n : nat) (line : string) => if p line then S n else n) lines n
  <= n + length lines.
Proof.
  revert n. induction lines as [|l lines IH]; intros n; cbn [fold_left length]; [lia|].
  destruct (p l); [specialize (IH (S n)) | specialize (IH n)]; lia.
Qed.

Lemma count_lines_bound (p : string -> bool) (lines : list string) :
  count_lines p lines <= length lines.
Proof. unfold count_lines. apply (count_lines_from p lines 0). Qed.

(** On data without the key, [set_neighbors] writes a positive count or
    nothing. *)
Lemma set_neighbors_value n data v :
  data !! "BGP_Neighbors" = None ->
  set_neighbors n data !! "BGP_Neighbors" = Some v -> v = VInt n /\ 1 <= n.
Proof.
  intros Hnone. unfold set_neighbors. destruct (Nat.ltb_spec 0 n) as [Hpos|Hzero].
  - rewrite lookup_insert_eq. intros [= <-]. split; [reflexivity | lia].
  - rewrite Hnone. discriminate.
Qed.

Lemma py_or_neighbors data output v :
  py_or data (raw_prefix output) !! "BGP_Neighbors" = Some v ->
  data !! "BGP_Neighbors" = Some v.
Proof. apply ColonFacts.py_or_field. discriminate. Qed.

Lemma fold_lacks_neighbors ks (f : gmap string PyVal -> string -> gmap string PyVal) lines :
  "BGP_Neighbors" ∉ ks ->
  (forall d line, keys_within ks d -> keys_within ks (f d line)) ->
  fold_left f lines ∅ !! "BGP_Neighbors" = None.
Proof.
  intros Hk Hf. eapply ResultFacts.lacks_outside; [|exact Hk].
  apply FieldFacts.within_fold; [exact Hf | apply FieldFacts.within_empty].
Qed.

End NeighborFacts.

(** X30: whatever the OS tag and the output, a "BGP_Neighbors" field, when
    present, is an integer of at least 1 and at most the number of lines of
    the output: a count of zero is never reported, the field is left out
    instead. *)
Theorem bgp_neighbors_positive (output os_type : string) (v : PyVal) :
  OutputParser.parse_bgp_summary output os_type !! "BGP_Neighbors" = Some v ->
  exists n, v = VInt n /\ 1 <= n <= length (OutputParser.lines_of output).
Proof.
  unfold OutputParser.parse_bgp_summary.
  assert (Hcount : forall p data,
            data !! "BGP_Neighbors" = None ->
            OutputParser.set_neighbors
              (OutputParser.count_lines p (OutputParser.lines_of output)) data
              !! "BGP_Neighbors" = Some v ->
            exists n, v = VInt n /\ 1 <= n <= length (OutputParser.lines_of output)).
  { intros p data Hnone Hv.
    destruct (NeighborFacts.set_neighbors_value _ _ _ Hnone Hv) as [-> Hpos].
    eexists. split; [reflexivity|]. split; [exact Hpos|].
    apply NeighborFacts.count_lines_bound. }
  destruct (String.eqb os_type "cisco_ios").
  { intros H. apply NeighborFacts.py_or_neighbors in H. revert H. apply Hcount.
    apply (NeighborFacts.fold_lacks_neighbors ["Router_ID"]);
      [apply (bool_decide_unpack _); vm_compute; exact I|].
    FieldFacts.field_step OutputParser.cisco_bgp_line. }
  destruct (String.eqb os_type "arista_eos").
  { intros H. apply NeighborFacts.py_or_neighbors in H. revert H. apply Hcount.
    apply (NeighborFacts.fold_lacks_neighbors ["AS_Number"]);
      [apply (bool_decide_unpack _); vm_compute; exact I|].
    FieldFacts.field_step OutputParser.arista_bgp_line. }
  destruct (String.eqb os_type "juniper_junos").
  { intros H. apply NeighborFacts.py_or_neighbors in H.
    rewrite (ResultFacts.lacks_outside _ _ "BGP_Neighbors"
               (FieldFacts.juniper_bgp_keys output)) in H; [discriminate|].
    apply (bool_decide_unpack _). vm_compute. exact I. }
  destruct (String.eqb os_type "sonic_cli").
  { intros H. apply NeighborFacts.py_or_neighbors in H. revert H. apply Hcount.
    apply lookup_empty. }
  rewrite lookup_singleton_ne by discriminate. discriminate.
Qed.

Lemma bgp_neighbors_positive_witness :
  OutputParser.parse_bgp_summary ("10.0.0.1 4 65001" +:+ PyStr.nl +:+ "10.0.0.2 4 65002")
    "arista_eos" !! "BGP_Neighbors" = Some (VInt 2).
Proof.
  assert (Hrun : OutputParser.parse_bgp_summary
                   ("10.0.0.1 4 65001" +:+ PyStr.nl +:+ "10.0.0.2 4 65002") "arista_eos"
                 !! "BGP_Neighbors" = Some (VInt 2)) by (vm_compute; reflexivity).
  destruct (bgp_neighbors_positive _ _ _ Hrun) as (n & Hn & _). exact Hrun.
Defined.
